(** * Sell-signal pipeline: [sell_model.run] and [orchestrator_stage2_sell]

    A shallow embedding of the two Python modules of the repository,
    [sell_model.py] (the scoring function [run]) and [orchestrator.py]
    (the per-trade loop [orchestrator_stage2_sell]), followed by the
    properties of the pipeline.

    Conventions of the embedding:
    - a Python/BSON scalar is a [value]; [VNone] stands for [None], a BSON
      null and the NaN pandas puts in an empty cell;
    - a float is modelled by the rational it denotes ([Q]); a comparison
      of two floats of the same width is exact, so [>=] is [Qle_bool] on
      the rationals; the scores are the binary32 numbers xgboost returns,
      and numpy narrows the binary64 constant [MIN_SELL_SCORE] to binary32
      ([float32]) before it compares a score with it;
    - a dict or a MongoDB document is an association list in key order
      ([Doc]); [d[k] = v] is [assign];
    - a pandas DataFrame is stored by columns together with the length of
      its index ([DataFrame]);
    - everything outside the two modules (file system, environment,
      MongoDB server, bson, xgboost, the clock) is a field of [Host];
    - logging and storage calls are recorded as a list of [Event]s; a log
      record carries the values its f-string interpolates; an exception
      that no [try] catches is the event [Raise];
    - a frame is taken with distinct column labels, as every frame built
      from dicts is; of the behaviour of pandas on repeated labels only
      the [ValueError] of line 54 of [sell_model.py] is modelled. *)

From Stdlib Require Import List String Ascii ZArith QArith Qround Qabs Bool
  Arith Lia.
Import ListNotations.
Open Scope string_scope.
Open Scope list_scope.
Open Scope nat_scope.

(** ** Values and documents *)

Inductive value : Type :=
| VNone
| VNum (q : Q)
| VStr (s : string)
| VOid (o : string)
| VDate (t : Z).

(** [==] of Python / equality match of MongoDB on scalars. *)
Definition value_eqb (a b : value) : bool :=
  match a, b with
  | VNone, VNone => true
  | VNum x, VNum y => Qeq_bool x y
  | VStr x, VStr y => String.eqb x y
  | VOid x, VOid y => String.eqb x y
  | VDate x, VDate y => Z.eqb x y
  | _, _ => false
  end.

(** Python truthiness, as used by [not buyid]. *)
Definition truthy (v : value) : bool :=
  match v with
  | VNone => false
  | VNum q => negb (Qeq_bool q 0)
  | VStr s => negb (String.eqb s "")
  | VOid _ => true
  | VDate _ => true
  end.

(** [pandas.isnull] on a cell. *)
Definition isnull (v : value) : bool :=
  match v with VNone => true | _ => false end.

Definition inb (c : string) (l : list string) : bool :=
  existsb (String.eqb c) l.

Section Assoc.
Context {V : Type}.

Fixpoint lookup (k : string) (d : list (string * V)) : option V :=
  match d with
  | [] => None
  | (k', v) :: d' => if String.eqb k k' then Some v else lookup k d'
  end.

(** [d[k] = v]: replace the binding where it stands, or append it. *)
Fixpoint assign (k : string) (v : V) (d : list (string * V))
  : list (string * V) :=
  match d with
  | [] => [(k, v)]
  | (k', v') :: d' =>
      if String.eqb k k' then (k, v) :: d' else (k', v') :: assign k v d'
  end.
End Assoc.

Definition Doc : Type := list (string * value).

(** A field read that sees an absent field as null. *)
Definition get (k : string) (d : Doc) : value :=
  match lookup k d with Some v => v | None => VNone end.

(** ** Floats *)

(** Rounding of a rational to the nearest integer, ties to even. *)
Definition round_half_even (q : Q) : Z :=
  let f := Qfloor q in
  match Qcompare (q - inject_Z f) (1 # 2) with
  | Lt => f
  | Gt => (f + 1)%Z
  | Eq => if Z.even f then f else (f + 1)%Z
  end.

(** The exponent [e] with [2^e <= q < 2^(e+1)], for a positive [q]. *)
Definition binade (q : Q) : Z :=
  let k := (Z.log2 (Qnum q) - Z.log2 (Zpos (Qden q)))%Z in
  if Qle_bool (Qpower (2 # 1) k) q then k else (k - 1)%Z.

(** [numpy.float32(q)]: the binary32 number nearest to [q], ties to even
    (24 significant bits, exponents from -126 on, subnormal numbers
    included), for a [q] within the range of the finite binary32
    numbers. *)
Definition float32 (q : Q) : Q :=
  if Qeq_bool q 0 then 0%Q else
  let a := Qabs q in
  let ulp := Qpower (2 # 1) (Z.max (binade a) (-126) - 23) in
  let m := (inject_Z (round_half_even (a / ulp)) * ulp)%Q in
  Qred (if Qle_bool 0 q then m else - m)%Q.

(** ** DataFrames *)

(** [df[c]] is a frame and not a column: the label occurs more than
    once. *)
Definition duplicated (c : string) (labels : list string) : bool :=
  1 <? List.length (filter (String.eqb c) labels).

Record DataFrame : Type := mkDF {
  nrows : nat;                          (* len(df.index) *)
  cols : list (string * list value)     (* the columns, in order *)
}.

Definition columns (df : DataFrame) : list string := map fst (cols df).

(** [df.empty]: no row or no column. *)
Definition empty (df : DataFrame) : bool :=
  (nrows df =? 0) || (List.length (cols df) =? 0).

Definition column (c : string) (df : DataFrame) : list value :=
  match lookup c (cols df) with Some vs => vs | None => [] end.

(** [df[c] = values]. *)
Definition setitem (df : DataFrame) (c : string) (vs : list value)
  : DataFrame :=
  mkDF (nrows df) (assign c vs (cols df)).

(** [df[c] = scalar], broadcast over the index. *)
Definition setitem_scalar (df : DataFrame) (c : string) (v : value)
  : DataFrame :=
  setitem df c (repeat v (nrows df)).

(** [df[names]] for a list of names. *)
Definition getitem (df : DataFrame) (names : list string) : DataFrame :=
  mkDF (nrows df)
       (flat_map (fun c => match lookup c (cols df) with
                           | Some vs => [(c, vs)]
                           | None => []
                           end) names).

(** [df.add_prefix(p)]. *)
Definition add_prefix (p : string) (df : DataFrame) : DataFrame :=
  mkDF (nrows df) (map (fun cv => ((p ++ fst cv)%string, snd cv)) (cols df)).

(** [df.rename(columns={old: new})]. *)
Definition rename (old new : string) (df : DataFrame) : DataFrame :=
  mkDF (nrows df)
       (map (fun cv => (if String.eqb (fst cv) old then new else fst cv,
                        snd cv)) (cols df)).

Fixpoint filter_mask {A : Type} (mask : list bool) (l : list A) : list A :=
  match mask, l with
  | b :: mask', x :: l' =>
      if b then x :: filter_mask mask' l' else filter_mask mask' l'
  | _, _ => []
  end.

Definition count_true (mask : list bool) : nat :=
  List.length (filter (fun b => b) mask).

(** [df[mask]] for a boolean Series. *)
Definition getitem_mask (df : DataFrame) (mask : list bool) : DataFrame :=
  mkDF (count_true mask)
       (map (fun cv => (fst cv, filter_mask mask (snd cv))) (cols df)).

Definition pad (n : nat) (vs : list value) : list value :=
  vs ++ repeat VNone (n - List.length vs).

(** [pd.concat([a.reset_index(drop=True), b.reset_index(drop=True)], axis=1)]:
    rows are aligned by position, a shorter frame is filled with NaN. *)
Definition concat_axis1 (a b : DataFrame) : DataFrame :=
  let n := Nat.max (nrows a) (nrows b) in
  mkDF n (map (fun cv => (fst cv, pad n (snd cv))) (cols a ++ cols b)).

(** [df.to_dict("records")]. *)
Definition to_records (df : DataFrame) : list Doc :=
  map (fun i => map (fun cv => (fst cv, nth i (snd cv) VNone)) (cols df))
      (seq 0 (nrows df)).

Definition add_key (acc : list string) (k : string) : list string :=
  if inb k acc then acc else acc ++ [k].

(** [pd.DataFrame(docs)] for a list of dicts: one row per dict, the columns
    are the keys in order of first appearance, an absent key is NaN. *)
Definition pd_DataFrame (docs : list Doc) : DataFrame :=
  let keys := fold_left (fun acc d => fold_left add_key (map fst d) acc)
                        docs [] in
  mkDF (List.length docs) (map (fun c => (c, map (get c) docs)) keys).

(** ** The world outside the two modules *)

(** A loaded [xgb.Booster]: [DMatrix] construction followed by [predict];
    [None] when either raises, otherwise one float per row ([None] in the
    list is NaN).  The floats [predict] returns are binary32 numbers; a
    score is held as the rational it denotes. *)
Definition Booster : Type := DataFrame -> option (list (option Q)).

(** A document of the historical collection; the server gives every stored
    document an [_id]. *)
Record Snapshot : Type := mkSnapshot {
  snap_id : value;
  snap_fields : Doc
}.

Definition snapshot_doc (s : Snapshot) : Doc :=
  ("_id", snap_id s) :: snap_fields s.

(** A document of the active-trades collection under the projection
    [{"symbol": 1, "buyid": 1, "_id": 0}]; [buyid] is what
    [trade.get('buyid')] returns, [VNone] when the field is absent. *)
Record Trade : Type := mkTrade {
  symbol : string;
  buyid : value
}.

Record Host : Type := mkHost {
  base_dir : string;
  file_exists : string -> bool;           (* os.path.exists *)
  getenv : string -> option string;       (* os.getenv after load_dotenv *)
  connect_ok : bool;                      (* the try block of lines 57-65
                                             completes without raising *)
  active_trades : list Trade;
  historical : list Snapshot;
  load_model : string -> option Booster;  (* Booster() + load_model *)
  bson_ObjectId : value -> option string; (* ObjectId(buyid), None if it
                                             raises *)
  utcnow : nat -> Z;                      (* datetime.utcnow() at the n-th
                                             write of the run *)
  update_raises : nat -> bool;            (* the n-th update_one raises *)
  generated_id : nat -> string            (* the ObjectId the server gives
                                             the document when the n-th
                                             update_one inserts one *)
}.

(** ** Events *)

Inductive level : Type := ERROR | WARNING | INFO.

Inductive LogMsg : Type :=
(* sell_model.py *)
| InputDataMissingOrEmpty
| SellModelFileNotFound (model_file : option string)
| LoadedSellModel (model_file : string)
| ErrorLoadingSellModel
| MissingExpectedColumns (missing : list string)
| PredictionsGenerated (n : nat)
| ErrorDuringPrediction
(* orchestrator.py *)
| DotenvNotFound (dotenv_path : string)
| MissingRequiredEnv
| SellModelFileNotFoundAt (model_file : string)
| ErrorConnecting
| NoActiveTrades
| TradeMissingBuyid (sym : string)
| ProcessingTrade (sym : string) (buyid : value)
| InvalidBuyidFormat (sym : string) (buyid : value)
| NoBoughtRow (buyid : value)
| NoLatestRow (sym : string)
| PredictionFailed (sym : string) (message : string)
| NoSuggestedTrades (sym : string)
| NoConfidenceScore (sym : string)
| NoPredictionsAboveThreshold (sym : string)
| SavedPredictions (n : nat) (sym : string) (collection : option string)
| ErrorSaving (sym : string)
| Completed.

Inductive Collection : Type := ActiveTradesCol | HistoricalCol.

Inductive Event : Type :=
| Log (l : level) (m : LogMsg)
| Find (c : Collection) (query : Doc)
| Predict (dmatrix : DataFrame)
| UpdateOne (filter update : Doc)
| Raise (exception : string).

(** ** sell_model.py *)

Module sell_model.

(** What a call of [run] gives: one of the two dicts it returns, or an
    exception that leaves it. *)
Inductive RunResult : Type :=
| RError (message : string)
| RSuccess (suggested_trades : DataFrame)
| RRaised (exception : string).

Definition BOUGHT_COLUMNS : list string :=
  [ "open"; "high"; "low"; "close"; "volume";
    "macd"; "macd_signal"; "macd_histogram";
    "rsi"; "rsi_sma";
    "ema_100"; "ema_200";
    "atr"; "ema_ratio";
    "macd_histogram_x_atr"; "buy_sell_pressure_x_ema_ratio";
    "buy_sell_pressure"; "relative_volume";
    "quote_volume_ratio"; "rsi_x_relative_volume" ].

Definition BUY_COLUMNS : list string :=
  map (fun col => "buy_" ++ col)%string BOUGHT_COLUMNS.

Definition SELL_COLUMNS : list string :=
  map (fun col => "sell_" ++ col)%string BOUGHT_COLUMNS.

Definition EXPECTED_FEATURES : list string := BUY_COLUMNS ++ SELL_COLUMNS.

(** Lines 52-54: copy every bought column present under its [buy_] name.
    When the label [col] is repeated, [df[col]] is a frame of several
    columns and pandas refuses to store it under one label: line 54 raises
    [ValueError], outside any [try]; this is [None]. *)
Definition add_buy_columns (df : DataFrame) : option DataFrame :=
  fold_left (fun acc col =>
               match acc with
               | None => None
               | Some df =>
                   if inb col (columns df)
                   then if duplicated col (columns df) then None
                        else Some (setitem df ("buy_" ++ col)%string
                                           (column col df))
                   else Some df
               end)
            BOUGHT_COLUMNS (Some df).

Definition score_value (s : option Q) : value :=
  match s with Some q => VNum q | None => VNone end.

Definition columns_to_return (df : DataFrame) : list string :=
  let base := [ "symbol"; "timestamp"; "confidence_score";
                "open"; "high"; "low"; "volume" ] in
  let base := if inb "sell_close" (columns df)
              then base ++ ["sell_close"] else base in
  filter (fun col => inb col (columns df)) base.

(** [run(inputs)]: [data] and [model_file] are [inputs.get(...)].  The
    frame is mutated in place by the Python code; the caller never reads
    it again, so only the result and the events are returned. *)
Definition run (h : Host) (data : option DataFrame)
           (model_file : option string) : RunResult * list Event :=
  let no_input := (RError "No input data",
                   [Log ERROR InputDataMissingOrEmpty]) in
  let no_file := (RError "model_file missing",
                  [Log ERROR (SellModelFileNotFound model_file)]) in
  match data with
  | None => no_input
  | Some df =>
  if empty df then no_input else
  match model_file with
  | None => no_file
  | Some f =>
  if String.eqb f "" || negb (file_exists h f) then no_file else
  match load_model h f with
  | None => (RError "Failed to load model", [Log ERROR ErrorLoadingSellModel])
  | Some model =>
  match add_buy_columns df with
  | None => (RRaised "ValueError",
             [Log INFO (LoadedSellModel f); Raise "ValueError"])
  | Some df =>
  let available_features :=
    filter (fun col => inb col (columns df)) EXPECTED_FEATURES in
  let missing :=
    filter (fun col => negb (inb col (columns df))) EXPECTED_FEATURES in
  let warn := match missing with
              | [] => []
              | _ => [Log WARNING (MissingExpectedColumns missing)]
              end in
  let dmatrix := getitem df available_features in
  let before := Log INFO (LoadedSellModel f) :: warn ++ [Predict dmatrix] in
  let failed := (RError "Prediction failed",
                 before ++ [Log ERROR ErrorDuringPrediction]) in
  match model dmatrix with
  | None => failed
  | Some scores =>
  if negb (List.length scores =? nrows df) then failed else
  let df := setitem df "confidence_score" (map score_value scores) in
  let df_to_return := getitem df (columns_to_return df) in
  (RSuccess df_to_return,
   before ++ [Log INFO (PredictionsGenerated (nrows df))])
  end end end end end.

End sell_model.

(** ** MongoDB operations used by the orchestrator *)

(** A document matches an equality filter when every filtered field is
    equal; an absent field matches null. *)
Definition matches (filter d : Doc) : bool :=
  forallb (fun kv => value_eqb (get (fst kv) d) (snd kv)) filter.

(** [{"$set": update}] applied to a document. *)
Definition apply_set (update d : Doc) : Doc :=
  fold_left (fun acc kv => assign (fst kv) (snd kv) acc) update d.

(** [update_one(filter, {"$set": update}, upsert=True)]: the first matching
    document is updated where it stands; without a match a document made of
    the filter's fields and the update is inserted, and the server gives it
    the [_id] [oid], stored as its first field. *)
Fixpoint update_one (filter update : Doc) (oid : string) (coll : list Doc)
  : list Doc :=
  match coll with
  | [] => [("_id", VOid oid) :: apply_set update filter]
  | d :: rest =>
      if matches filter d then apply_set update d :: rest
      else d :: update_one filter update oid rest
  end.

(** [find({"_id": oid})]. *)
Definition find_by_id (hist : list Snapshot) (o : string) : list Doc :=
  map snapshot_doc
      (filter (fun s => value_eqb (snap_id s) (VOid o)) hist).

(** BSON comparison order, as far as the sort on [timestamp] needs it. *)
Definition type_rank (v : value) : nat :=
  match v with
  | VNone => 0 | VNum _ => 1 | VStr _ => 2 | VOid _ => 3 | VDate _ => 4
  end.

Definition bson_ltb (a b : value) : bool :=
  match a, b with
  | VNum x, VNum y => negb (Qle_bool y x)
  | VStr x, VStr y => String.ltb x y
  | VOid x, VOid y => String.ltb x y
  | VDate x, VDate y => Z.ltb x y
  | _, _ => type_rank a <? type_rank b
  end.

(** [find({"symbol": sym}).sort("timestamp", -1).limit(1)]. *)
Definition find_latest (hist : list Snapshot) (sym : string) : list Doc :=
  let found := filter (fun d => value_eqb (get "symbol" d) (VStr sym))
                      (map snapshot_doc hist) in
  match found with
  | [] => []
  | d :: rest =>
      [fold_left (fun best d' =>
                    if bson_ltb (get "timestamp" best) (get "timestamp" d')
                    then d' else best) rest d]
  end.

(** ** orchestrator.py *)

Module orchestrator.

Import sell_model.

Definition BOUGHT_COLUMNS : list string :=
  [ "open"; "high"; "low"; "close"; "volume"; "quote_asset_volume";
    "number_of_trades"; "taker_buy_base"; "taker_buy_quote"; "macd";
    "macd_signal"; "macd_histogram"; "rsi"; "rsi_sma"; "ema_100";
    "ema_200"; "atr"; "relative_volume"; "quote_volume_ratio";
    "buy_sell_pressure"; "ema_ratio"; "rsi_x_relative_volume";
    "macd_histogram_x_atr"; "buy_sell_pressure_x_ema_ratio" ].

Definition SELL_COLUMNS : list string :=
  map (fun col => "sell_" ++ col)%string BOUGHT_COLUMNS.

(** [MIN_SELL_SCORE = 0.7]: the binary64 number the literal denotes. *)
Definition MIN_SELL_SCORE : Q := 3152519739159347 # 4503599627370496.

(** The comparison [sell_score >= MIN_SELL_SCORE] on one cell of the
    float32 column: numpy compares in binary32, with the constant narrowed
    to it; NaN compares false. *)
Definition ge_threshold (v : value) : bool :=
  match v with
  | VNum q => Qle_bool (float32 MIN_SELL_SCORE) q
  | _ => false
  end.

Fixpoint ends_with_slash (s : string) : bool :=
  match s with
  | EmptyString => false
  | String c EmptyString => Ascii.eqb c "/"
  | String _ s' => ends_with_slash s'
  end.

(** [os.path.join(a, b)] on POSIX paths. *)
Definition path_join (a b : string) : string :=
  match b with
  | String "/" _ => b
  | _ => if String.eqb a "" || ends_with_slash a
         then (a ++ b)%string else (a ++ "/" ++ b)%string
  end.

(** [not v] for a value read with [os.getenv]. *)
Definition unset (v : option string) : bool :=
  match v with None => true | Some s => String.eqb s "" end.

(** The mutable part of a run: the suggested-signals collection and the
    number of [update_one] calls made so far. *)
Record St : Type := mkSt {
  coll : list Doc;
  calls : nat
}.

(** Lines 78-119: from a trade to the combined frame, or a skip. *)
Definition pairing (h : Host) (trade : Trade)
  : list Event * option (string * value * DataFrame) :=
  let sym := symbol trade in
  let buyid := buyid trade in
  if negb (truthy buyid)
  then ([Log WARNING (TradeMissingBuyid sym)], None) else
  let processing := Log INFO (ProcessingTrade sym buyid) in
  match bson_ObjectId h buyid with
  | None =>
      ([processing; Log WARNING (InvalidBuyidFormat sym buyid)], None)
  | Some buyid_obj =>
  let by_id := Find HistoricalCol [("_id", VOid buyid_obj)] in
  let df_bought := pd_DataFrame (find_by_id (historical h) buyid_obj) in
  if empty df_bought
  then ([processing; by_id; Log WARNING (NoBoughtRow buyid)], None) else
  let by_symbol := Find HistoricalCol [("symbol", VStr sym)] in
  let df_latest := pd_DataFrame (find_latest (historical h) sym) in
  if empty df_latest
  then ([processing; by_id; by_symbol; Log WARNING (NoLatestRow sym)], None)
  else
  let sellid := nth 0 (column "_id" df_latest) VNone in
  let df_latest_prefixed := add_prefix "sell_" df_latest in
  let df_bought_filtered :=
    getitem df_bought
            (filter (fun col => inb col (columns df_bought)) BOUGHT_COLUMNS) in
  let df_latest_filtered :=
    getitem df_latest_prefixed
            (filter (fun col => inb col (columns df_latest_prefixed))
                    SELL_COLUMNS) in
  let df_combined := concat_axis1 df_bought_filtered df_latest_filtered in
  ([processing; by_id; by_symbol], Some (buyid_obj, sellid, df_combined))
  end.

(** Lines 161-167, the body of the [try]: one [update_one] per record;
    the boolean is false when the loop was left by an exception. *)
Fixpoint save_loop (h : Host) (records : list Doc) (st : St)
  : St * list Event * bool :=
  match records with
  | [] => (st, [], true)
  | record :: rest =>
      match lookup "symbol" record, lookup "trade_type" record with
      | Some s, Some t =>
          let now := utcnow h (calls st) in
          let filter := [("symbol", s); ("trade_type", t)] in
          let update := assign "created_at" (VDate now) record in
          let call := UpdateOne filter update in
          if update_raises h (calls st)
          then (mkSt (coll st) (S (calls st)), [call], false)
          else
            let '(st', evs, ok) :=
              save_loop h rest
                        (mkSt (update_one filter update
                                          (generated_id h (calls st))
                                          (coll st))
                              (S (calls st))) in
            (st', call :: evs, ok)
      | _, _ => (st, [], false)
      end
  end.

Definition columns_to_save : list string :=
  [ "symbol"; "trade_type"; "sell_score"; "buyid"; "sellid" ].

(** Lines 127-170: postprocess the scored frame, filter it by the
    threshold and upsert what is left. *)
Definition persist (h : Host) (collection : option string) (sym : string)
           (buyid_obj : string) (sellid : value) (df_suggested : DataFrame)
           (st : St) : St * list Event :=
  if empty df_suggested
  then (st, [Log INFO (NoSuggestedTrades sym)]) else
  let df := setitem_scalar df_suggested "trade_type" (VStr "SELL") in
  let df := setitem_scalar df "buyid" (VOid buyid_obj) in
  let df := setitem_scalar df "sellid" sellid in
  if negb (inb "confidence_score" (columns df))
     || forallb isnull (column "confidence_score" df)
  then (st, [Log WARNING (NoConfidenceScore sym)]) else
  let df := rename "confidence_score" "sell_score" df in
  let df := getitem_mask df (map ge_threshold (column "sell_score" df)) in
  if empty df
  then (st, [Log INFO (NoPredictionsAboveThreshold sym)]) else
  let df := if negb (inb "symbol" (columns df))
            then setitem_scalar df "symbol" (VStr sym) else df in
  let df_to_save :=
    getitem df (filter (fun c => inb c (columns df)) columns_to_save) in
  let '(st', evs, ok) := save_loop h (to_records df_to_save) st in
  (st', evs ++ [if ok
                then Log INFO (SavedPredictions (nrows df_to_save) sym
                                                collection)
                else Log ERROR (ErrorSaving sym)]).

Definition is_raise (e : Event) : bool :=
  match e with Raise _ => true | _ => false end.

(** An exception left the code that produced the trace. *)
Definition raised (evs : list Event) : bool := existsb is_raise evs.

(** Lines 77-170: the body of the loop for one trade.  The call of [run]
    stands in no [try]: an exception that leaves [run] leaves the loop. *)
Definition process_trade (h : Host) (collection : option string)
           (model_file : string) (trade : Trade) (st : St)
  : St * list Event :=
  match pairing h trade with
  | (evs, None) => (st, evs)
  | (evs, Some (buyid_obj, sellid, df_combined)) =>
      match run h (Some df_combined) (Some model_file) with
      | (RError message, evs') =>
          (st, evs ++ evs'
                   ++ [Log ERROR (PredictionFailed (symbol trade) message)])
      | (RSuccess df_suggested, evs') =>
          let '(st', evs'') :=
            persist h collection (symbol trade) buyid_obj sellid
                    df_suggested st in
          (st', evs ++ evs' ++ evs'')
      | (RRaised _, evs') => (st, evs ++ evs')
      end
  end.

Fixpoint process_trades (h : Host) (collection : option string)
         (model_file : string) (trades : list Trade) (st : St)
  : St * list Event :=
  match trades with
  | [] => (st, [])
  | trade :: rest =>
      let '(st1, evs1) := process_trade h collection model_file trade st in
      if raised evs1 then (st1, evs1) else
      let '(st2, evs2) := process_trades h collection model_file rest st1 in
      (st2, evs1 ++ evs2)
  end.

(** [orchestrator_stage2_sell()]: the run against host [h], started with
    the suggested-signals collection [suggested]; it returns the collection
    as the run leaves it and the events of the run.  The Python function
    returns [None] on every path that returns. *)
Definition orchestrator_stage2_sell (h : Host) (suggested : list Doc)
  : list Doc * list Event :=
  let dotenv_path := path_join (base_dir h) ".env" in
  if negb (file_exists h dotenv_path)
  then (suggested, [Log ERROR (DotenvNotFound dotenv_path)]) else
  let connection_str := getenv h "MONGO_CONN_STR" in
  let db_name := getenv h "MONGO_DB_NAME" in
  let suggested_trades_collection_name :=
    getenv h "SUGGESTED_TRADES_COLLECTION" in
  let model_file_name := getenv h "SELL_MODEL_FILE" in
  if unset connection_str || unset db_name || unset model_file_name
  then (suggested, [Log ERROR MissingRequiredEnv]) else
  let model_file :=
    path_join (base_dir h)
              (match model_file_name with Some s => s | None => "" end) in
  if negb (file_exists h model_file)
  then (suggested, [Log ERROR (SellModelFileNotFoundAt model_file)]) else
  if negb (connect_ok h)
  then (suggested, [Log ERROR ErrorConnecting]) else
  let fetch := Find ActiveTradesCol [] in
  match active_trades h with
  | [] => (suggested, [fetch; Log INFO NoActiveTrades])
  | trades =>
      let '(st, evs) :=
        process_trades h suggested_trades_collection_name model_file
                       trades (mkSt suggested 0) in
      (coll st,
       fetch :: evs ++ (if raised evs then [] else [Log INFO Completed]))
  end.

(** A sequence of runs over the same collection, one host per run. *)
Definition runs (hs : list Host) (suggested : list Doc) : list Doc :=
  fold_left (fun c h => fst (orchestrator_stage2_sell h c)) hs suggested.

End orchestrator.

(** * Properties *)

Import sell_model orchestrator.

(** ** Vocabulary of the statements *)

(** Two documents share their (symbol, trade_type) key; an absent field
    counts as null, as the unique index does. *)
Definition same_key (d1 d2 : Doc) : bool :=
  value_eqb (get "symbol" d1) (get "symbol" d2)
  && value_eqb (get "trade_type" d1) (get "trade_type" d2).

(** At most one document per (symbol, trade_type) key. *)
Fixpoint unique_keys (store : list Doc) : bool :=
  match store with
  | [] => true
  | d :: rest =>
      forallb (fun d' => negb (same_key d d')) rest && unique_keys rest
  end.

Definition is_update (e : Event) : bool :=
  match e with UpdateOne _ _ => true | _ => false end.

Definition is_read_of_trades (e : Event) : bool :=
  match e with Find ActiveTradesCol _ => true | _ => false end.

(** The document the orchestrator hands to [$set] for one qualifying row
    of a trade, before [created_at] is added. *)
Definition signal_record (sym buyid_obj : string) (sellid score : value)
  : Doc :=
  [ ("symbol", VStr sym); ("trade_type", VStr "SELL");
    ("sell_score", score); ("buyid", VOid buyid_obj); ("sellid", sellid) ].

Definition signal_filter (sym : string) : Doc :=
  [ ("symbol", VStr sym); ("trade_type", VStr "SELL") ].

(** One step of the loop of lines 52-54 of [sell_model.py], when it does
    not raise. *)
Definition buy_copy (df : DataFrame) (col : string) : DataFrame :=
  if inb col (columns df)
  then setitem df ("buy_" ++ col)%string (column col df) else df.

(** The frame after the loop of lines 52-54, when no step raises. *)
Definition with_buy_columns (df : DataFrame) : DataFrame :=
  fold_left buy_copy sell_model.BOUGHT_COLUMNS df.

(** The frame [run] works on once the scores are stored. *)
Definition scored_frame (df : DataFrame) (scores : list (option Q))
  : DataFrame :=
  setitem (with_buy_columns df) "confidence_score" (map score_value scores).

Definition available_features (df : DataFrame) : list string :=
  filter (fun col => inb col (columns (with_buy_columns df)))
         EXPECTED_FEATURES.

Definition missing_features (df : DataFrame) : list string :=
  filter (fun col => negb (inb col (columns (with_buy_columns df))))
         EXPECTED_FEATURES.

Definition events_before_predict (f : string) (df : DataFrame)
  : list Event :=
  Log INFO (LoadedSellModel f)
  :: match missing_features df with
     | [] => []
     | _ => [Log WARNING (MissingExpectedColumns (missing_features df))]
     end
  ++ [Predict (getitem (with_buy_columns df) (available_features df))].

(** [{**record, "created_at": now}] for such a record. *)
Definition signal_update (sym buyid_obj : string) (sellid score : value)
           (now : Z) : Doc :=
  signal_record sym buyid_obj sellid score ++ [("created_at", VDate now)].

(** The [update_one] calls for the qualifying scores [vs] of one trade,
    the first of them being call number [n] of the run. *)
Fixpoint signal_writes (h : Host) (sym buyid_obj : string) (sellid : value)
         (vs : list value) (n : nat) : list Event :=
  match vs with
  | [] => []
  | v :: vs' =>
      UpdateOne (signal_filter sym)
                (signal_update sym buyid_obj sellid v (utcnow h n))
      :: signal_writes h sym buyid_obj sellid vs' (S n)
  end.

Definition updates (evs : list Event) : list Event := filter is_update evs.

(** The effect on the collection of the [update_one] calls of a trace,
    the first of them being call number [n] of the run on host [h]. *)
Fixpoint apply_updates (h : Host) (n : nat) (evs : list Event)
         (store : list Doc) : list Doc :=
  match evs with
  | [] => store
  | UpdateOne f u :: evs' =>
      apply_updates h (S n) evs' (update_one f u (generated_id h n) store)
  | _ :: evs' => apply_updates h n evs' store
  end.

(** The collections reachable from a collection by upserts of signal
    records whose symbols satisfy [allowed]. *)
Inductive signal_upserts (allowed : string -> Prop)
  : list Doc -> list Doc -> Prop :=
| su_refl store : signal_upserts allowed store store
| su_step store store' sym b sid v now oid :
    signal_upserts allowed store store' ->
    allowed sym ->
    signal_upserts allowed store
                   (update_one (signal_filter sym)
                               (signal_update sym b sid v now) oid store').

(** The model file path of a run, line 51. *)
Definition model_file_of (h : Host) : string :=
  path_join (base_dir h)
            (match getenv h "SELL_MODEL_FILE" with
             | Some s => s
             | None => ""
             end).

(** A document carries the key (sym, "SELL"). *)
Definition has_key (sym : string) (d : Doc) : bool :=
  value_eqb (get "symbol" d) (VStr sym)
  && value_eqb (get "trade_type" d) (VStr "SELL").

(** The names [run] may return, line 85 with [sell_close] of line 87. *)
Definition returned_names : list string :=
  [ "symbol"; "timestamp"; "confidence_score";
    "open"; "high"; "low"; "volume"; "sell_close" ].

(** The outcome of pairing and scoring for one trade, when both succeed. *)
Definition scored (h : Host) (model_file : string) (trade : Trade)
  : option (string * value * DataFrame) :=
  match pairing h trade with
  | (_, Some (buyid_obj, sellid, df_combined)) =>
      match fst (run h (Some df_combined) (Some model_file)) with
      | RSuccess df_suggested => Some (buyid_obj, sellid, df_suggested)
      | RError _ | RRaised _ => None
      end
  | (_, None) => None
  end.

(** A trade is paired, scored, and at least one of its scores passes the
    threshold. *)
Definition qualifies (h : Host) (model_file : string) (trade : Trade)
  : bool :=
  match scored h model_file trade with
  | Some (_, _, dfs) => existsb ge_threshold (column "confidence_score" dfs)
  | None => false
  end.

(** The value a log record interpolates as the instrument symbol. *)
Definition logged_symbol (m : LogMsg) : option string :=
  match m with
  | TradeMissingBuyid s | ProcessingTrade s _ | InvalidBuyidFormat s _
  | NoLatestRow s | PredictionFailed s _ | NoSuggestedTrades s
  | NoConfidenceScore s | NoPredictionsAboveThreshold s
  | SavedPredictions _ s _ | ErrorSaving s => Some s
  | _ => None
  end.

(** ** A concrete host *)

Definition ex_is_hex (c : ascii) : bool :=
  let n := nat_of_ascii c in
  (48 <=? n) && (n <=? 57) || (97 <=? n) && (n <=? 102).

(** An [ObjectId] constructor that takes an ObjectId or a string of 24
    hexadecimal digits. *)
Definition ex_ObjectId (v : value) : option string :=
  match v with
  | VOid o => Some o
  | VStr s =>
      if (String.length s =? 24) && forallb ex_is_hex (list_ascii_of_string s)
      then Some s else None
  | _ => None
  end.

(** A classifier that scores every row [q]. *)
Definition ex_model (q : Q) : Booster :=
  fun dmatrix => Some (repeat (Some q) (nrows dmatrix)).

Definition ex_S1 : Snapshot :=
  mkSnapshot (VOid "5f0000000000000000000001")
             [ ("symbol", VStr "BTCUSDT"); ("timestamp", VDate 1);
               ("open", VNum 1); ("close", VNum 2);
               ("number_of_trades", VNum 5) ].

Definition ex_S2 : Snapshot :=
  mkSnapshot (VOid "5f0000000000000000000002")
             [ ("symbol", VStr "BTCUSDT"); ("timestamp", VDate 2);
               ("open", VNum 3); ("close", VNum 4) ].

Definition ex_getenv (k : string) : option string :=
  if String.eqb k "MONGO_CONN_STR" then Some "mongodb://localhost"
  else if String.eqb k "MONGO_DB_NAME" then Some "trading"
  else if String.eqb k "SELL_MODEL_FILE" then Some "sell_model.json"
  else if String.eqb k "SUGGESTED_TRADES_COLLECTION" then Some "suggested"
  else if String.eqb k "ACTIVE_TRADES_TABLE" then Some "active"
  else if String.eqb k "MONGO_COLLECTION" then Some "historical"
  else None.

Definition ex_digit (n : nat) : string :=
  String (ascii_of_nat (48 + n mod 10)) "".

(** The ObjectIds the example server generates. *)
Definition ex_generated_id (n : nat) : string :=
  ("6500000000000000000000" ++ ex_digit (n / 10) ++ ex_digit n)%string.

Definition ex_host (q : Q) (trades : list Trade) : Host :=
  mkHost "/app"
         (fun p => String.eqb p "/app/.env"
                   || String.eqb p "/app/sell_model.json")
         ex_getenv true trades [ex_S1; ex_S2]
         (fun _ => Some (ex_model q)) ex_ObjectId
         (fun n => (1000 + Z.of_nat n)%Z) (fun _ => false)
         ex_generated_id.

(** A trade that pairs and scores. *)
Definition ex_T1 : Trade :=
  mkTrade "BTCUSDT" (VStr "5f0000000000000000000001").

(** A trade whose [buyid] resolves to no snapshot. *)
Definition ex_T2 : Trade :=
  mkTrade "ETHUSDT" (VStr "5f0000000000000000000009").

(** A trade without [buyid]. *)
Definition ex_T3 : Trade := mkTrade "XRPUSDT" VNone.

(** A one-row batch that carries a [symbol] column. *)
Definition ex_frame : DataFrame :=
  mkDF 1 [ ("symbol", [VStr "BTCUSDT"]); ("open", [VNum 1]);
           ("sell_close", [VNum 4]) ].

(** The same batch as the orchestrator's pairing step would build it. *)
Definition ex_paired_frame : DataFrame :=
  mkDF 1 [ ("open", [VNum 1]); ("sell_close", [VNum 4]) ].

Fixpoint same_labels (a b : list string) : bool :=
  match a, b with
  | [], [] => true
  | x :: a', y :: b' => String.eqb x y && same_labels a' b'
  | _, _ => false
  end.

(** A classifier saved with the names of its features, as xgboost saves
    one that was trained on a frame: [predict] checks the labels of the
    matrix against those names and raises when they differ; otherwise
    every row scores [q]. *)
Definition ex_named_model (q : Q) : Booster :=
  fun dmatrix =>
    if same_labels (columns dmatrix) EXPECTED_FEATURES
    then Some (repeat (Some q) (nrows dmatrix)) else None.

Definition ex_named_host (q : Q) : Host :=
  mkHost "/app"
         (fun p => String.eqb p "/app/.env"
                   || String.eqb p "/app/sell_model.json")
         ex_getenv true [] [ex_S1; ex_S2]
         (fun _ => Some (ex_named_model q)) ex_ObjectId
         (fun n => (1000 + Z.of_nat n)%Z) (fun _ => false)
         ex_generated_id.

(** A one-row batch with every indicator, bought and latest. *)
Definition ex_full_frame : DataFrame :=
  mkDF 1 (map (fun c => (c, [VNum 1]))
              (sell_model.BOUGHT_COLUMNS ++ sell_model.SELL_COLUMNS)).

(** The same batch without the bought [rsi]. *)
Definition ex_frame_without_rsi : DataFrame :=
  mkDF 1 (map (fun c => (c, [VNum 1]))
              (filter (fun c => negb (String.eqb c "rsi"))
                      (sell_model.BOUGHT_COLUMNS
                       ++ sell_model.SELL_COLUMNS))).

(** A stored signal for BTCUSDT left by an earlier run. *)
Definition ex_old_signal : Doc :=
  [ ("symbol", VStr "BTCUSDT"); ("trade_type", VStr "SELL");
    ("sell_score", VNum (82 # 100));
    ("buyid", VOid "5f0000000000000000000001");
    ("sellid", VOid "5f0000000000000000000001");
    ("created_at", VDate 7) ].

(** ** Vocabulary of the further properties *)

(** The labels of a list are distinct. *)
Fixpoint distinct (l : list string) : bool :=
  match l with
  | [] => true
  | x :: l' => negb (inb x l') && distinct l'
  end.

Definition is_predict (e : Event) : bool :=
  match e with Predict _ => true | _ => false end.

(** The matrix [run] hands to the classifier, lines 64 and 73. *)
Definition feature_matrix (df : DataFrame) : DataFrame :=
  getitem (with_buy_columns df) (available_features df).

(** The example host with a storage that refuses every write. *)
Definition ex_failing_host (q : Q) (trades : list Trade) : Host :=
  mkHost "/app"
         (fun p => String.eqb p "/app/.env"
                   || String.eqb p "/app/sell_model.json")
         ex_getenv true trades [ex_S1; ex_S2]
         (fun _ => Some (ex_model q)) ex_ObjectId
         (fun n => (1000 + Z.of_nat n)%Z) (fun _ => true)
         ex_generated_id.

(** The fields a signal write sets. *)
Definition signal_fields : list string :=
  [ "symbol"; "trade_type"; "sell_score"; "buyid"; "sellid"; "created_at" ].

(** A document without a field. *)
Definition without_field (k : string) (d : Doc) : Doc :=
  filter (fun kv => negb (String.eqb k (fst kv))) d.

(** A collection with the creation times left out. *)
Definition without_created_at (store : list Doc) : list Doc :=
  map (without_field "created_at") store.

(** The same host at another time: only the clock differs. *)
Definition with_clock (h : Host) (clock : nat -> Z) : Host :=
  mkHost (base_dir h) (file_exists h) (getenv h) (connect_ok h)
         (active_trades h) (historical h) (load_model h) (bson_ObjectId h)
         clock (update_raises h) (generated_id h).

(** The signal records of a trade, each with the symbol it is keyed by. *)
Definition trade_records (h : Host) (model_file : string) (t : Trade)
  : list (string * Doc) :=
  match scored h model_file t with
  | Some (b, sid, dfs) =>
      map (fun v => (symbol t, signal_record (symbol t) b sid v))
          (filter ge_threshold (column "confidence_score" dfs))
  | None => []
  end.

Definition run_records (h : Host) (model_file : string)
           (trades : list Trade) : list (string * Doc) :=
  flat_map (trade_records h model_file) trades.

(** The run gets past lines 32-68. *)
Definition startup_ok (h : Host) : bool :=
  file_exists h (path_join (base_dir h) ".env")
  && negb (unset (getenv h "MONGO_CONN_STR")
           || unset (getenv h "MONGO_DB_NAME")
           || unset (getenv h "SELL_MODEL_FILE"))
  && file_exists h (model_file_of h)
  && connect_ok h.

Definition orchestrator_records (h : Host) : list (string * Doc) :=
  if startup_ok h
  then run_records h (model_file_of h) (active_trades h) else [].

(** The collection holds a signal of the symbol whose score passes the
    comparison of line 146. *)
Definition holds_signal (sym : string) (store : list Doc) : Prop :=
  exists i d q,
    nth_error store i = Some d /\ has_key sym d = true
    /\ get "sell_score" d = VNum q /\ (float32 MIN_SELL_SCORE <= q)%Q.

(** Upserts of records, without creation time; an inserted document gets
    the [_id] [ids n], [n] being the number of the upsert. *)
Fixpoint apply_records (ids : nat -> string) (n : nat)
         (rs : list (string * Doc)) (store : list Doc) : list Doc :=
  match rs with
  | [] => store
  | r :: rs' =>
      apply_records ids (S n) rs'
                    (update_one (signal_filter (fst r)) (snd r) (ids n) store)
  end.

(** ** Association lists and frames *)

(** The narrowing is used through [float32_MIN_SELL_SCORE] only. *)
Opaque float32.

Lemma inb_In (c : string) (l : list string) : inb c l = true <-> In c l.
Proof.
  unfold inb. rewrite existsb_exists. split.
  - intros [x [Hx He]]. apply String.eqb_eq in He. now subst.
  - intros H. exists c. split; [assumption | apply String.eqb_refl].
Qed.

Lemma inb_false (c : string) (l : list string) :
  inb c l = false <-> ~ In c l.
Proof.
  rewrite <- inb_In. destruct (inb c l); split; congruence.
Qed.

Lemma lookup_assign {V : Type} (k k' : string) (v : V) d :
  lookup k (assign k' v d) = if String.eqb k k' then Some v else lookup k d.
Proof.
  induction d as [|[k0 v0] d IH]; simpl.
  - reflexivity.
  - destruct (String.eqb_spec k' k0) as [->|Hne]; simpl.
    + destruct (String.eqb k k0); reflexivity.
    + rewrite IH. destruct (String.eqb_spec k k0) as [->|Hne'].
      * destruct (String.eqb_spec k0 k'); [congruence | reflexivity].
      * reflexivity.
Qed.

Lemma get_assign (k k' : string) (v : value) (d : Doc) :
  get k (assign k' v d) = if String.eqb k k' then v else get k d.
Proof.
  unfold get. rewrite lookup_assign. now destruct (String.eqb k k').
Qed.

Lemma inb_keys {V : Type} (c : string) (d : list (string * V)) :
  inb c (map fst d) = match lookup c d with Some _ => true | None => false end.
Proof.
  induction d as [|[k v] d IH]; simpl; [reflexivity|].
  destruct (String.eqb c k); simpl; [reflexivity | exact IH].
Qed.

Lemma lookup_In_keys {V : Type} (c : string) (d : list (string * V)) v :
  lookup c d = Some v -> In c (map fst d).
Proof.
  intros H. apply inb_In. rewrite inb_keys, H. reflexivity.
Qed.

Lemma lookup_None_keys {V : Type} (c : string) (d : list (string * V)) :
  lookup c d = None <-> ~ In c (map fst d).
Proof.
  rewrite <- inb_false, inb_keys. destruct (lookup c d); split; congruence.
Qed.

Lemma keys_assign {V : Type} (k : string) (v : V) d c :
  In c (map fst (assign k v d)) <-> c = k \/ In c (map fst d).
Proof.
  rewrite <- !inb_In, !inb_keys, lookup_assign.
  destruct (String.eqb_spec c k) as [->|Hne].
  - split; auto.
  - split; [auto | intros [?|?]; [contradiction | assumption]].
Qed.

Lemma lookup_map_values {V W : Type} (f : V -> W) (k : string) d :
  lookup k (map (fun cv => (fst cv, f (snd cv))) d)
  = option_map f (lookup k d).
Proof.
  induction d as [|[k0 v0] d IH]; simpl; [reflexivity|].
  destruct (String.eqb k k0); [reflexivity | exact IH].
Qed.

Lemma lookup_rename_other (old new k : string) d :
  k <> old -> k <> new ->
  lookup k (cols (rename old new d)) = lookup k (cols d).
Proof.
  intros Ho Hn. unfold rename; simpl.
  induction (cols d) as [|[k0 v0] l IH]; simpl; [reflexivity|].
  destruct (String.eqb_spec k0 old) as [->|Hne].
  - destruct (String.eqb_spec k new); [contradiction|].
    destruct (String.eqb_spec k old); [contradiction | exact IH].
  - rewrite IH. reflexivity.
Qed.

Lemma lookup_rename_new (old new : string) d :
  lookup new (cols d) = None ->
  lookup new (cols (rename old new d)) = lookup old (cols d).
Proof.
  unfold rename; simpl.
  induction (cols d) as [|[k0 v0] l IH]; simpl; [reflexivity|].
  destruct (String.eqb_spec new k0) as [->|Hne]; [discriminate|].
  intros H. destruct (String.eqb_spec k0 old) as [->|Hne'].
  - rewrite String.eqb_refl. destruct (String.eqb_spec old old); congruence.
  - destruct (String.eqb_spec new k0); [congruence|].
    destruct (String.eqb_spec old k0); [congruence | auto].
Qed.

Lemma filter_mask_map {A : Type} (f : A -> bool) (l : list A) :
  filter_mask (map f l) l = filter f l.
Proof.
  induction l as [|x l IH]; simpl; [reflexivity|].
  destruct (f x); now rewrite IH.
Qed.

Lemma count_true_map {A : Type} (f : A -> bool) (l : list A) :
  count_true (map f l) = List.length (filter f l).
Proof.
  unfold count_true. induction l as [|x l IH]; simpl; [reflexivity|].
  destruct (f x); simpl; now rewrite IH.
Qed.

Lemma filter_mask_repeat {A : Type} (mask : list bool) (x : A) :
  filter_mask mask (repeat x (List.length mask)) = repeat x (count_true mask).
Proof.
  unfold count_true. induction mask as [|b mask IH]; simpl; [reflexivity|].
  destruct b; simpl; now rewrite IH.
Qed.

Lemma nth_repeat_lt {A : Type} (x d : A) (n i : nat) :
  i < n -> nth i (repeat x n) d = x.
Proof.
  revert i. induction n as [|n IH]; intros [|i] H; simpl; try lia.
  - reflexivity.
  - apply IH. lia.
Qed.

Lemma map_nth_seq {A B : Type} (g : A -> B) (l : list A) (d : A) :
  map (fun i => g (nth i l d)) (seq 0 (List.length l)) = map g l.
Proof.
  induction l as [|x l IH]; simpl; [reflexivity|].
  f_equal. rewrite <- seq_shift, map_map. exact IH.
Qed.

(** ** The persistence stage on a scored frame *)

Ltac str_neq := let H := fresh in intro H; discriminate H.

Lemma empty_false (df : DataFrame) :
  empty df = false <-> nrows df <> 0 /\ cols df <> [].
Proof.
  unfold empty. rewrite orb_false_iff, !Nat.eqb_neq.
  destruct (cols df); simpl; intuition congruence.
Qed.

Lemma inb_columns (c : string) (df : DataFrame) :
  inb c (columns df)
  = match lookup c (cols df) with Some _ => true | None => false end.
Proof. apply inb_keys. Qed.

Lemma nrows_setitem df c vs : nrows (setitem df c vs) = nrows df.
Proof. reflexivity. Qed.

Lemma lookup_setitem_eq df c vs :
  lookup c (cols (setitem df c vs)) = Some vs.
Proof. simpl. rewrite lookup_assign, String.eqb_refl. reflexivity. Qed.

Lemma lookup_setitem_ne df c vs k :
  k <> c -> lookup k (cols (setitem df c vs)) = lookup k (cols df).
Proof.
  intros H. simpl. rewrite lookup_assign.
  destruct (String.eqb_spec k c); [contradiction | reflexivity].
Qed.

Lemma lookup_setitem_scalar_eq df c v :
  lookup c (cols (setitem_scalar df c v)) = Some (repeat v (nrows df)).
Proof. apply lookup_setitem_eq. Qed.

Lemma lookup_setitem_scalar_ne df c v k :
  k <> c -> lookup k (cols (setitem_scalar df c v)) = lookup k (cols df).
Proof. apply lookup_setitem_ne. Qed.

Lemma lookup_getitem_mask df mask k :
  lookup k (cols (getitem_mask df mask))
  = option_map (filter_mask mask) (lookup k (cols df)).
Proof. apply lookup_map_values. Qed.

Lemma to_records_rows (df : DataFrame) (l : list value) (g : value -> Doc) :
  nrows df = List.length l ->
  (forall i, i < List.length l ->
     map (fun cv => (fst cv, nth i (snd cv) VNone)) (cols df)
     = g (nth i l VNone)) ->
  to_records df = map g l.
Proof.
  intros Hn Hrow. unfold to_records. rewrite Hn.
  rewrite <- (map_nth_seq g l VNone). apply map_ext_in.
  intros i Hi. apply in_seq in Hi. apply Hrow. lia.
Qed.

(** What [persist] does with a frame that carries a [confidence_score]
    column of the length of its index and neither a [symbol] nor a
    [sell_score] column: one record per score that passes the threshold. *)
Lemma persist_scored h c sym b sid dfs st scores :
  nrows dfs <> 0 ->
  lookup "confidence_score" (cols dfs) = Some scores ->
  List.length scores = nrows dfs ->
  lookup "symbol" (cols dfs) = None ->
  lookup "sell_score" (cols dfs) = None ->
  persist h c sym b sid dfs st =
    if forallb isnull scores
    then (st, [Log WARNING (NoConfidenceScore sym)])
    else match filter ge_threshold scores with
         | [] => (st, [Log INFO (NoPredictionsAboveThreshold sym)])
         | qualifying =>
             let '(st', evs, ok) :=
               save_loop h (map (signal_record sym b sid) qualifying) st in
             (st', evs ++ [if ok
                           then Log INFO (SavedPredictions
                                            (List.length qualifying) sym c)
                           else Log ERROR (ErrorSaving sym)])
         end.
Proof.
  intros Hn Hc Hl Hs Hss.
  remember (filter ge_threshold scores) as qual eqn:Hq.
  assert (He : empty dfs = false).
  { apply empty_false. split; [assumption|].
    intros E. rewrite E in Hc. discriminate. }
  unfold persist. rewrite He. cbv zeta.
  set (df1 := setitem_scalar dfs "trade_type" (VStr "SELL")).
  set (df2 := setitem_scalar df1 "buyid" (VOid b)).
  set (df3 := setitem_scalar df2 "sellid" sid).
  assert (L3 : forall k, k <> "trade_type" -> k <> "buyid" -> k <> "sellid" ->
                         lookup k (cols df3) = lookup k (cols dfs)).
  { intros k H1 H2 H3. unfold df3, df2, df1.
    now rewrite !lookup_setitem_scalar_ne by assumption. }
  assert (L3t : lookup "trade_type" (cols df3)
                = Some (repeat (VStr "SELL") (nrows dfs))).
  { unfold df3, df2. rewrite !lookup_setitem_scalar_ne by str_neq.
    exact (lookup_setitem_scalar_eq dfs "trade_type" (VStr "SELL")). }
  assert (L3b : lookup "buyid" (cols df3)
                = Some (repeat (VOid b) (nrows dfs))).
  { unfold df3. rewrite lookup_setitem_scalar_ne by str_neq.
    exact (lookup_setitem_scalar_eq df1 "buyid" (VOid b)). }
  assert (L3s : lookup "sellid" (cols df3) = Some (repeat sid (nrows dfs))).
  { exact (lookup_setitem_scalar_eq df2 "sellid" sid). }
  assert (L3c : lookup "confidence_score" (cols df3) = Some scores).
  { rewrite L3 by str_neq. exact Hc. }
  rewrite inb_columns, L3c. unfold column at 1. rewrite L3c.
  cbn [negb orb].
  destruct (forallb isnull scores) eqn:Hnull; [reflexivity|].
  set (df4 := rename "confidence_score" "sell_score" df3).
  assert (L4q : lookup "sell_score" (cols df4) = Some scores).
  { unfold df4. rewrite lookup_rename_new; [exact L3c|].
    rewrite L3 by str_neq. exact Hss. }
  assert (L4 : forall k, k <> "confidence_score" -> k <> "sell_score" ->
                         lookup k (cols df4) = lookup k (cols df3)).
  { intros k H1 H2. apply lookup_rename_other; assumption. }
  unfold column. rewrite L4q.
  set (mask := map ge_threshold scores).
  set (df5 := getitem_mask df4 mask).
  assert (Hlen : List.length mask = nrows dfs).
  { unfold mask. rewrite length_map. exact Hl. }
  assert (N5 : nrows df5 = List.length qual).
  { unfold df5, mask. simpl. rewrite count_true_map, <- Hq. reflexivity. }
  assert (C5 : cols df5 <> []).
  { intros E. assert (X : lookup "sell_score" (cols df5) = None)
      by (rewrite E; reflexivity).
    unfold df5 in X. rewrite lookup_getitem_mask, L4q in X. discriminate. }
  assert (E5 : empty df5 = match qual with [] => true | _ => false end).
  { unfold empty. rewrite N5.
    destruct (cols df5); [congruence|]. destruct qual; reflexivity. }
  rewrite E5.
  assert (L5s : lookup "symbol" (cols df5) = None).
  { unfold df5. rewrite lookup_getitem_mask, L4, L3 by str_neq.
    rewrite Hs. reflexivity. }
  destruct qual as [|q0 qs] eqn:Hqual; [reflexivity|].
  assert (Hne : qual <> []) by (rewrite Hqual; discriminate).
  rewrite <- Hqual in *. clear Hqual.
  rewrite inb_columns, L5s. cbn [negb].
  set (df6 := setitem_scalar df5 "symbol" (VStr sym)).
  assert (M : forall v : value, filter_mask mask (repeat v (nrows dfs))
                        = repeat v (nrows df5)).
  { intros v. rewrite <- Hlen, filter_mask_repeat. reflexivity. }
  assert (L6y : lookup "symbol" (cols df6)
                = Some (repeat (VStr sym) (nrows df5))).
  { apply lookup_setitem_scalar_eq. }
  assert (L6t : lookup "trade_type" (cols df6)
                = Some (repeat (VStr "SELL") (nrows df5))).
  { unfold df6. rewrite lookup_setitem_scalar_ne by str_neq. unfold df5.
    rewrite lookup_getitem_mask, L4, L3t by str_neq. simpl. now rewrite M. }
  assert (L6q : lookup "sell_score" (cols df6) = Some qual).
  { unfold df6. rewrite lookup_setitem_scalar_ne by str_neq. unfold df5.
    rewrite lookup_getitem_mask, L4q. simpl. unfold mask.
    now rewrite filter_mask_map, <- Hq. }
  assert (L6b : lookup "buyid" (cols df6)
                = Some (repeat (VOid b) (nrows df5))).
  { unfold df6. rewrite lookup_setitem_scalar_ne by str_neq. unfold df5.
    rewrite lookup_getitem_mask, L4, L3b by str_neq. simpl. now rewrite M. }
  assert (L6i : lookup "sellid" (cols df6) = Some (repeat sid (nrows df5))).
  { unfold df6. rewrite lookup_setitem_scalar_ne by str_neq. unfold df5.
    rewrite lookup_getitem_mask, L4, L3s by str_neq. simpl. now rewrite M. }
  assert (F : filter (fun c0 => inb c0 (columns df6)) columns_to_save
              = columns_to_save).
  { unfold columns_to_save. cbn [filter].
    now rewrite !inb_columns, L6y, L6t, L6q, L6b, L6i. }
  rewrite F.
  set (df_to_save := getitem df6 columns_to_save).
  assert (R : to_records df_to_save = map (signal_record sym b sid) qual).
  { apply to_records_rows.
    - unfold df_to_save, df6. simpl. exact N5.
    - intros i Hi. unfold df_to_save. unfold getitem, columns_to_save.
      cbn [flat_map cols]. rewrite L6y, L6t, L6q, L6b, L6i.
      cbn [app map fst snd]. unfold signal_record.
      rewrite !nth_repeat_lt by (rewrite N5; exact Hi). reflexivity. }
  rewrite R.
  replace (nrows df_to_save) with (List.length qual)
    by (unfold df_to_save, df6; simpl; symmetry; exact N5).
  destruct qual; [congruence | reflexivity].
Qed.

(** ** The scoring function *)

Lemma nrows_getitem df names : nrows (getitem df names) = nrows df.
Proof. reflexivity. Qed.

Lemma lookup_getitem df names c :
  lookup c (cols (getitem df names))
  = if inb c names then lookup c (cols df) else None.
Proof.
  unfold getitem; simpl.
  induction names as [|n names IH]; simpl; [reflexivity|].
  destruct (String.eqb_spec c n) as [->|Hne]; simpl.
  - destruct (lookup n (cols df)) eqn:E; simpl.
    + now rewrite String.eqb_refl.
    + rewrite IH. now destruct (inb n names).
  - destruct (lookup n (cols df)) eqn:E; simpl; [|exact IH].
    destruct (String.eqb_spec c n); [contradiction | exact IH].
Qed.

Lemma columns_getitem df names :
  columns (getitem df names) = filter (fun c => inb c (columns df)) names.
Proof.
  unfold getitem, columns at 1; simpl.
  induction names as [|n names IH]; simpl; [reflexivity|].
  rewrite map_app, IH, inb_columns.
  destruct (lookup n (cols df)); reflexivity.
Qed.

Lemma filter_idem {A : Type} (p : A -> bool) (l : list A) :
  filter p (filter p l) = filter p l.
Proof.
  induction l as [|x l IH]; simpl; [reflexivity|].
  destruct (p x) eqn:E; simpl; [rewrite E, IH | rewrite IH]; reflexivity.
Qed.

Lemma with_buy_columns_fold df :
  with_buy_columns df = fold_left buy_copy sell_model.BOUGHT_COLUMNS df.
Proof. reflexivity. Qed.

Lemma nrows_fold_buy_copy l df : nrows (fold_left buy_copy l df) = nrows df.
Proof.
  revert df. induction l as [|c l IH]; intros df; simpl; [reflexivity|].
  rewrite IH. unfold buy_copy. now destruct (inb c (columns df)).
Qed.

Lemma lookup_fold_buy_copy l df k :
  (forall col, In col l -> k <> ("buy_" ++ col)%string) ->
  lookup k (cols (fold_left buy_copy l df)) = lookup k (cols df).
Proof.
  revert df. induction l as [|c l IH]; intros df H; simpl; [reflexivity|].
  rewrite IH by (intros col Hc; apply H; now right).
  unfold buy_copy. destruct (inb c (columns df)); [|reflexivity].
  apply lookup_setitem_ne. apply H. now left.
Qed.

Lemma keys_fold_buy_copy l df c :
  In c (columns (fold_left buy_copy l df)) ->
  In c (columns df) \/ In c (map (fun col => "buy_" ++ col)%string l).
Proof.
  revert df. induction l as [|x l IH]; intros df H; simpl in *; [now left|].
  apply IH in H. destruct H as [H|H]; [|now right; right].
  unfold buy_copy in H. destruct (inb x (columns df)); [|now left].
  unfold columns in H; simpl in H. apply keys_assign in H.
  destruct H as [->|H]; [right; now left | now left].
Qed.

Lemma nrows_with_buy_columns df : nrows (with_buy_columns df) = nrows df.
Proof. rewrite with_buy_columns_fold. apply nrows_fold_buy_copy. Qed.

Lemma keys_assign_same {V : Type} (k : string) (v : V) d :
  inb k (map fst d) = true -> map fst (assign k v d) = map fst d.
Proof.
  induction d as [|[k' v'] d IH]; simpl; [discriminate|].
  destruct (String.eqb_spec k k') as [->|N]; simpl; [reflexivity|].
  intros H. now rewrite IH.
Qed.

Lemma keys_assign_new {V : Type} (k : string) (v : V) d :
  inb k (map fst d) = false -> map fst (assign k v d) = map fst d ++ [k].
Proof.
  induction d as [|[k' v'] d IH]; simpl; [reflexivity|].
  destruct (String.eqb_spec k k') as [->|N]; simpl; [discriminate|].
  intros H. now rewrite IH.
Qed.

Lemma NoDup_keys_assign {V : Type} (k : string) (v : V) d :
  NoDup (map fst d) -> NoDup (map fst (assign k v d)).
Proof.
  intros H. destruct (inb k (map fst d)) eqn:E.
  - now rewrite keys_assign_same.
  - rewrite keys_assign_new by exact E.
    apply NoDup_app; [exact H | repeat constructor; intros [] |].
    intros a Ha [<-|[]]. apply inb_false in E. contradiction.
Qed.

Lemma NoDup_not_duplicated c l : NoDup l -> duplicated c l = false.
Proof.
  unfold duplicated. intros H. apply Nat.ltb_ge.
  induction H as [|x l Hx _ IH]; simpl; [lia|].
  destruct (String.eqb_spec c x) as [->|N]; [|exact IH].
  simpl. assert (E : filter (String.eqb x) l = []).
  { clear IH. induction l as [|y l IHl]; simpl; [reflexivity|].
    destruct (String.eqb_spec x y) as [->|N].
    - exfalso. apply Hx. now left.
    - apply IHl. intros H. apply Hx. now right. }
  rewrite E. simpl. lia.
Qed.

Lemma add_buy_columns_none l :
  fold_left (fun acc col =>
               match acc with
               | None => None
               | Some df =>
                   if inb col (columns df)
                   then if duplicated col (columns df) then None
                        else Some (setitem df ("buy_" ++ col)%string
                                           (column col df))
                   else Some df
               end) l None = None.
Proof. induction l as [|c l IH]; simpl; [reflexivity | exact IH]. Qed.

(** When the loop of lines 52-54 ends, it has copied the columns. *)
Lemma add_buy_columns_some df df' :
  add_buy_columns df = Some df' -> df' = with_buy_columns df.
Proof.
  unfold add_buy_columns, with_buy_columns.
  generalize sell_model.BOUGHT_COLUMNS. intros l. revert df.
  induction l as [|c l IH]; intros df H; simpl in *.
  - now injection H as <-.
  - unfold buy_copy at 2.
    destruct (inb c (columns df)); [|now apply IH].
    destruct (duplicated c (columns df)); [|now apply IH].
    rewrite add_buy_columns_none in H. discriminate H.
Qed.

(** On a frame with distinct labels the loop of lines 52-54 ends. *)
Lemma add_buy_columns_distinct df :
  NoDup (columns df) -> add_buy_columns df = Some (with_buy_columns df).
Proof.
  unfold add_buy_columns, with_buy_columns.
  generalize sell_model.BOUGHT_COLUMNS. intros l. revert df.
  induction l as [|c l IH]; intros df H; simpl; [reflexivity|].
  unfold buy_copy at 2.
  destruct (inb c (columns df)); [|now apply IH].
  rewrite (NoDup_not_duplicated c _ H). apply IH.
  unfold columns, setitem. cbn [cols]. now apply NoDup_keys_assign.
Qed.

(** From here on the column lists and the copy loop are used through the
    lemmas above only. *)
Opaque with_buy_columns add_buy_columns EXPECTED_FEATURES.

(** [run] once the model is loaded: the classifier is called on the frame
    restricted to the available features and decides the outcome. *)
Lemma run_loaded h df f model :
  empty df = false -> f <> "" -> file_exists h f = true ->
  load_model h f = Some model ->
  run h (Some df) (Some f) =
    match add_buy_columns df with
    | None => (RRaised "ValueError",
               [Log INFO (LoadedSellModel f); Raise "ValueError"])
    | Some _ =>
    match model (getitem (with_buy_columns df) (available_features df)) with
    | Some scores =>
        if List.length scores =? nrows df
        then (RSuccess (getitem (scored_frame df scores)
                                (columns_to_return (scored_frame df scores))),
              events_before_predict f df
              ++ [Log INFO (PredictionsGenerated (nrows df))])
        else (RError "Prediction failed",
              events_before_predict f df ++ [Log ERROR ErrorDuringPrediction])
    | None => (RError "Prediction failed",
               events_before_predict f df ++ [Log ERROR ErrorDuringPrediction])
    end
    end.
Proof.
  intros He Hf Hx Hl.
  unfold run, events_before_predict, available_features, missing_features,
    scored_frame.
  rewrite He, Hx, Hl.
  destruct (String.eqb_spec f ""); [contradiction|]. cbn [orb negb].
  destruct (add_buy_columns df) as [df'|] eqn:Ea; [|reflexivity].
  apply add_buy_columns_some in Ea. subst df'.
  cbv zeta.
  destruct (model _) as [scores|]; [|reflexivity].
  rewrite nrows_setitem, !nrows_with_buy_columns.
  destruct (List.length scores =? nrows df); reflexivity.
Qed.

Lemma run_success_inv h df f dfs evs :
  run h (Some df) (Some f) = (RSuccess dfs, evs) ->
  exists model scores,
    empty df = false /\ load_model h f = Some model /\
    model (getitem (with_buy_columns df) (available_features df))
    = Some scores /\
    List.length scores = nrows df /\
    dfs = getitem (scored_frame df scores)
                  (columns_to_return (scored_frame df scores)) /\
    evs = events_before_predict f df
          ++ [Log INFO (PredictionsGenerated (nrows df))].
Proof.
  intros H.
  destruct (empty df) eqn:He.
  { unfold run in H. rewrite He in H. discriminate. }
  destruct (String.eqb_spec f "") as [->|Hf].
  { unfold run in H. rewrite He in H. simpl in H. discriminate. }
  destruct (file_exists h f) eqn:Hx.
  2:{ unfold run in H. rewrite He, Hx in H.
      rewrite orb_true_r in H. discriminate. }
  destruct (load_model h f) as [model|] eqn:Hl.
  2:{ unfold run in H. rewrite He, Hx, Hl in H.
      destruct (String.eqb f ""); discriminate. }
  rewrite (run_loaded h df f model He Hf Hx Hl) in H.
  destruct (add_buy_columns df) as [df'|]; [|discriminate].
  destruct (model _) as [scores|] eqn:Hm; [|discriminate].
  destruct (List.length scores =? nrows df) eqn:Hn; [|discriminate].
  apply Nat.eqb_eq in Hn.
  remember (getitem (scored_frame df scores) _) as X eqn:EX in H.
  remember (events_before_predict f df ++ _) as Y eqn:EY in H.
  injection H as Hd Hev. subst X Y.
  exists model, scores.
  split; [reflexivity|]. split; [reflexivity|]. split; [exact Hm|].
  split; [exact Hn|]. split; symmetry; assumption.
Qed.

Lemma lookup_scored_frame df scores k :
  (forall col, k <> ("buy_" ++ col)%string) ->
  lookup k (cols (scored_frame df scores))
  = if String.eqb k "confidence_score"
    then Some (map score_value scores) else lookup k (cols df).
Proof.
  intros Hk. unfold scored_frame.
  destruct (String.eqb_spec k "confidence_score") as [->|Hne].
  - apply lookup_setitem_eq.
  - rewrite lookup_setitem_ne by assumption.
    rewrite with_buy_columns_fold. apply lookup_fold_buy_copy.
    intros col _. apply Hk.
Qed.

Lemma returned_name_not_buy c :
  In c returned_names -> forall col, c <> ("buy_" ++ col)%string.
Proof.
  unfold returned_names. cbn [In]. intros H col E.
  repeat (destruct H as [<-|H]; [discriminate E|]). exact H.
Qed.

Lemma columns_to_return_scored df scores :
  columns_to_return (scored_frame df scores)
  = filter (fun c => String.eqb c "confidence_score" || inb c (columns df))
           returned_names.
Proof.
  set (S := scored_frame df scores).
  assert (P : forall c, In c returned_names ->
                inb c (columns S)
                = String.eqb c "confidence_score" || inb c (columns df)).
  { intros c Hc. unfold S.
    rewrite !inb_columns, lookup_scored_frame
      by (apply returned_name_not_buy; exact Hc).
    destruct (String.eqb c "confidence_score"); reflexivity. }
  rewrite <- (filter_ext_in _ _ _ P).
  unfold columns_to_return. fold S.
  change returned_names
    with ([ "symbol"; "timestamp"; "confidence_score";
            "open"; "high"; "low"; "volume" ] ++ ["sell_close"]).
  destruct (inb "sell_close" (columns S)) eqn:E; [reflexivity|].
  rewrite filter_app. cbn [filter] in *. rewrite E, app_nil_r. reflexivity.
Qed.

Lemma filter_columns_to_return df :
  filter (fun c => inb c (columns df)) (columns_to_return df)
  = columns_to_return df.
Proof. unfold columns_to_return. apply filter_idem. Qed.

Lemma columns_returned df scores :
  columns (getitem (scored_frame df scores)
                   (columns_to_return (scored_frame df scores)))
  = filter (fun c => String.eqb c "confidence_score" || inb c (columns df))
           returned_names.
Proof.
  rewrite columns_getitem, filter_columns_to_return.
  apply columns_to_return_scored.
Qed.

(** C3 (as stated, refuted): on an empty batch [run] does not report a
    success with zero rows; it reports an error. *)
Lemma run_empty_batch_not_success :
  ~ exists dfs,
      fst (run (ex_host (82 # 100) []) (Some (mkDF 0 []))
               (Some "/app/sell_model.json")) = RSuccess dfs.
Proof. intros [dfs H]. vm_compute in H. discriminate H. Qed.

(** C3 (amended): for every call of the scoring function with an empty
    batch, the call returns the error result "No input data" after one
    error log record; the model file is not looked at and the classifier
    is not called. *)
Theorem run_empty_batch_is_error h df mf :
  empty df = true ->
  run h (Some df) mf
  = (RError "No input data", [Log ERROR InputDataMissingOrEmpty]).
Proof. intros He. unfold run. rewrite He. reflexivity. Qed.

Lemma run_empty_batch_is_error_witness :
  empty (mkDF 0 []) = true
  /\ run (ex_host (82 # 100) []) (Some (mkDF 0 []))
         (Some "/app/sell_model.json")
     = (RError "No input data", [Log ERROR InputDataMissingOrEmpty]).
Proof.
  split; [reflexivity|].
  apply (run_empty_batch_is_error (ex_host (82 # 100) []) (mkDF 0 [])).
  reflexivity.
Defined.

Lemma run_success_some h df mf dfs :
  fst (run h (Some df) mf) = RSuccess dfs ->
  exists f evs, mf = Some f /\ run h (Some df) (Some f) = (RSuccess dfs, evs).
Proof.
  intros H. destruct mf as [f|].
  - exists f. destruct (run h (Some df) (Some f)) as [r evs] eqn:E.
    exists evs. split; [reflexivity|]. cbn [fst] in H. now subst r.
  - unfold run in H. destruct (empty df); discriminate H.
Qed.

(** C8 (as stated, refuted): a successfully scored batch whose input has
    no [symbol] and no [timestamp] column, as every frame built by the
    pairing step, comes back without them. *)
Lemma run_result_without_symbol :
  exists dfs,
    fst (run (ex_host (82 # 100) []) (Some ex_paired_frame)
             (Some "/app/sell_model.json")) = RSuccess dfs
    /\ columns dfs = ["confidence_score"; "open"; "sell_close"]
    /\ ~ In "symbol" (columns dfs) /\ ~ In "timestamp" (columns dfs).
Proof.
  eexists. split; [vm_compute; reflexivity|].
  split; [reflexivity|].
  split; intros H; cbn in H; intuition discriminate.
Qed.

Lemma returned_frame_props (df S : DataFrame) (sc : list value) :
  columns (getitem S (columns_to_return S))
  = filter (fun c => String.eqb c "confidence_score" || inb c (columns df))
           returned_names ->
  (forall k, (forall col, k <> ("buy_" ++ col)%string) ->
             lookup k (cols S)
             = if String.eqb k "confidence_score"
               then Some sc else lookup k (cols df)) ->
  let dfs := getitem S (columns_to_return S) in
  lookup "confidence_score" (cols dfs) = Some sc
  /\ (forall c, In c (columns dfs) -> c <> "confidence_score" ->
                lookup c (cols dfs) = lookup c (cols df))
  /\ (In "symbol" (columns dfs) <-> In "symbol" (columns df))
  /\ (In "timestamp" (columns dfs) <-> In "timestamp" (columns df)).
Proof.
  intros C L dfs. subst dfs.
  assert (M : forall c, In c (columns (getitem S (columns_to_return S))) ->
                        In c returned_names
                        /\ inb c (columns_to_return S) = true).
  { intros c Hc. split.
    - rewrite C in Hc. apply filter_In in Hc. tauto.
    - rewrite columns_getitem, filter_columns_to_return in Hc.
      apply inb_In. exact Hc. }
  assert (K : forall c, In c returned_names ->
                (In c (columns (getitem S (columns_to_return S)))
                 <-> c = "confidence_score" \/ In c (columns df))).
  { intros c Hc. rewrite C, filter_In, orb_true_iff, String.eqb_eq, inb_In.
    tauto. }
  assert (Rs : In "symbol" returned_names) by (left; reflexivity).
  assert (Rt : In "timestamp" returned_names)
    by (right; left; reflexivity).
  assert (Rc : In "confidence_score" returned_names)
    by (right; right; left; reflexivity).
  split.
  { rewrite lookup_getitem.
    assert (I : In "confidence_score"
                   (columns (getitem S (columns_to_return S)))).
    { apply K; [exact Rc | left; reflexivity]. }
    apply M in I. destruct I as [_ I]. rewrite I.
    rewrite L by (intros col E; discriminate E). reflexivity. }
  split.
  { intros c Hc Hne. destruct (M c Hc) as [Hr Hi].
    rewrite lookup_getitem, Hi.
    rewrite L by (apply returned_name_not_buy; exact Hr).
    destruct (String.eqb_spec c "confidence_score"); [contradiction|].
    reflexivity. }
  split.
  - rewrite (K _ Rs).
    split; [intros [E|E]; [discriminate E | exact E] | intros E; right; exact E].
  - rewrite (K _ Rt).
    split; [intros [E|E]; [discriminate E | exact E] | intros E; right; exact E].
Qed.

(** C9 (the code at the failing input): with a classifier that was saved
    with its feature names, a batch that has every expected feature is
    scored, and the same batch without the bought [rsi] is not: [run]
    logs the missing column, calls the classifier on the matrix without
    it, the call raises, and [run] returns the error "Prediction failed".
    The absence of the feature is the only difference between the two
    calls. *)
Theorem missing_feature_fails_named_model :
  run (ex_named_host (3 # 4)) (Some ex_full_frame)
      (Some "/app/sell_model.json")
  = (RSuccess (mkDF 1 [ ("confidence_score", [VNum (3 # 4)]);
                        ("open", [VNum 1]); ("high", [VNum 1]);
                        ("low", [VNum 1]); ("volume", [VNum 1]);
                        ("sell_close", [VNum 1]) ]),
     [ Log INFO (LoadedSellModel "/app/sell_model.json");
       Predict (feature_matrix ex_full_frame);
       Log INFO (PredictionsGenerated 1) ])
  /\ columns (feature_matrix ex_full_frame) = EXPECTED_FEATURES
  /\ run (ex_named_host (3 # 4)) (Some ex_frame_without_rsi)
         (Some "/app/sell_model.json")
     = (RError "Prediction failed",
        [ Log INFO (LoadedSellModel "/app/sell_model.json");
          Log WARNING (MissingExpectedColumns ["buy_rsi"]);
          Predict (feature_matrix ex_frame_without_rsi);
          Log ERROR ErrorDuringPrediction ])
  /\ columns (feature_matrix ex_frame_without_rsi)
     = filter (fun c => negb (String.eqb c "buy_rsi")) EXPECTED_FEATURES
  /\ columns ex_frame_without_rsi
     = filter (fun c => negb (String.eqb c "rsi")) (columns ex_full_frame).
Proof.
  split; [vm_compute; reflexivity|]. split; [vm_compute; reflexivity|].
  split; [vm_compute; reflexivity|]. split; vm_compute; reflexivity.
Qed.



(** C6 (the code at the failing input): the pairing step keeps four
    indicator fields, under both namespaces, that the scoring step does
    not expect; every field the scoring step expects is kept by the
    pairing step. *)
Theorem pairing_keeps_unexpected_fields :
  filter (fun c => negb (inb c sell_model.BOUGHT_COLUMNS))
         orchestrator.BOUGHT_COLUMNS
  = [ "quote_asset_volume"; "number_of_trades";
      "taker_buy_base"; "taker_buy_quote" ]
  /\ filter (fun c => negb (inb c EXPECTED_FEATURES))
            (map (fun col => "buy_" ++ col)%string orchestrator.BOUGHT_COLUMNS
             ++ orchestrator.SELL_COLUMNS)
     = [ "buy_quote_asset_volume"; "buy_number_of_trades";
         "buy_taker_buy_base"; "buy_taker_buy_quote";
         "sell_quote_asset_volume"; "sell_number_of_trades";
         "sell_taker_buy_base"; "sell_taker_buy_quote" ]
  /\ forallb (fun c => inb c orchestrator.BOUGHT_COLUMNS)
             sell_model.BOUGHT_COLUMNS = true
  /\ forallb (fun c => inb c (map (fun col => "buy_" ++ col)%string
                                  orchestrator.BOUGHT_COLUMNS
                              ++ orchestrator.SELL_COLUMNS))
             EXPECTED_FEATURES = true
  /\ (exists evs b sid df,
        pairing (ex_host (82 # 100) [ex_T1]) ex_T1 = (evs, Some (b, sid, df))
        /\ In "number_of_trades" (columns df)
        /\ ~ In "buy_number_of_trades" EXPECTED_FEATURES
        /\ ~ In "number_of_trades" EXPECTED_FEATURES).
Proof.
  split; [vm_compute; reflexivity|]. split; [vm_compute; reflexivity|].
  split; [vm_compute; reflexivity|]. split; [vm_compute; reflexivity|].
  eexists. eexists. eexists. eexists.
  split; [vm_compute; reflexivity|].
  split; [cbn; tauto|].
  split; apply inb_false; vm_compute; reflexivity.
Qed.

(** ** The suggested-signals collection *)

Lemma value_eqb_refl v : value_eqb v v = true.
Proof.
  destruct v; simpl; auto using String.eqb_refl, Z.eqb_refl.
  apply Qeq_bool_iff. reflexivity.
Qed.

Lemma value_eqb_sym a b : value_eqb a b = value_eqb b a.
Proof.
  destruct a, b; simpl; auto using String.eqb_sym, Z.eqb_sym.
  apply eq_true_iff_eq. rewrite !Qeq_bool_iff. split; intros H; now symmetry.
Qed.

Lemma value_eqb_cong a b c :
  value_eqb a b = true -> value_eqb a c = value_eqb b c.
Proof.
  destruct a, b; simpl; try discriminate; intros H.
  - reflexivity.
  - destruct c; try reflexivity. apply eq_true_iff_eq.
    apply Qeq_bool_iff in H. rewrite !Qeq_bool_iff, H. reflexivity.
  - apply String.eqb_eq in H. now subst.
  - apply String.eqb_eq in H. now subst.
  - apply Z.eqb_eq in H. now subst.
Qed.

Lemma value_eqb_str v s : value_eqb v (VStr s) = true <-> v = VStr s.
Proof.
  destruct v; simpl; try (split; discriminate).
  rewrite String.eqb_eq. split; congruence.
Qed.

Lemma matches_signal_filter sym d :
  matches (signal_filter sym) d = has_key sym d.
Proof.
  unfold matches, signal_filter, has_key. cbn [forallb fst snd].
  now rewrite andb_true_r.
Qed.

Lemma has_key_iff sym d :
  has_key sym d = true
  <-> get "symbol" d = VStr sym /\ get "trade_type" d = VStr "SELL".
Proof.
  unfold has_key. now rewrite andb_true_iff, !value_eqb_str.
Qed.

Lemma same_key_of_has_key sym d x :
  has_key sym d = true -> same_key d x = has_key sym x.
Proof.
  intros H. apply has_key_iff in H. destruct H as [Hs Ht].
  unfold same_key, has_key. rewrite Hs, Ht.
  now rewrite (value_eqb_sym (VStr sym)), (value_eqb_sym (VStr "SELL")).
Qed.

Lemma same_key_to_has_key sym d x :
  has_key sym x = true -> same_key d x = has_key sym d.
Proof.
  intros H. apply has_key_iff in H. destruct H as [Hs Ht].
  unfold same_key, has_key. now rewrite Hs, Ht.
Qed.

(** The fields of a document after [$set] of a signal update. *)
Lemma get_apply_signal_update sym b sid v now d k :
  get k (apply_set (signal_update sym b sid v now) d)
  = if inb k ["symbol"; "trade_type"; "sell_score"; "buyid"; "sellid";
              "created_at"]
    then get k (signal_update sym b sid v now) else get k d.
Proof.
  unfold apply_set, signal_update, signal_record.
  cbn [app fold_left fst snd]. rewrite !get_assign.
  unfold inb, get. cbn [existsb lookup].
  destruct (String.eqb k "created_at") eqn:E6;
    [apply String.eqb_eq in E6; subst k; reflexivity|].
  destruct (String.eqb k "sellid") eqn:E5;
    [apply String.eqb_eq in E5; subst k; reflexivity|].
  destruct (String.eqb k "buyid") eqn:E4;
    [apply String.eqb_eq in E4; subst k; reflexivity|].
  destruct (String.eqb k "sell_score") eqn:E3;
    [apply String.eqb_eq in E3; subst k; reflexivity|].
  destruct (String.eqb k "trade_type") eqn:E2;
    [apply String.eqb_eq in E2; subst k; reflexivity|].
  destruct (String.eqb k "symbol") eqn:E1;
    [apply String.eqb_eq in E1; subst k; reflexivity|].
  reflexivity.
Qed.

Lemma has_key_updated sym b sid v now d :
  has_key sym (apply_set (signal_update sym b sid v now) d) = true.
Proof.
  apply has_key_iff. rewrite !get_apply_signal_update. split; reflexivity.
Qed.

Lemma forallb_pointwise {A : Type} (f g : A -> bool) (l : list A) :
  (forall x, f x = g x) -> forallb f l = forallb g l.
Proof.
  intros H. induction l as [|x l IH]; simpl; [reflexivity|].
  now rewrite H, IH.
Qed.

Lemma update_one_cons sym u oid d rest :
  update_one (signal_filter sym) u oid (d :: rest)
  = if has_key sym d then apply_set u d :: rest
    else d :: update_one (signal_filter sym) u oid rest.
Proof. cbn [update_one]. now rewrite matches_signal_filter. Qed.

Lemma same_key_with_id d oid x :
  same_key d (("_id", VOid oid) :: x) = same_key d x.
Proof. reflexivity. Qed.

Lemma has_key_with_id sym oid x :
  has_key sym (("_id", VOid oid) :: x) = has_key sym x.
Proof. reflexivity. Qed.

Lemma forallb_update_one_other sym u oid x rest :
  (forall d, has_key sym (apply_set u d) = true) ->
  has_key sym x = false ->
  forallb (fun d' => negb (same_key x d')) rest = true ->
  forallb (fun d' => negb (same_key x d'))
          (update_one (signal_filter sym) u oid rest) = true.
Proof.
  intros Hu Hx. induction rest as [|d rest IH].
  - intros _. cbn [update_one forallb]. rewrite same_key_with_id.
    rewrite (same_key_to_has_key sym) by apply Hu.
    now rewrite Hx.
  - cbn [forallb]. rewrite andb_true_iff. intros [Hd Hrest].
    rewrite update_one_cons.
    destruct (has_key sym d) eqn:Ed; cbn [forallb].
    + rewrite (same_key_to_has_key sym) by apply Hu.
      now rewrite Hx, Hrest.
    + now rewrite Hd, IH.
Qed.

Lemma update_one_unique sym u oid store :
  (forall d, has_key sym (apply_set u d) = true) ->
  unique_keys store = true ->
  unique_keys (update_one (signal_filter sym) u oid store) = true.
Proof.
  intros Hu. induction store as [|d rest IH]; [reflexivity|].
  cbn [unique_keys]. rewrite andb_true_iff. intros [Hd Hrest].
  rewrite update_one_cons.
  destruct (has_key sym d) eqn:Ed; cbn [unique_keys].
  - rewrite Hrest, andb_true_r.
    rewrite <- Hd. apply forallb_pointwise. intros x.
    rewrite (same_key_of_has_key sym) by apply Hu.
    now rewrite (same_key_of_has_key sym d x Ed).
  - rewrite IH by assumption. rewrite andb_true_r.
    now apply forallb_update_one_other.
Qed.

Lemma update_one_other_doc sym u oid store i d :
  nth_error store i = Some d -> has_key sym d = false ->
  nth_error (update_one (signal_filter sym) u oid store) i = Some d.
Proof.
  revert i. induction store as [|x rest IH]; intros [|i] H Hk;
    cbn [nth_error] in H; try discriminate H; rewrite update_one_cons.
  - injection H as ->. rewrite Hk. reflexivity.
  - destruct (has_key sym x); cbn [nth_error]; [exact H | now apply IH].
Qed.

Lemma update_one_in_place sym u oid store i d :
  unique_keys store = true ->
  nth_error store i = Some d -> has_key sym d = true ->
  List.length (update_one (signal_filter sym) u oid store) = List.length store
  /\ nth_error (update_one (signal_filter sym) u oid store) i
     = Some (apply_set u d)
  /\ (forall j, j <> i ->
        nth_error (update_one (signal_filter sym) u oid store) j
        = nth_error store j).
Proof.
  revert i. induction store as [|x rest IH]; intros [|i] Hu H Hk;
    cbn [nth_error] in H; try discriminate H; rewrite update_one_cons.
  - injection H as ->. rewrite Hk.
    split; [reflexivity|]. split; [reflexivity|].
    intros [|j] Hj; [contradiction | reflexivity].
  - cbn [unique_keys] in Hu.
    apply andb_true_iff in Hu. destruct Hu as [Hx Hrest].
    assert (Ex : has_key sym x = false).
    { rewrite forallb_forall in Hx.
      specialize (Hx d (nth_error_In _ _ H)).
      rewrite (same_key_to_has_key sym x d Hk) in Hx.
      now destruct (has_key sym x). }
    rewrite Ex.
    destruct (IH i Hrest H Hk) as (L & N & O).
    split; [cbn [List.length]; now rewrite L|]. split; [exact N|].
    intros [|j] Hj; [reflexivity|]. cbn [nth_error]. apply O. congruence.
Qed.

Lemma signal_upserts_trans allowed a b c :
  signal_upserts allowed a b -> signal_upserts allowed b c ->
  signal_upserts allowed a c.
Proof.
  intros Hab Hbc. induction Hbc; [assumption|].
  apply su_step; auto.
Qed.

Lemma signal_upserts_weaken (P Q : string -> Prop) a b :
  (forall s, P s -> Q s) -> signal_upserts P a b -> signal_upserts Q a b.
Proof.
  intros HPQ H. induction H; [apply su_refl|]. apply su_step; auto.
Qed.

Lemma signal_upserts_unique allowed a b :
  signal_upserts allowed a b -> unique_keys a = true -> unique_keys b = true.
Proof.
  intros H Ha. induction H; [assumption|].
  apply update_one_unique; [intros d; apply has_key_updated | auto].
Qed.

Lemma signal_upserts_frame allowed a b s i d :
  signal_upserts allowed a b -> ~ allowed s ->
  nth_error a i = Some d -> get "symbol" d = VStr s ->
  nth_error b i = Some d.
Proof.
  intros H Hs Hi Hd. induction H; [assumption|].
  apply update_one_other_doc; [auto|].
  destruct (has_key sym d) eqn:E; [|reflexivity].
  apply has_key_iff in E. destruct E as [E _]. rewrite Hd in E.
  injection E as ->. contradiction.
Qed.

(** ** The save loop on signal records *)

Lemma save_loop_signal_cons h sym b sid v vs st :
  save_loop h (map (signal_record sym b sid) (v :: vs)) st
  = let call := UpdateOne (signal_filter sym)
                          (signal_update sym b sid v (utcnow h (calls st))) in
    if update_raises h (calls st)
    then (mkSt (coll st) (S (calls st)), [call], false)
    else
      let '(st', evs, ok) :=
        save_loop h (map (signal_record sym b sid) vs)
                  (mkSt (update_one (signal_filter sym)
                                    (signal_update sym b sid v
                                                   (utcnow h (calls st)))
                                    (generated_id h (calls st))
                                    (coll st))
                        (S (calls st))) in
      (st', call :: evs, ok).
Proof. reflexivity. Qed.

Lemma save_loop_upserts h sym b sid vs st :
  signal_upserts (fun s => s = sym) (coll st)
    (coll (fst (fst (save_loop h (map (signal_record sym b sid) vs) st))))
  /\ Forall (fun e => exists u, e = UpdateOne (signal_filter sym) u)
            (snd (fst (save_loop h (map (signal_record sym b sid) vs) st))).
Proof.
  revert st. induction vs as [|v vs IH]; intros st.
  - split; [apply su_refl | constructor].
  - rewrite save_loop_signal_cons. cbv zeta.
    destruct (update_raises h (calls st)).
    + split; [apply su_refl|]. repeat constructor. eexists. reflexivity.
    + specialize (IH (mkSt (update_one (signal_filter sym)
                              (signal_update sym b sid v (utcnow h (calls st)))
                              (generated_id h (calls st))
                              (coll st)) (S (calls st)))).
      destruct (save_loop h (map (signal_record sym b sid) vs) _)
        as [[st' evs] ok].
      cbn [fst snd coll] in *. destruct IH as [IH1 IH2]. split.
      * eapply signal_upserts_trans; [|exact IH1].
        apply su_step; [apply su_refl | reflexivity].
      * constructor; [eexists; reflexivity | exact IH2].
Qed.

Lemma updates_signal_writes h sym b sid vs n :
  updates (signal_writes h sym b sid vs n) = signal_writes h sym b sid vs n.
Proof.
  revert n. induction vs as [|v vs IH]; intros n; [reflexivity|].
  unfold updates in *. cbn [signal_writes filter is_update]. now rewrite IH.
Qed.

Lemma save_loop_ok h sym b sid vs st :
  (forall k, update_raises h k = false) ->
  save_loop h (map (signal_record sym b sid) vs) st
  = (mkSt (apply_updates h (calls st)
                         (signal_writes h sym b sid vs (calls st)) (coll st))
          (List.length vs + calls st),
     signal_writes h sym b sid vs (calls st), true).
Proof.
  intros Hok. revert st. induction vs as [|v vs IH]; intros st.
  - destruct st. reflexivity.
  - rewrite save_loop_signal_cons. cbv zeta. rewrite Hok, IH.
    cbn [coll calls signal_writes List.length apply_updates].
    rewrite Nat.add_succ_r. reflexivity.
Qed.

Lemma updates_app a b : updates (a ++ b) = updates a ++ updates b.
Proof. apply filter_app. Qed.

(** The store after [persist], and the calls it makes, on a scored frame. *)
Lemma persist_store h c sym b sid dfs st scores :
  nrows dfs <> 0 ->
  lookup "confidence_score" (cols dfs) = Some scores ->
  List.length scores = nrows dfs ->
  lookup "symbol" (cols dfs) = None ->
  lookup "sell_score" (cols dfs) = None ->
  signal_upserts (fun s => s = sym /\ existsb ge_threshold scores = true)
                 (coll st) (coll (fst (persist h c sym b sid dfs st)))
  /\ Forall (fun e => exists u, e = UpdateOne (signal_filter sym) u)
            (updates (snd (persist h c sym b sid dfs st)))
  /\ (existsb ge_threshold scores = false ->
      persist h c sym b sid dfs st
      = (st, [Log (if forallb isnull scores then WARNING else INFO)
                  (if forallb isnull scores
                   then NoConfidenceScore sym
                   else NoPredictionsAboveThreshold sym)])).
Proof.
  intros H1 H2 H3 H4 H5.
  rewrite (persist_scored h c sym b sid dfs st scores H1 H2 H3 H4 H5).
  destruct (forallb isnull scores).
  { split; [apply su_refl|]. split; [constructor | reflexivity]. }
  destruct (filter ge_threshold scores) as [|q qs] eqn:Eq.
  { split; [apply su_refl|]. split; [constructor | reflexivity]. }
  assert (Ex : existsb ge_threshold scores = true).
  { apply existsb_exists. exists q.
    apply filter_In. rewrite Eq. now left. }
  cbv beta iota zeta.
  destruct (save_loop_upserts h sym b sid (q :: qs) st) as [U F].
  destruct (save_loop h (map (signal_record sym b sid) (q :: qs)) st)
    as [[st' evs] ok].
  cbn [fst snd] in *. split.
  - eapply signal_upserts_weaken; [|exact U]. intros s ->. now split.
  - split; [|rewrite Ex; discriminate].
    rewrite updates_app. apply Forall_app. split.
    + unfold updates. apply Forall_forall. intros e He.
      apply filter_In in He. rewrite Forall_forall in F. apply F, He.
    + destruct ok; constructor.
Qed.

Lemma persist_ok h c sym b sid dfs st scores :
  nrows dfs <> 0 ->
  lookup "confidence_score" (cols dfs) = Some scores ->
  List.length scores = nrows dfs ->
  lookup "symbol" (cols dfs) = None ->
  lookup "sell_score" (cols dfs) = None ->
  (forall k, update_raises h k = false) ->
  updates (snd (persist h c sym b sid dfs st))
  = signal_writes h sym b sid (filter ge_threshold scores) (calls st)
  /\ coll (fst (persist h c sym b sid dfs st))
     = apply_updates h (calls st)
                     (updates (snd (persist h c sym b sid dfs st))) (coll st).
Proof.
  intros H1 H2 H3 H4 H5 Hok.
  rewrite (persist_scored h c sym b sid dfs st scores H1 H2 H3 H4 H5).
  assert (N : forallb isnull scores = true ->
              filter ge_threshold scores = []).
  { intros Hn. rewrite forallb_forall in Hn.
    destruct (filter ge_threshold scores) as [|q qs] eqn:Eq; [reflexivity|].
    assert (Hq : In q (filter ge_threshold scores)) by (rewrite Eq; now left).
    apply filter_In in Hq. destruct Hq as [Hin Hge].
    specialize (Hn q Hin). destruct q; try discriminate Hn; discriminate Hge. }
  destruct (forallb isnull scores).
  { rewrite N by reflexivity. split; reflexivity. }
  destruct (filter ge_threshold scores) as [|q qs] eqn:Eq.
  { split; reflexivity. }
  cbv beta iota zeta. rewrite save_loop_ok by exact Hok.
  cbn [fst snd coll]. rewrite updates_app, updates_signal_writes.
  cbn [updates filter is_update]. rewrite app_nil_r. split; reflexivity.
Qed.

(** ** Pairing and the per-trade step *)

Lemma empty_no_docs : empty (pd_DataFrame []) = true.
Proof. reflexivity. Qed.

Lemma columns_concat_axis1 a b :
  columns (concat_axis1 a b) = columns a ++ columns b.
Proof.
  unfold concat_axis1, columns. cbn [cols].
  rewrite map_map, map_app. reflexivity.
Qed.

Lemma pairing_no_updates h t : updates (fst (pairing h t)) = [].
Proof.
  unfold pairing. cbv zeta.
  destruct (negb (truthy (buyid t))); [reflexivity|].
  destruct (bson_ObjectId h (buyid t)); [|reflexivity].
  destruct (empty (pd_DataFrame (find_by_id _ _))); [reflexivity|].
  destruct (empty (pd_DataFrame (find_latest _ _))); reflexivity.
Qed.

Lemma pairing_some h t evs b sid df :
  pairing h t = (evs, Some (b, sid, df)) ->
  truthy (buyid t) = true
  /\ bson_ObjectId h (buyid t) = Some b
  /\ find_by_id (historical h) b <> []
  /\ find_latest (historical h) (symbol t) <> []
  /\ (forall c, In c (columns df) ->
                In c (orchestrator.BOUGHT_COLUMNS
                      ++ orchestrator.SELL_COLUMNS)).
Proof.
  intros H. apply (f_equal snd) in H. cbn [snd] in H.
  unfold pairing in H. cbv zeta in H.
  destruct (truthy (buyid t)); cbn [negb] in H; [|discriminate H].
  destruct (bson_ObjectId h (buyid t)) as [o|]; [|discriminate H].
  destruct (find_by_id (historical h) o) as [|d1 l1] eqn:E1.
  { rewrite empty_no_docs in H. discriminate H. }
  destruct (empty (pd_DataFrame (d1 :: l1))); [discriminate H|].
  destruct (find_latest (historical h) (symbol t)) as [|d2 l2] eqn:E2.
  { rewrite empty_no_docs in H. discriminate H. }
  destruct (empty (pd_DataFrame (d2 :: l2))); [discriminate H|].
  cbn [snd] in H.
  remember (concat_axis1 _ _) as X eqn:EX in H.
  remember (nth 0 _ _) as Y eqn:EY in H.
  injection H as Ho Hs Hd. subst o df.
  split; [reflexivity|]. split; [reflexivity|].
  split; [rewrite E1; discriminate|]. split; [discriminate|].
  intros c Hc. rewrite EX, columns_concat_axis1, !columns_getitem in Hc.
  apply in_app_iff in Hc. apply in_app_iff.
  destruct Hc as [Hc|Hc]; [left | right];
    apply filter_In in Hc; destruct Hc as [Hc _];
    apply filter_In in Hc; tauto.
Qed.

Lemma distinct_NoDup l : distinct l = true -> NoDup l.
Proof.
  induction l as [|x l IH]; cbn [distinct]; intros H; [constructor|].
  apply andb_true_iff in H. destruct H as [Hx Hl].
  constructor; [|now apply IH].
  intros Hin. apply inb_In in Hin. rewrite Hin in Hx. discriminate Hx.
Qed.

Lemma NoDup_filter_app (p q : string -> bool) l1 l2 :
  NoDup (l1 ++ l2) -> NoDup (filter p l1 ++ filter q l2).
Proof.
  intros H. apply NoDup_app.
  - apply NoDup_filter. now apply NoDup_app_remove_r in H.
  - apply NoDup_filter. now apply NoDup_app_remove_l in H.
  - intros a Ha Hb. apply filter_In in Ha, Hb.
    destruct Ha as [Ha _]. destruct Hb as [Hb _].
    revert Ha Hb. clear -H. induction l1 as [|x l1 IH]; [contradiction|].
    cbn [app] in H. inversion H as [|? ? Hx Hr]; subst.
    intros [->|Ha] Hb.
    + apply Hx. apply in_app_iff. now right.
    + now apply IH.
Qed.

(** The frame built by the pairing step has distinct labels. *)
Lemma pairing_distinct h t evs b sid df :
  pairing h t = (evs, Some (b, sid, df)) -> NoDup (columns df).
Proof.
  intros H. apply (f_equal snd) in H. cbn [snd] in H.
  unfold pairing in H. cbv zeta in H.
  destruct (truthy (buyid t)); cbn [negb] in H; [|discriminate H].
  destruct (bson_ObjectId h (buyid t)) as [o|]; [|discriminate H].
  destruct (empty (pd_DataFrame (find_by_id _ _))); [discriminate H|].
  destruct (empty (pd_DataFrame (find_latest _ _))); [discriminate H|].
  cbn [snd] in H.
  remember (concat_axis1 _ _) as X eqn:EX in H.
  remember (nth 0 _ _) as Y eqn:EY in H.
  injection H as Ho Hs Hd. subst o df.
  rewrite EX, columns_concat_axis1, !columns_getitem, !filter_idem.
  apply NoDup_filter_app. apply distinct_NoDup. vm_compute. reflexivity.
Qed.

Lemma raised_app a b : raised (a ++ b) = raised a || raised b.
Proof. apply existsb_app. Qed.

Lemma pairing_returns h t : raised (fst (pairing h t)) = false.
Proof.
  unfold pairing. cbv zeta.
  destruct (negb (truthy (buyid t))); [reflexivity|].
  destruct (bson_ObjectId h (buyid t)); [|reflexivity].
  destruct (empty (pd_DataFrame (find_by_id _ _))); [reflexivity|].
  destruct (empty (pd_DataFrame (find_latest _ _))); reflexivity.
Qed.

(** On a frame with distinct labels [run] returns: no exception leaves
    it. *)
Lemma run_returns h df mf :
  NoDup (columns df) ->
  raised (snd (run h (Some df) mf)) = false
  /\ forall e, fst (run h (Some df) mf) <> RRaised e.
Proof.
  intros Hnd.
  destruct (empty df) eqn:He.
  { unfold run. rewrite He. split; [reflexivity | discriminate]. }
  destruct mf as [f|].
  2:{ unfold run. rewrite He. split; [reflexivity | discriminate]. }
  destruct (String.eqb_spec f "") as [->|Hf].
  { unfold run. rewrite He. split; [reflexivity | discriminate]. }
  destruct (file_exists h f) eqn:Hx.
  2:{ unfold run. rewrite He, Hx, orb_true_r.
      split; [reflexivity | discriminate]. }
  destruct (load_model h f) as [model|] eqn:Hl.
  2:{ unfold run. rewrite He, Hx, Hl.
      destruct (String.eqb f ""); split; try reflexivity; discriminate. }
  rewrite (run_loaded h df f model He Hf Hx Hl).
  rewrite (add_buy_columns_distinct df Hnd).
  assert (B : raised (events_before_predict f df) = false).
  { unfold events_before_predict.
    destruct (missing_features df); reflexivity. }
  destruct (model _) as [scores|].
  - destruct (List.length scores =? nrows df); cbn [fst snd];
      rewrite raised_app, B; split; try reflexivity; discriminate.
  - cbn [fst snd]. rewrite raised_app, B.
    split; [reflexivity | discriminate].
Qed.

Lemma run_no_updates h data mf : updates (snd (run h data mf)) = [].
Proof.
  destruct data as [df|]; [|reflexivity].
  destruct (empty df) eqn:He.
  { unfold run. rewrite He. reflexivity. }
  destruct mf as [f|].
  2:{ unfold run. rewrite He. reflexivity. }
  destruct (String.eqb_spec f "") as [->|Hf].
  { unfold run. rewrite He. reflexivity. }
  destruct (file_exists h f) eqn:Hx.
  2:{ unfold run. rewrite He, Hx, orb_true_r. reflexivity. }
  destruct (load_model h f) as [model|] eqn:Hl.
  2:{ unfold run. rewrite He, Hx, Hl.
      destruct (String.eqb f ""); reflexivity. }
  rewrite (run_loaded h df f model He Hf Hx Hl).
  destruct (add_buy_columns df); [|reflexivity].
  assert (B : updates (events_before_predict f df) = []).
  { unfold events_before_predict.
    destruct (missing_features df); reflexivity. }
  destruct (model _) as [scores|].
  - destruct (List.length scores =? nrows df); cbn [snd];
      rewrite updates_app, B; reflexivity.
  - cbn [snd]. rewrite updates_app, B. reflexivity.
Qed.

Lemma not_in_pairing_columns c :
  inb c (orchestrator.BOUGHT_COLUMNS ++ orchestrator.SELL_COLUMNS) = false ->
  forall h t evs b sid df,
    pairing h t = (evs, Some (b, sid, df)) -> lookup c (cols df) = None.
Proof.
  intros Hc h t evs b sid df H.
  apply pairing_some in H. destruct H as (_ & _ & _ & _ & H).
  apply lookup_None_keys. intros Hin. apply H in Hin.
  apply inb_In in Hin. fold (columns df) in *. congruence.
Qed.

(** The shape of the frame a paired and scored trade hands to [persist]. *)
Lemma scored_shape h mf t b sid dfs :
  scored h mf t = Some (b, sid, dfs) ->
  nrows dfs <> 0
  /\ List.length (column "confidence_score" dfs) = nrows dfs
  /\ lookup "confidence_score" (cols dfs)
     = Some (column "confidence_score" dfs)
  /\ lookup "symbol" (cols dfs) = None
  /\ lookup "sell_score" (cols dfs) = None.
Proof.
  unfold scored. intros H.
  destruct (pairing h t) as [evs [[[b0 sid0] df]|]] eqn:Ep; [|discriminate H].
  destruct (run h (Some df) (Some mf)) as [r evs'] eqn:Er.
  cbn [fst] in H. destruct r as [m|dfs0|e]; [discriminate H| |discriminate H].
  injection H as -> -> ->.
  apply run_success_inv in Er.
  destruct Er as (model & scores & He & _ & _ & Hlen & -> & _).
  assert (C := columns_returned df scores).
  assert (L := lookup_scored_frame df scores).
  destruct (returned_frame_props df _ _ C L) as (P1 & _ & P3 & _).
  assert (N : nrows (scored_frame df scores) = nrows df).
  { unfold scored_frame. rewrite nrows_setitem. apply nrows_with_buy_columns. }
  set (dfs := getitem (scored_frame df scores) _) in *.
  assert (Nd : nrows dfs = nrows df) by (unfold dfs; rewrite nrows_getitem; exact N).
  clearbody dfs.
  apply empty_false in He. destruct He as [He _].
  split; [congruence|].
  unfold column. rewrite P1.
  split; [rewrite length_map; congruence|]. split; [reflexivity|]. split.
  - apply lookup_None_keys. fold (columns dfs). rewrite P3.
    apply lookup_None_keys.
    apply (not_in_pairing_columns "symbol" eq_refl h t evs b sid df Ep).
  - apply lookup_None_keys. fold (columns dfs). rewrite C.
    rewrite filter_In. intros [Hin _].
    unfold returned_names in Hin. cbn [In] in Hin.
    repeat (destruct Hin as [Hin|Hin]; [discriminate Hin|]). exact Hin.
Qed.

Lemma process_trade_unscored h c mf t st :
  scored h mf t = None ->
  fst (process_trade h c mf t st) = st
  /\ updates (snd (process_trade h c mf t st)) = [].
Proof.
  unfold scored, process_trade. intros H.
  assert (Up := pairing_no_updates h t).
  destruct (pairing h t) as [evs [[[b sid] df]|]]; cbn [fst] in Up;
    [|split; [reflexivity | exact Up]].
  assert (Ur := run_no_updates h (Some df) (Some mf)).
  destruct (run h (Some df) (Some mf)) as [[m|dfs|e] evs'];
    cbn [fst snd] in *; [|discriminate H|];
    (split; [reflexivity|]); rewrite !updates_app, Up, Ur; reflexivity.
Qed.

Lemma process_trade_scored h c mf t st b sid dfs :
  scored h mf t = Some (b, sid, dfs) ->
  exists evs0,
    updates evs0 = []
    /\ process_trade h c mf t st
       = (fst (persist h c (symbol t) b sid dfs st),
          evs0 ++ snd (persist h c (symbol t) b sid dfs st)).
Proof.
  unfold scored, process_trade. intros H.
  assert (Up := pairing_no_updates h t).
  destruct (pairing h t) as [evs [[[b0 sid0] df]|]]; cbn [fst] in Up;
    [|discriminate H].
  assert (Ur := run_no_updates h (Some df) (Some mf)).
  destruct (run h (Some df) (Some mf)) as [[m|dfs0|e] evs'];
    cbn [fst snd] in *; [discriminate H| |discriminate H].
  injection H as -> -> ->.
  exists (evs ++ evs'). split; [rewrite updates_app, Up, Ur; reflexivity|].
  destruct (persist h c (symbol t) b sid dfs st) as [st' evs''].
  cbn [fst snd]. now rewrite app_assoc.
Qed.

Lemma process_trade_store h c mf t st :
  signal_upserts (fun s => s = symbol t /\ qualifies h mf t = true)
                 (coll st) (coll (fst (process_trade h c mf t st)))
  /\ Forall (fun e => exists u, e = UpdateOne (signal_filter (symbol t)) u)
            (updates (snd (process_trade h c mf t st)))
  /\ (qualifies h mf t = false ->
      fst (process_trade h c mf t st) = st
      /\ updates (snd (process_trade h c mf t st)) = []).
Proof.
  unfold qualifies.
  destruct (scored h mf t) as [[[b sid] dfs]|] eqn:Es.
  - destruct (scored_shape h mf t b sid dfs Es) as (H1 & H3 & H2 & H4 & H5).
    destruct (process_trade_scored h c mf t st b sid dfs Es)
      as (evs0 & U0 & ->).
    destruct (persist_store h c (symbol t) b sid dfs st _ H1 H2 H3 H4 H5)
      as (S1 & S2 & S3).
    cbn [fst snd]. rewrite updates_app, U0. cbn [app].
    split; [exact S1|]. split; [exact S2|].
    intros Hq. rewrite (S3 Hq). split; [reflexivity|].
    destruct (forallb isnull _); reflexivity.
  - destruct (process_trade_unscored h c mf t st Es) as [-> ->].
    split; [apply su_refl|]. split; [constructor|].
    intros _. split; reflexivity.
Qed.

Lemma save_loop_returns h rs st :
  raised (snd (fst (save_loop h rs st))) = false.
Proof.
  revert st. induction rs as [|r rs IH]; intros st; [reflexivity|].
  cbn [save_loop].
  destruct (lookup "symbol" r) as [s|]; [|reflexivity].
  destruct (lookup "trade_type" r) as [ty|]; [|reflexivity].
  cbv zeta. destruct (update_raises h (calls st)); [reflexivity|].
  specialize (IH (mkSt (update_one [("symbol", s); ("trade_type", ty)]
                                   (assign "created_at"
                                           (VDate (utcnow h (calls st))) r)
                                   (generated_id h (calls st)) (coll st))
                       (S (calls st)))).
  destruct (save_loop h rs _) as [[st' evs] ok]. exact IH.
Qed.

Lemma persist_returns h c sym b sid dfs st :
  raised (snd (persist h c sym b sid dfs st)) = false.
Proof.
  unfold persist. cbv zeta.
  destruct (empty dfs); [reflexivity|].
  destruct (negb _ || _); [reflexivity|].
  destruct (empty _); [reflexivity|].
  match goal with
  | |- context [save_loop h ?rs st] =>
      assert (R := save_loop_returns h rs st);
      destruct (save_loop h rs st) as [[st' evs] ok]
  end.
  cbn [fst snd] in *. rewrite raised_app, R. now destruct ok.
Qed.

(** No exception leaves the body of the loop: the frames the pairing step
    builds have distinct labels. *)
Lemma process_trade_returns h c mf t st :
  raised (snd (process_trade h c mf t st)) = false.
Proof.
  unfold process_trade.
  assert (Rp := pairing_returns h t).
  destruct (pairing h t) as [evs [[[b sid] df]|]] eqn:Ep; cbn [fst] in Rp;
    [|exact Rp].
  destruct (run_returns h df (Some mf) (pairing_distinct h t _ _ _ _ Ep))
    as [Rr Nr].
  destruct (run h (Some df) (Some mf)) as [[m|dfs|e] evs'];
    cbn [fst snd] in *.
  - rewrite !raised_app, Rp, Rr. reflexivity.
  - assert (Rs := persist_returns h c (symbol t) b sid dfs st).
    destruct (persist h c (symbol t) b sid dfs st) as [st' evs''].
    cbn [snd] in *. rewrite !raised_app, Rp, Rr, Rs. reflexivity.
  - exfalso. now apply (Nr e).
Qed.

Lemma run_on_paired_frame h t evs b sid df mf e :
  pairing h t = (evs, Some (b, sid, df)) ->
  fst (run h (Some df) (Some mf)) <> RRaised e.
Proof.
  intros Ep.
  exact (proj2 (run_returns h df (Some mf) (pairing_distinct h t _ _ _ _ Ep))
               e).
Qed.

(** X16: no exception leaves the scoring function on a frame the pairing
    step built: such a frame has distinct labels, so line 54 of
    [sell_model.py] does not raise, and [run] returns one of its two
    dicts. *)
Theorem paired_frame_never_raises h t evs b sid df mf :
  pairing h t = (evs, Some (b, sid, df)) ->
  NoDup (columns df)
  /\ add_buy_columns df = Some (with_buy_columns df)
  /\ raised (snd (run h (Some df) mf)) = false
  /\ ((exists message, fst (run h (Some df) mf) = RError message)
      \/ exists dfs, fst (run h (Some df) mf) = RSuccess dfs).
Proof.
  intros Ep. assert (Hnd := pairing_distinct h t _ _ _ _ Ep).
  destruct (run_returns h df mf Hnd) as [R N].
  split; [exact Hnd|].
  split; [exact (add_buy_columns_distinct df Hnd)|].
  split; [exact R|].
  destruct (fst (run h (Some df) mf)) as [m|dfs|e].
  - left. now exists m.
  - right. now exists dfs.
  - now destruct (N e).
Qed.

Lemma paired_frame_never_raises_witness :
  (exists evs df,
      pairing (ex_host (3 # 4) [ex_T1]) ex_T1
      = (evs, Some ("5f0000000000000000000001",
                    VOid "5f0000000000000000000002", df))
      /\ raised (snd (run (ex_host (3 # 4) [ex_T1]) (Some df)
                          (Some "/app/sell_model.json"))) = false).
Proof.
  eexists. eexists.
  assert (Ep : pairing (ex_host (3 # 4) [ex_T1]) ex_T1
               = (fst (pairing (ex_host (3 # 4) [ex_T1]) ex_T1),
                  Some ("5f0000000000000000000001",
                        VOid "5f0000000000000000000002",
                        match snd (pairing (ex_host (3 # 4) [ex_T1]) ex_T1)
                        with
                        | Some (_, _, df) => df
                        | None => mkDF 0 []
                        end)))
    by (vm_compute; reflexivity).
  split; [exact Ep|].
  exact (proj1 (proj2 (proj2 (paired_frame_never_raises
                                _ _ _ _ _ _ (Some "/app/sell_model.json")
                                Ep)))).
Defined.

Lemma process_trades_cons h c mf t rest st :
  process_trades h c mf (t :: rest) st
  = (fst (process_trades h c mf rest (fst (process_trade h c mf t st))),
     snd (process_trade h c mf t st)
     ++ snd (process_trades h c mf rest (fst (process_trade h c mf t st)))).
Proof.
  cbn [process_trades].
  assert (R := process_trade_returns h c mf t st).
  destruct (process_trade h c mf t st) as [st1 evs1]. cbn [fst snd] in *.
  rewrite R.
  destruct (process_trades h c mf rest st1) as [st2 evs2]. reflexivity.
Qed.

Lemma process_trades_returns h c mf trades st :
  raised (snd (process_trades h c mf trades st)) = false.
Proof.
  revert st. induction trades as [|t rest IH]; intros st; [reflexivity|].
  rewrite process_trades_cons. cbn [snd].
  now rewrite raised_app, process_trade_returns, IH.
Qed.

Lemma process_trades_app h c mf pre post st :
  process_trades h c mf (pre ++ post) st
  = (fst (process_trades h c mf post (fst (process_trades h c mf pre st))),
     snd (process_trades h c mf pre st)
     ++ snd (process_trades h c mf post
                            (fst (process_trades h c mf pre st)))).
Proof.
  revert st. induction pre as [|t pre IH]; intros st.
  - cbn [app process_trades fst snd].
    now destruct (process_trades h c mf post st).
  - cbn [app]. rewrite !process_trades_cons, IH. cbn [fst snd].
    now rewrite app_assoc.
Qed.

Lemma process_trades_store h c mf trades st :
  signal_upserts
    (fun s => exists t, In t trades /\ symbol t = s
                        /\ qualifies h mf t = true)
    (coll st) (coll (fst (process_trades h c mf trades st)))
  /\ Forall (fun e => exists t u,
                 In t trades /\ qualifies h mf t = true
                 /\ e = UpdateOne (signal_filter (symbol t)) u)
            (updates (snd (process_trades h c mf trades st))).
Proof.
  revert st. induction trades as [|t rest IH]; intros st.
  - split; [apply su_refl | constructor].
  - rewrite process_trades_cons. cbn [fst snd].
    destruct (process_trade_store h c mf t st) as (S1 & S2 & S3).
    destruct (IH (fst (process_trade h c mf t st))) as [I1 I2].
    split.
    + eapply signal_upserts_trans.
      * eapply signal_upserts_weaken; [|exact S1].
        intros s [-> Hq]. exists t. split; [now left | now split].
      * eapply signal_upserts_weaken; [|exact I1].
        intros s (t' & Hin & Hs & Hq). exists t'.
        split; [now right | now split].
    + rewrite updates_app. apply Forall_app. split.
      * destruct (qualifies h mf t) eqn:Eq.
        -- eapply Forall_impl; [|exact S2].
           intros e [u ->]. exists t, u.
           split; [now left | now split].
        -- destruct (S3 eq_refl) as [_ ->]. constructor.
      * eapply Forall_impl; [|exact I2].
        intros e (t' & u & Hin & Hq & ->). exists t', u.
        split; [now right | now split].
Qed.

(** What a run does to the collection, and which writes it issues. *)
Lemma orchestrator_store h suggested :
  signal_upserts
    (fun s => exists t, In t (active_trades h) /\ symbol t = s
                        /\ qualifies h (model_file_of h) t = true)
    suggested (fst (orchestrator_stage2_sell h suggested))
  /\ Forall (fun e => exists t u,
                 In t (active_trades h)
                 /\ qualifies h (model_file_of h) t = true
                 /\ e = UpdateOne (signal_filter (symbol t)) u)
            (updates (snd (orchestrator_stage2_sell h suggested))).
Proof.
  unfold orchestrator_stage2_sell. cbv zeta. fold (model_file_of h).
  destruct (negb (file_exists h (path_join (base_dir h) ".env")));
    [split; [apply su_refl | constructor]|].
  destruct (_ || _); [split; [apply su_refl | constructor]|].
  destruct (negb (file_exists h (model_file_of h)));
    [split; [apply su_refl | constructor]|].
  destruct (negb (connect_ok h)); [split; [apply su_refl | constructor]|].
  destruct (active_trades h) as [|t0 l0] eqn:Ea;
    [split; [apply su_refl | constructor]|].
  destruct (process_trades_store h (getenv h "SUGGESTED_TRADES_COLLECTION")
              (model_file_of h) (t0 :: l0) (mkSt suggested 0)) as [S1 S2].
  assert (R := process_trades_returns h
                 (getenv h "SUGGESTED_TRADES_COLLECTION")
                 (model_file_of h) (t0 :: l0) (mkSt suggested 0)).
  destruct (process_trades h _ (model_file_of h) (t0 :: l0) _) as [st evs].
  cbn [fst snd coll] in *. rewrite R. split; [exact S1|].
  change (Find ActiveTradesCol [] :: evs ++ [Log INFO Completed])
    with ([Find ActiveTradesCol []] ++ evs ++ [Log INFO Completed]).
  rewrite !updates_app. cbn [updates filter is_update app].
  rewrite app_nil_r. exact S2.
Qed.

(** ** Startup *)

(** C10: when startup fails (no [.env] file, one of [MONGO_CONN_STR],
    [MONGO_DB_NAME], [SELL_MODEL_FILE] unset, no model file, or the
    connection block raising), the run returns after one error record:
    the active trades are not read, nothing is written, and the
    collection is as it was. *)
Theorem startup_failure_does_nothing h suggested :
  file_exists h (path_join (base_dir h) ".env") = false
  \/ unset (getenv h "MONGO_CONN_STR") = true
  \/ unset (getenv h "MONGO_DB_NAME") = true
  \/ unset (getenv h "SELL_MODEL_FILE") = true
  \/ file_exists h (model_file_of h) = false
  \/ connect_ok h = false ->
  (exists m,
     orchestrator_stage2_sell h suggested = (suggested, [Log ERROR m])
     /\ In m [ DotenvNotFound (path_join (base_dir h) ".env");
               MissingRequiredEnv;
               SellModelFileNotFoundAt (model_file_of h);
               ErrorConnecting ])
  /\ filter is_read_of_trades (snd (orchestrator_stage2_sell h suggested)) = []
  /\ updates (snd (orchestrator_stage2_sell h suggested)) = []
  /\ fst (orchestrator_stage2_sell h suggested) = suggested.
Proof.
  intros H.
  assert (E : exists m,
             orchestrator_stage2_sell h suggested = (suggested, [Log ERROR m])
             /\ In m [ DotenvNotFound (path_join (base_dir h) ".env");
                       MissingRequiredEnv;
                       SellModelFileNotFoundAt (model_file_of h);
                       ErrorConnecting ]).
  { unfold orchestrator_stage2_sell. cbv zeta. fold (model_file_of h).
    destruct (file_exists h (path_join (base_dir h) ".env")) eqn:E1;
      cbn [negb].
    2:{ eexists. split; [reflexivity|]. cbn [In]. tauto. }
    destruct (unset (getenv h "MONGO_CONN_STR")) eqn:E2; cbn [orb].
    { eexists. split; [reflexivity|]. cbn [In]. tauto. }
    destruct (unset (getenv h "MONGO_DB_NAME")) eqn:E3; cbn [orb].
    { eexists. split; [reflexivity|]. cbn [In]. tauto. }
    destruct (unset (getenv h "SELL_MODEL_FILE")) eqn:E4.
    { eexists. split; [reflexivity|]. cbn [In]. tauto. }
    destruct (file_exists h (model_file_of h)) eqn:E5; cbn [negb].
    2:{ eexists. split; [reflexivity|]. cbn [In]. tauto. }
    destruct (connect_ok h) eqn:E6; cbn [negb].
    2:{ eexists. split; [reflexivity|]. cbn [In]. tauto. }
    exfalso. intuition discriminate. }
  destruct E as (m & E & Hm). split; [exists m; split; assumption|].
  rewrite E. repeat split; reflexivity.
Qed.

Lemma startup_failure_does_nothing_witness :
  connect_ok (mkHost "/app" (fun _ => true) ex_getenv false [ex_T1]
                     [ex_S1; ex_S2] (fun _ => Some (ex_model 1)) ex_ObjectId
                     (fun _ => 0%Z) (fun _ => false)
                     ex_generated_id) = false
  /\ fst (orchestrator_stage2_sell
            (mkHost "/app" (fun _ => true) ex_getenv false [ex_T1]
                    [ex_S1; ex_S2] (fun _ => Some (ex_model 1)) ex_ObjectId
                    (fun _ => 0%Z) (fun _ => false)
                     ex_generated_id)
            [ex_old_signal]) = [ex_old_signal].
Proof.
  split; [reflexivity|].
  apply (startup_failure_does_nothing
           (mkHost "/app" (fun _ => true) ex_getenv false [ex_T1]
                   [ex_S1; ex_S2] (fun _ => Some (ex_model 1)) ex_ObjectId
                   (fun _ => 0%Z) (fun _ => false)
                     ex_generated_id)
           [ex_old_signal]).
  right. right. right. right. right. reflexivity.
Defined.

(** ** Skipped trades *)

Lemma find_latest_none hist sym :
  (forall s, In s hist -> get "symbol" (snapshot_doc s) <> VStr sym) ->
  find_latest hist sym = [].
Proof.
  intros H. unfold find_latest.
  replace (filter _ (map snapshot_doc hist)) with (@nil Doc); [reflexivity|].
  symmetry. induction hist as [|s hist IH]; [reflexivity|].
  cbn [map filter].
  destruct (value_eqb (get "symbol" (snapshot_doc s)) (VStr sym)) eqn:E.
  - apply value_eqb_str in E. exfalso. apply (H s); [now left | exact E].
  - apply IH. intros s' Hs'. apply H. now right.
Qed.

Lemma skipped_in_the_loop h c mf t pre post st :
  (forall st0, fst (process_trade h c mf t st0) = st0
               /\ updates (snd (process_trade h c mf t st0)) = []) ->
  fst (process_trades h c mf (pre ++ t :: post) st)
  = fst (process_trades h c mf (pre ++ post) st)
  /\ updates (snd (process_trades h c mf (pre ++ t :: post) st))
     = updates (snd (process_trades h c mf (pre ++ post) st))
  /\ snd (process_trades h c mf (pre ++ t :: post) st)
     = snd (process_trades h c mf pre st)
       ++ snd (process_trade h c mf t (fst (process_trades h c mf pre st)))
       ++ snd (process_trades h c mf post
                              (fst (process_trades h c mf pre st))).
Proof.
  intros Hskip. rewrite !process_trades_app, process_trades_cons.
  cbn [fst snd].
  destruct (Hskip (fst (process_trades h c mf pre st))) as [Hs Hu].
  rewrite Hs. split; [reflexivity|]. split; [|reflexivity].
  rewrite !updates_app, Hu. reflexivity.
Qed.

(** C5: a trade whose [buyid] is missing, or malformed, or resolves to no
    snapshot, or whose symbol has no snapshot in the historical
    collection, is skipped: it leaves the collection and the call counter
    as they were and issues no [update_one]; a run over a list that
    contains it ends in the same collection, with the same writes, as
    the run over the list without it, and the trades after it are
    processed from the state the trades before it left. *)
Theorem unpairable_trade_is_skipped h t :
  truthy (buyid t) = false
  \/ bson_ObjectId h (buyid t) = None
  \/ (exists o, bson_ObjectId h (buyid t) = Some o
                /\ find_by_id (historical h) o = [])
  \/ (forall s, In s (historical h) ->
                get "symbol" (snapshot_doc s) <> VStr (symbol t)) ->
  snd (pairing h t) = None
  /\ (forall c mf st,
        fst (process_trade h c mf t st) = st
        /\ updates (snd (process_trade h c mf t st)) = [])
  /\ (forall c mf pre post st,
        fst (process_trades h c mf (pre ++ t :: post) st)
        = fst (process_trades h c mf (pre ++ post) st)
        /\ updates (snd (process_trades h c mf (pre ++ t :: post) st))
           = updates (snd (process_trades h c mf (pre ++ post) st))
        /\ snd (process_trades h c mf (pre ++ t :: post) st)
           = snd (process_trades h c mf pre st)
             ++ snd (process_trade h c mf t
                                   (fst (process_trades h c mf pre st)))
             ++ snd (process_trades h c mf post
                                    (fst (process_trades h c mf pre st)))).
Proof.
  intros H.
  assert (P : snd (pairing h t) = None).
  { unfold pairing. cbv zeta.
    destruct (truthy (buyid t)) eqn:Et; cbn [negb]; [|reflexivity].
    destruct (bson_ObjectId h (buyid t)) as [o|] eqn:Eo; [|reflexivity].
    destruct H as [H|[H|[(o' & H & Hf)|H]]]; try discriminate H.
    - injection H as <-. rewrite Hf, empty_no_docs. reflexivity.
    - rewrite (find_latest_none _ _ H), empty_no_docs.
      destruct (empty (pd_DataFrame (find_by_id _ _))); reflexivity. }
  assert (S : forall mf, scored h mf t = None).
  { intros mf. unfold scored. destruct (pairing h t) as [evs [r|]];
      [discriminate P | reflexivity]. }
  assert (K : forall c mf st,
             fst (process_trade h c mf t st) = st
             /\ updates (snd (process_trade h c mf t st)) = []).
  { intros c mf st. apply process_trade_unscored, S. }
  split; [exact P|]. split; [exact K|].
  intros c mf pre post st. apply skipped_in_the_loop. apply K.
Qed.

Lemma unpairable_trade_is_skipped_witness :
  (exists o, bson_ObjectId (ex_host (82 # 100) [ex_T1; ex_T2]) (buyid ex_T2)
             = Some o
             /\ find_by_id (historical (ex_host (82 # 100) [ex_T1; ex_T2])) o
                = [])
  /\ snd (pairing (ex_host (82 # 100) [ex_T1; ex_T2]) ex_T2) = None.
Proof.
  assert (H : exists o,
             bson_ObjectId (ex_host (82 # 100) [ex_T1; ex_T2]) (buyid ex_T2)
             = Some o
             /\ find_by_id (historical (ex_host (82 # 100) [ex_T1; ex_T2])) o
                = []).
  { exists "5f0000000000000000000009". split; reflexivity. }
  split; [exact H|].
  exact (proj1 (unpairable_trade_is_skipped
                  (ex_host (82 # 100) [ex_T1; ex_T2]) ex_T2
                  (or_intror (or_intror (or_introl H))))).
Defined.

(** ** Threshold and persistence *)

Lemma ge_threshold_iff q :
  ge_threshold (VNum q) = true <-> (float32 MIN_SELL_SCORE <= q)%Q.
Proof. apply Qle_bool_iff. Qed.

(** The constant as the comparison of line 146 sees it. *)
Lemma float32_MIN_SELL_SCORE :
  float32 MIN_SELL_SCORE = 11744051 # 16777216.
Proof. vm_compute. reflexivity. Qed.

Lemma float32_MIN_SELL_SCORE_below :
  (float32 MIN_SELL_SCORE < MIN_SELL_SCORE)%Q.
Proof. rewrite float32_MIN_SELL_SCORE. reflexivity. Qed.

Lemma at_least_MIN_SELL_SCORE q :
  (MIN_SELL_SCORE <= q)%Q -> ge_threshold (VNum q) = true.
Proof.
  intros H. apply ge_threshold_iff.
  eapply Qle_trans; [|exact H].
  apply Qlt_le_weak, float32_MIN_SELL_SCORE_below.
Qed.


Lemma in_signal_writes h sym b sid vs n e :
  In e (signal_writes h sym b sid vs n) ->
  exists v k, In v vs
              /\ e = UpdateOne (signal_filter sym)
                               (signal_update sym b sid v (utcnow h k)).
Proof.
  revert n. induction vs as [|v vs IH]; intros n H; [contradiction|].
  cbn [signal_writes In] in H. destruct H as [<-|H].
  - exists v, n. split; [now left | reflexivity].
  - destruct (IH _ H) as (v' & k & Hin & ->).
    exists v', k. split; [now right | reflexivity].
Qed.

Lemma signal_writes_in h sym b sid vs n v :
  In v vs ->
  exists k, In (UpdateOne (signal_filter sym)
                          (signal_update sym b sid v (utcnow h k)))
               (signal_writes h sym b sid vs n).
Proof.
  revert n. induction vs as [|v' vs IH]; intros n H; [contradiction|].
  cbn [signal_writes]. destruct H as [->|H].
  - exists n. now left.
  - destruct (IH (S n) H) as [k Hk]. exists k. now right.
Qed.

Lemma process_trade_ok h c mf t st b sid dfs :
  scored h mf t = Some (b, sid, dfs) ->
  (forall k, update_raises h k = false) ->
  updates (snd (process_trade h c mf t st))
  = signal_writes h (symbol t) b sid
                  (filter ge_threshold (column "confidence_score" dfs))
                  (calls st)
  /\ coll (fst (process_trade h c mf t st))
     = apply_updates h (calls st)
                     (updates (snd (process_trade h c mf t st))) (coll st).
Proof.
  intros Es Hok.
  destruct (scored_shape h mf t b sid dfs Es) as (H1 & H3 & H2 & H4 & H5).
  destruct (process_trade_scored h c mf t st b sid dfs Es) as (evs0 & U0 & ->).
  destruct (persist_ok h c (symbol t) b sid dfs st _ H1 H2 H3 H4 H5 Hok)
    as [P1 P2].
  cbn [fst snd]. rewrite updates_app, U0. cbn [app].
  split; assumption.
Qed.

(** C2 (as stated, refuted): a score strictly below [MIN_SELL_SCORE] is
    written: the binary32 number nearest to 0.7 is below the binary64
    constant and passes the comparison of line 146. *)
Lemma score_below_threshold_is_written :
  (11744051 # 16777216 < MIN_SELL_SCORE)%Q
  /\ updates (snd (process_trade (ex_host (11744051 # 16777216) [ex_T1])
                                 (Some "suggested") "/app/sell_model.json"
                                 ex_T1 (mkSt [] 0)))
     = [ UpdateOne (signal_filter "BTCUSDT")
                   (signal_update "BTCUSDT" "5f0000000000000000000001"
                                  (VOid "5f0000000000000000000002")
                                  (VNum (11744051 # 16777216)) 1000) ].
Proof. split; [reflexivity | vm_compute; reflexivity]. Qed.

(** C2 (amended): for a trade that is paired and scored, on a host whose
    storage accepts the writes, the [update_one] calls of the trade are
    exactly one per score that is greater than or equal to
    [MIN_SELL_SCORE] narrowed to binary32, in row order, each carrying
    that score as [sell_score], and the collection afterwards is the
    effect of those calls; so a row with a numeric score is written if and
    only if its score is at least the narrowed threshold, the number
    11744051/16777216: a score equal to it is written, a score below it by
    any positive amount is not.  The narrowed threshold is below
    [MIN_SELL_SCORE]. *)
Theorem threshold_is_inclusive h c mf t st b sid dfs :
  scored h mf t = Some (b, sid, dfs) ->
  (forall k, update_raises h k = false) ->
  let scores := column "confidence_score" dfs in
  let evs := snd (process_trade h c mf t st) in
  updates evs
  = signal_writes h (symbol t) b sid (filter ge_threshold scores) (calls st)
  /\ coll (fst (process_trade h c mf t st))
     = apply_updates h (calls st) (updates evs) (coll st)
  /\ (forall q, In (VNum q) scores ->
        ((exists now,
             In (UpdateOne (signal_filter (symbol t))
                           (signal_update (symbol t) b sid (VNum q) now)) evs)
         <-> (float32 MIN_SELL_SCORE <= q)%Q))
  /\ float32 MIN_SELL_SCORE = 11744051 # 16777216
  /\ (float32 MIN_SELL_SCORE < MIN_SELL_SCORE)%Q
  /\ ge_threshold (VNum (float32 MIN_SELL_SCORE)) = true
  /\ (forall eps, (0 < eps)%Q ->
                  ge_threshold (VNum (float32 MIN_SELL_SCORE - eps)) = false).
Proof.
  intros Es Hok scores evs.
  destruct (process_trade_ok h c mf t st b sid dfs Es Hok) as [W S].
  fold evs in W, S. fold scores in W.
  split; [exact W|]. split; [exact S|]. split; [|split; [|split; [|split]]].
  - intros q Hq. rewrite <- ge_threshold_iff. split.
    + intros [now Hin].
      assert (Hu : In (UpdateOne (signal_filter (symbol t))
                         (signal_update (symbol t) b sid (VNum q) now))
                      (updates evs)).
      { unfold updates. apply filter_In. split; [exact Hin | reflexivity]. }
      rewrite W in Hu. apply in_signal_writes in Hu.
      destruct Hu as (v & k & Hv & E).
      unfold signal_update, signal_record in E. cbn [app] in E.
      injection E as E _. subst v.
      apply filter_In in Hv. tauto.
    + intros Hge.
      assert (Hv : In (VNum q) (filter ge_threshold scores))
        by (apply filter_In; split; assumption).
      destruct (signal_writes_in h (symbol t) b sid _ (calls st) _ Hv)
        as [k Hk].
      exists (utcnow h k). rewrite <- W in Hk.
      unfold updates in Hk. apply filter_In in Hk. tauto.
  - exact float32_MIN_SELL_SCORE.
  - exact float32_MIN_SELL_SCORE_below.
  - apply ge_threshold_iff. apply Qle_refl.
  - intros eps Heps.
    destruct (ge_threshold (VNum (float32 MIN_SELL_SCORE - eps))) eqn:E;
      [|reflexivity].
    apply ge_threshold_iff in E. exfalso.
    apply (Qlt_irrefl (float32 MIN_SELL_SCORE)).
    eapply Qle_lt_trans; [exact E|].
    rewrite <- (Qplus_0_r (float32 MIN_SELL_SCORE)) at 2.
    unfold Qminus. apply Qplus_lt_r.
    rewrite <- (Qplus_lt_l _ _ eps). ring_simplify. exact Heps.
Qed.

Lemma threshold_is_inclusive_witness :
  (scored (ex_host (3 # 4) [ex_T1]) "/app/sell_model.json" ex_T1
   = Some ("5f0000000000000000000001", VOid "5f0000000000000000000002",
           mkDF 1 [ ("confidence_score", [VNum (3 # 4)]);
                    ("open", [VNum 1]); ("sell_close", [VNum 4]) ])
   /\ forall k, update_raises (ex_host (3 # 4) [ex_T1]) k = false)
  /\ updates (snd (process_trade (ex_host (3 # 4) [ex_T1]) (Some "suggested")
                                 "/app/sell_model.json" ex_T1 (mkSt [] 0)))
     = [ UpdateOne (signal_filter "BTCUSDT")
                   (signal_update "BTCUSDT" "5f0000000000000000000001"
                                  (VOid "5f0000000000000000000002")
                                  (VNum (3 # 4)) 1000) ].
Proof.
  assert (H1 : scored (ex_host (3 # 4) [ex_T1]) "/app/sell_model.json" ex_T1
               = Some ("5f0000000000000000000001",
                       VOid "5f0000000000000000000002",
                       mkDF 1 [ ("confidence_score", [VNum (3 # 4)]);
                                ("open", [VNum 1]);
                                ("sell_close", [VNum 4]) ]))
    by (vm_compute; reflexivity).
  assert (H2 : forall k, update_raises (ex_host (3 # 4) [ex_T1]) k = false)
    by reflexivity.
  split; [split; assumption|].
  rewrite (proj1 (threshold_is_inclusive _ (Some "suggested") _ _ (mkSt [] 0)
                                         _ _ _ H1 H2)).
  vm_compute. reflexivity.
Defined.

Lemma process_trade_single h c mf t st b sid dfs q :
  scored h mf t = Some (b, sid, dfs) ->
  column "confidence_score" dfs = [VNum q] ->
  (MIN_SELL_SCORE <= q)%Q ->
  update_raises h (calls st) = false ->
  fst (process_trade h c mf t st)
  = mkSt (update_one (signal_filter (symbol t))
                     (signal_update (symbol t) b sid (VNum q)
                                    (utcnow h (calls st)))
                     (generated_id h (calls st)) (coll st))
         (S (calls st)).
Proof.
  intros Es Hc Hq Hok.
  destruct (scored_shape h mf t b sid dfs Es) as (H1 & H3 & H2 & H4 & H5).
  destruct (process_trade_scored h c mf t st b sid dfs Es) as (evs0 & _ & ->).
  cbn [fst].
  rewrite (persist_scored h c (symbol t) b sid dfs st _ H1 H2 H3 H4 H5).
  rewrite Hc. apply at_least_MIN_SELL_SCORE in Hq.
  cbn [forallb isnull andb filter]. rewrite Hq.
  rewrite save_loop_signal_cons. cbv zeta. rewrite Hok. reflexivity.
Qed.

(** C1: over every sequence of runs that starts from a collection with at
    most one document per (symbol, trade_type) key, the collection has at
    most one document per key after each run; and when a trade's single
    row qualifies while the collection holds a document with the key
    (symbol, "SELL"), the write leaves the number of documents and every
    other document as they were, and sets [sell_score], [buyid], [sellid]
    and [created_at] of that document, where it stands, keeping its other
    fields. *)
Theorem stored_signals_stay_unique :
  (forall hs suggested k,
      unique_keys suggested = true ->
      unique_keys (runs (firstn k hs) suggested) = true)
  /\ (forall h c mf t st b sid dfs q i d,
        scored h mf t = Some (b, sid, dfs) ->
        column "confidence_score" dfs = [VNum q] ->
        (MIN_SELL_SCORE <= q)%Q ->
        update_raises h (calls st) = false ->
        unique_keys (coll st) = true ->
        nth_error (coll st) i = Some d ->
        get "symbol" d = VStr (symbol t) ->
        get "trade_type" d = VStr "SELL" ->
        let store' := coll (fst (process_trade h c mf t st)) in
        List.length store' = List.length (coll st)
        /\ (forall j, j <> i -> nth_error store' j = nth_error (coll st) j)
        /\ exists d',
             nth_error store' i = Some d'
             /\ get "sell_score" d' = VNum q
             /\ get "buyid" d' = VOid b
             /\ get "sellid" d' = sid
             /\ get "created_at" d' = VDate (utcnow h (calls st))
             /\ get "symbol" d' = VStr (symbol t)
             /\ get "trade_type" d' = VStr "SELL"
             /\ (forall k,
                   inb k [ "symbol"; "trade_type"; "sell_score"; "buyid";
                           "sellid"; "created_at" ] = false ->
                   get k d' = get k d)).
Proof.
  split.
  - intros hs suggested k. generalize (firstn k hs). clear hs k.
    intros hs. revert suggested.
    induction hs as [|h hs IH]; intros suggested Hu; [exact Hu|].
    unfold runs in *. cbn [fold_left]. apply IH.
    eapply signal_upserts_unique; [|exact Hu].
    apply (proj1 (orchestrator_store h suggested)).
  - intros h c mf t st b sid dfs q i d Es Hc Hq Hok Hu Hi Hs Ht store'.
    unfold store'.
    rewrite (process_trade_single h c mf t st b sid dfs q Es Hc Hq Hok).
    cbn [coll].
    assert (Hk : has_key (symbol t) d = true)
      by (apply has_key_iff; split; assumption).
    destruct (update_one_in_place (symbol t)
                (signal_update (symbol t) b sid (VNum q) (utcnow h (calls st)))
                (generated_id h (calls st))
                (coll st) i d Hu Hi Hk) as (L & N & O).
    split; [exact L|]. split; [exact O|].
    eexists. split; [exact N|].
    rewrite !get_apply_signal_update.
    repeat (split; [reflexivity|]).
    intros k Ek. rewrite get_apply_signal_update, Ek. reflexivity.
Qed.

Lemma stored_signals_stay_unique_witness :
  (unique_keys [ex_old_signal] = true
   /\ scored (ex_host (9 # 10) [ex_T1]) "/app/sell_model.json" ex_T1
      = Some ("5f0000000000000000000001", VOid "5f0000000000000000000002",
              mkDF 1 [ ("confidence_score", [VNum (9 # 10)]);
                       ("open", [VNum 1]); ("sell_close", [VNum 4]) ])
   /\ (MIN_SELL_SCORE <= 9 # 10)%Q
   /\ nth_error [ex_old_signal] 0 = Some ex_old_signal)
  /\ unique_keys (runs (firstn 2 [ex_host (9 # 10) [ex_T1];
                                  ex_host (8 # 10) [ex_T1; ex_T2]])
                       [ex_old_signal]) = true
  /\ List.length
       (coll (fst (process_trade (ex_host (9 # 10) [ex_T1]) (Some "suggested")
                                 "/app/sell_model.json" ex_T1
                                 (mkSt [ex_old_signal] 0)))) = 1.
Proof.
  assert (H0 : unique_keys [ex_old_signal] = true) by reflexivity.
  assert (H1 : scored (ex_host (9 # 10) [ex_T1]) "/app/sell_model.json" ex_T1
               = Some ("5f0000000000000000000001",
                       VOid "5f0000000000000000000002",
                       mkDF 1 [ ("confidence_score", [VNum (9 # 10)]);
                                ("open", [VNum 1]);
                                ("sell_close", [VNum 4]) ]))
    by (vm_compute; reflexivity).
  assert (H2 : (MIN_SELL_SCORE <= 9 # 10)%Q)
    by (apply Qle_bool_iff; reflexivity).
  assert (H3 : nth_error [ex_old_signal] 0 = Some ex_old_signal)
    by reflexivity.
  split; [repeat split; assumption|]. split.
  - apply (proj1 stored_signals_stay_unique). exact H0.
  - exact (proj1 (proj2 stored_signals_stay_unique
                    (ex_host (9 # 10) [ex_T1]) (Some "suggested")
                    "/app/sell_model.json" ex_T1 (mkSt [ex_old_signal] 0)
                    _ _ _ (9 # 10) 0 ex_old_signal
                    H1 eq_refl H2 eq_refl H0 H3 eq_refl eq_refl)).
Defined.

Lemma below_threshold_not_qualifies h mf t :
  (exists b sid dfs,
      scored h mf t = Some (b, sid, dfs)
      /\ forall v, In v (column "confidence_score" dfs) ->
                   exists q, v = VNum q
                             /\ (q < float32 MIN_SELL_SCORE)%Q) ->
  qualifies h mf t = false.
Proof.
  intros (b & sid & dfs & Es & Hb). unfold qualifies. rewrite Es.
  destruct (existsb ge_threshold (column "confidence_score" dfs)) eqn:E;
    [|reflexivity].
  apply existsb_exists in E. destruct E as (v & Hv & Hge).
  destruct (Hb v Hv) as (q & -> & Hlt).
  apply ge_threshold_iff in Hge. exfalso.
  exact (Qlt_not_le _ _ Hlt Hge).
Qed.

(** C7 (as stated, refuted): a run that scores the symbol strictly below
    [MIN_SELL_SCORE], with the binary32 number nearest to 0.7, overwrites
    the stored document of the symbol. *)
Lemma score_below_threshold_overwrites :
  (11744051 # 16777216 < MIN_SELL_SCORE)%Q
  /\ get "sell_score" ex_old_signal = VNum (82 # 100)
  /\ get "created_at" ex_old_signal = VDate 7
  /\ exists d,
       fst (orchestrator_stage2_sell (ex_host (11744051 # 16777216) [ex_T1])
                                     [ex_old_signal]) = [d]
       /\ get "sell_score" d = VNum (11744051 # 16777216)
       /\ get "created_at" d = VDate 1000.
Proof.
  split; [reflexivity|]. split; [reflexivity|]. split; [reflexivity|].
  eexists. split; [vm_compute; reflexivity|]. split; reflexivity.
Qed.

(** C7 (amended): if every active trade of a symbol is scored strictly
    below the threshold as line 146 compares it, [MIN_SELL_SCORE] narrowed
    to binary32, the run issues no [update_one] for that symbol, and a
    document stored for that symbol is, after the run, the same document
    at the same place: no field of it is overwritten and it is not
    retracted. *)
Theorem below_threshold_leaves_signal h suggested s i d :
  (forall t, In t (active_trades h) -> symbol t = s ->
     exists b sid dfs,
       scored h (model_file_of h) t = Some (b, sid, dfs)
       /\ forall v, In v (column "confidence_score" dfs) ->
                    exists q, v = VNum q
                              /\ (q < float32 MIN_SELL_SCORE)%Q) ->
  nth_error suggested i = Some d ->
  get "symbol" d = VStr s ->
  get "trade_type" d = VStr "SELL" ->
  nth_error (fst (orchestrator_stage2_sell h suggested)) i = Some d
  /\ (forall u, ~ In (UpdateOne (signal_filter s) u)
                     (snd (orchestrator_stage2_sell h suggested))).
Proof.
  intros Hbelow Hi Hs _.
  destruct (orchestrator_store h suggested) as [S F].
  assert (N : forall t, In t (active_trades h) -> symbol t = s ->
                        qualifies h (model_file_of h) t = true -> False).
  { intros t Hin Hsym Hq.
    rewrite (below_threshold_not_qualifies _ _ _ (Hbelow t Hin Hsym)) in Hq.
    discriminate Hq. }
  split.
  - eapply signal_upserts_frame; [exact S | | exact Hi | exact Hs].
    intros (t & Hin & Hsym & Hq). exact (N t Hin Hsym Hq).
  - intros u Hin.
    assert (Hu : In (UpdateOne (signal_filter s) u)
                    (updates (snd (orchestrator_stage2_sell h suggested)))).
    { unfold updates. apply filter_In. split; [exact Hin | reflexivity]. }
    rewrite Forall_forall in F. destruct (F _ Hu) as (t & u' & Ht & Hq & E).
    unfold signal_filter in E. injection E as E _.
    exact (N t Ht (eq_sym E) Hq).
Qed.

Lemma below_threshold_leaves_signal_witness :
  (scored (ex_host (5 # 10) [ex_T1])
          (model_file_of (ex_host (5 # 10) [ex_T1])) ex_T1
   = Some ("5f0000000000000000000001", VOid "5f0000000000000000000002",
           mkDF 1 [ ("confidence_score", [VNum (5 # 10)]);
                    ("open", [VNum 1]); ("sell_close", [VNum 4]) ])
   /\ (5 # 10 < float32 MIN_SELL_SCORE)%Q
   /\ nth_error [ex_old_signal] 0 = Some ex_old_signal)
  /\ nth_error (fst (orchestrator_stage2_sell (ex_host (5 # 10) [ex_T1])
                                              [ex_old_signal])) 0
     = Some ex_old_signal.
Proof.
  assert (H1 : scored (ex_host (5 # 10) [ex_T1])
                      (model_file_of (ex_host (5 # 10) [ex_T1])) ex_T1
               = Some ("5f0000000000000000000001",
                       VOid "5f0000000000000000000002",
                       mkDF 1 [ ("confidence_score", [VNum (5 # 10)]);
                                ("open", [VNum 1]);
                                ("sell_close", [VNum 4]) ]))
    by (vm_compute; reflexivity).
  assert (H2 : (5 # 10 < float32 MIN_SELL_SCORE)%Q)
    by (rewrite float32_MIN_SELL_SCORE; reflexivity).
  assert (H3 : nth_error [ex_old_signal] 0 = Some ex_old_signal)
    by reflexivity.
  split; [repeat split; assumption|].
  refine (proj1 (below_threshold_leaves_signal
                   (ex_host (5 # 10) [ex_T1]) [ex_old_signal] "BTCUSDT" 0
                   ex_old_signal _ H3 eq_refl eq_refl)).
  intros t [<-|[]] _.
  eexists. eexists. eexists. split; [exact H1|].
  intros v [<-|[]]. exists (5 # 10). split; [reflexivity | exact H2].
Defined.

(** ** Logging of skipped trades *)

(** C4 (the code at the failing input): in a run over a trade whose
    [buyid] resolves to no snapshot, followed by a trade that qualifies,
    the first is skipped with a warning that carries the [buyid] and not
    the symbol, as no record of that kind does; the run goes on and
    persists the second. *)
Theorem unresolved_buyid_logged_without_symbol :
  snd (process_trade (ex_host (82 # 100) [ex_T2; ex_T1]) (Some "suggested")
                     "/app/sell_model.json" ex_T2 (mkSt [] 0))
  = [ Log INFO (ProcessingTrade "ETHUSDT" (VStr "5f0000000000000000000009"));
      Find HistoricalCol [("_id", VOid "5f0000000000000000000009")];
      Log WARNING (NoBoughtRow (VStr "5f0000000000000000000009")) ]
  /\ (forall v sym, logged_symbol (NoBoughtRow v) <> Some sym)
  /\ logged_symbol (NoLatestRow "ETHUSDT") = Some "ETHUSDT"
  /\ fst (orchestrator_stage2_sell (ex_host (82 # 100) [ex_T2; ex_T1]) [])
     = [ ("_id", VOid "650000000000000000000000")
         :: signal_update "BTCUSDT" "5f0000000000000000000001"
                          (VOid "5f0000000000000000000002") (VNum (82 # 100))
                          1000 ].
Proof.
  split; [vm_compute; reflexivity|].
  split; [intros v sym H; discriminate H|].
  split; [reflexivity | vm_compute; reflexivity].
Qed.

(** * Further properties of the scoring function *)

Lemma buy_name_injective a b :
  ("buy_" ++ a)%string = ("buy_" ++ b)%string -> a = b.
Proof. cbn [String.append]. intros H. injection H as H. exact H. Qed.

Lemma lookup_buy_copy_other df x k :
  k <> ("buy_" ++ x)%string ->
  lookup k (cols (buy_copy df x)) = lookup k (cols df).
Proof.
  intros H. unfold buy_copy. destruct (inb x (columns df)); [|reflexivity].
  apply lookup_setitem_ne. exact H.
Qed.

Lemma fold_buy_copy_keeps l df col vs :
  (forall b, In b l -> col <> ("buy_" ++ b)%string) ->
  lookup col (cols df) = Some vs ->
  lookup ("buy_" ++ col)%string (cols df) = Some vs ->
  lookup ("buy_" ++ col)%string (cols (fold_left buy_copy l df)) = Some vs.
Proof.
  revert df. induction l as [|x l IH]; intros df Hn Hc Hb; [exact Hb|].
  cbn [fold_left]. apply IH.
  - intros b Hin. apply Hn. now right.
  - rewrite lookup_buy_copy_other by (apply Hn; now left). exact Hc.
  - destruct (String.eqb_spec x col) as [->|Hne].
    + unfold buy_copy. rewrite inb_columns, Hc.
      rewrite lookup_setitem_eq. unfold column. now rewrite Hc.
    + rewrite lookup_buy_copy_other; [exact Hb|].
      intros E. apply buy_name_injective in E. congruence.
Qed.

Lemma fold_buy_copy_copies l df col vs :
  (forall a b, In a l -> In b l -> a <> ("buy_" ++ b)%string) ->
  In col l ->
  lookup col (cols df) = Some vs ->
  lookup ("buy_" ++ col)%string (cols (fold_left buy_copy l df)) = Some vs.
Proof.
  revert df. induction l as [|x l IH]; intros df Hn Hin Hc; [contradiction|].
  cbn [fold_left].
  assert (Hc' : lookup col (cols (buy_copy df x)) = Some vs).
  { rewrite lookup_buy_copy_other; [exact Hc|].
    apply Hn; [exact Hin | now left]. }
  destruct (String.eqb_spec x col) as [->|Hne].
  - apply fold_buy_copy_keeps.
    + intros b Hb. apply Hn; [now left | now right].
    + exact Hc'.
    + unfold buy_copy. rewrite inb_columns, Hc.
      rewrite lookup_setitem_eq. unfold column. now rewrite Hc.
  - destruct Hin as [E|Hin]; [congruence|].
    apply IH; [|exact Hin | exact Hc'].
    intros a b Ha Hb. apply Hn; now right.
Qed.

Lemma bought_names_not_prefixed a b :
  In a sell_model.BOUGHT_COLUMNS -> In b sell_model.BOUGHT_COLUMNS ->
  a <> ("buy_" ++ b)%string.
Proof.
  intros Ha Hb E. subst a.
  assert (H : forallb (fun b => negb (inb ("buy_" ++ b)%string
                                        sell_model.BOUGHT_COLUMNS))
                      sell_model.BOUGHT_COLUMNS = true)
    by (vm_compute; reflexivity).
  rewrite forallb_forall in H. specialize (H b Hb).
  apply inb_In in Ha. rewrite Ha in H. discriminate H.
Qed.

Lemma expected_buy col :
  In col sell_model.BOUGHT_COLUMNS ->
  In ("buy_" ++ col)%string EXPECTED_FEATURES.
Proof.
  intros H. Transparent EXPECTED_FEATURES. unfold EXPECTED_FEATURES.
  Opaque EXPECTED_FEATURES.
  apply in_app_iff. left. unfold BUY_COLUMNS.
  apply (in_map (fun c => ("buy_" ++ c)%string)). exact H.
Qed.

Lemma expected_sell col :
  In col sell_model.BOUGHT_COLUMNS ->
  In ("sell_" ++ col)%string EXPECTED_FEATURES.
Proof.
  intros H. Transparent EXPECTED_FEATURES. unfold EXPECTED_FEATURES.
  Opaque EXPECTED_FEATURES.
  apply in_app_iff. right. unfold sell_model.SELL_COLUMNS.
  apply (in_map (fun c => ("sell_" ++ c)%string)). exact H.
Qed.

Lemma lookup_feature_matrix df c vs :
  In c EXPECTED_FEATURES ->
  lookup c (cols (with_buy_columns df)) = Some vs ->
  lookup c (cols (feature_matrix df)) = Some vs.
Proof.
  intros He Hl. unfold feature_matrix. rewrite lookup_getitem.
  assert (Hi : inb c (available_features df) = true).
  { apply inb_In. unfold available_features. apply filter_In.
    split; [exact He|]. rewrite inb_columns, Hl. reflexivity. }
  rewrite Hi. exact Hl.
Qed.

Lemma predict_in_run h df f model :
  NoDup (columns df) ->
  empty df = false -> f <> "" -> file_exists h f = true ->
  load_model h f = Some model ->
  filter is_predict (snd (run h (Some df) (Some f)))
  = [Predict (feature_matrix df)].
Proof.
  intros Hnd He Hf Hx Hl. rewrite (run_loaded h df f model He Hf Hx Hl).
  rewrite (add_buy_columns_distinct df Hnd).
  assert (B : filter is_predict (events_before_predict f df)
              = [Predict (feature_matrix df)]).
  { unfold events_before_predict, feature_matrix.
    destruct (missing_features df); reflexivity. }
  destruct (model _) as [scores|].
  - destruct (List.length scores =? nrows df); cbn [snd];
      rewrite filter_app, B; reflexivity.
  - cbn [snd]. rewrite filter_app, B. reflexivity.
Qed.

(** X1: when the model is loaded and the frame has distinct labels, the
    classifier is called on a matrix that holds, for an indicator of the
    model's list, the input's column of that name under its [buy_] name
    and the input's [sell_] column under its own name, each with the
    input's values, and no column outside the expected features. *)
Theorem classifier_sees_input_values h df f model col :
  NoDup (columns df) ->
  empty df = false -> f <> "" -> file_exists h f = true ->
  load_model h f = Some model ->
  In col sell_model.BOUGHT_COLUMNS ->
  In (Predict (feature_matrix df)) (snd (run h (Some df) (Some f)))
  /\ (forall vs, lookup col (cols df) = Some vs ->
                 lookup ("buy_" ++ col)%string (cols (feature_matrix df))
                 = Some vs)
  /\ (forall vs, lookup ("sell_" ++ col)%string (cols df) = Some vs ->
                 lookup ("sell_" ++ col)%string (cols (feature_matrix df))
                 = Some vs)
  /\ (forall c, In c (columns (feature_matrix df)) ->
                In c EXPECTED_FEATURES).
Proof.
  intros Hnd He Hf Hx Hl Hc. split; [|split; [|split]].
  - assert (P := predict_in_run h df f model Hnd He Hf Hx Hl).
    assert (I : In (Predict (feature_matrix df))
                   (filter is_predict (snd (run h (Some df) (Some f)))))
      by (rewrite P; now left).
    apply filter_In in I. tauto.
  - intros vs Hv. apply lookup_feature_matrix; [now apply expected_buy|].
    rewrite with_buy_columns_fold.
    apply fold_buy_copy_copies;
      [apply bought_names_not_prefixed | exact Hc | exact Hv].
  - intros vs Hv. apply lookup_feature_matrix; [now apply expected_sell|].
    rewrite with_buy_columns_fold, lookup_fold_buy_copy; [exact Hv|].
    intros x _ E. discriminate E.
  - intros c Hin. unfold feature_matrix in Hin.
    rewrite columns_getitem in Hin. apply filter_In in Hin.
    destruct Hin as [Hin _]. unfold available_features in Hin.
    apply filter_In in Hin. tauto.
Qed.

Lemma classifier_sees_input_values_witness :
  (NoDup (columns ex_paired_frame)
   /\ empty ex_paired_frame = false /\ "/app/sell_model.json" <> ""
   /\ In "open" sell_model.BOUGHT_COLUMNS)
  /\ In (Predict (feature_matrix ex_paired_frame))
        (snd (run (ex_host (82 # 100) []) (Some ex_paired_frame)
                  (Some "/app/sell_model.json"))).
Proof.
  assert (H0 : NoDup (columns ex_paired_frame)).
  { repeat constructor; cbn; intuition discriminate. }
  assert (H1 : empty ex_paired_frame = false) by reflexivity.
  assert (H2 : "/app/sell_model.json" <> "") by discriminate.
  assert (H3 : In "open" sell_model.BOUGHT_COLUMNS) by (now left).
  split; [repeat split; assumption|].
  exact (proj1 (classifier_sees_input_values
                  (ex_host (82 # 100) []) ex_paired_frame
                  "/app/sell_model.json" (ex_model (82 # 100)) "open"
                  H0 H1 H2 eq_refl eq_refl H3)).
Defined.

(** X2: on a frame with distinct labels, [run] reports a success exactly
    when the frame is not empty, the model file is named, exists and
    loads, and the classifier returns one score per row; the classifier
    is called once when the model loads and not at all otherwise; no
    exception leaves [run]. *)
Theorem run_succeeds_iff h df f :
  NoDup (columns df) ->
  ((exists dfs, fst (run h (Some df) (Some f)) = RSuccess dfs)
   <-> (empty df = false /\ f <> "" /\ file_exists h f = true
        /\ exists model scores,
             load_model h f = Some model
             /\ model (feature_matrix df) = Some scores
             /\ List.length scores = nrows df))
  /\ filter is_predict (snd (run h (Some df) (Some f)))
     = (if negb (empty df) && negb (String.eqb f "") && file_exists h f
        then match load_model h f with
             | Some _ => [Predict (feature_matrix df)]
             | None => []
             end
        else [])
  /\ raised (snd (run h (Some df) (Some f))) = false.
Proof.
  intros Hnd.
  assert (R := proj1 (run_returns h df (Some f) Hnd)).
  match goal with
  | |- ?A /\ ?B /\ _ =>
      cut (A /\ B);
      [intros [X Y]; split; [exact X | split; [exact Y | exact R]]|]
  end.
  clear R.
  destruct (empty df) eqn:He.
  { split; [|unfold run; rewrite He; reflexivity].
    split; [|intros [E _]; discriminate E].
    intros [dfs H]. unfold run in H. rewrite He in H. discriminate H. }
  destruct (String.eqb_spec f "") as [->|Hf].
  { split; [|unfold run; rewrite He; reflexivity].
    split; [|intros (_ & E & _); contradiction].
    intros [dfs H]. unfold run in H. rewrite He in H. discriminate H. }
  destruct (file_exists h f) eqn:Hx.
  2:{ split; [|unfold run; rewrite He, Hx, orb_true_r; reflexivity].
      split; [|intros (_ & _ & E & _); discriminate E].
      intros [dfs H]. unfold run in H.
      rewrite He, Hx, orb_true_r in H. discriminate H. }
  destruct (load_model h f) as [model|] eqn:Hl.
  2:{ assert (E : run h (Some df) (Some f)
                  = (RError "Failed to load model",
                     [Log ERROR ErrorLoadingSellModel])).
      { unfold run. rewrite He, Hx, Hl.
        destruct (String.eqb_spec f ""); [contradiction | reflexivity]. }
      rewrite E. split; [|reflexivity].
      split; [intros [dfs H]; discriminate H|].
      intros (_ & _ & _ & m & s & H & _). discriminate H. }
  cbn [negb andb]. split; [|apply (predict_in_run h df f model); assumption].
  rewrite (run_loaded h df f model He Hf Hx Hl).
  rewrite (add_buy_columns_distinct df Hnd). fold (feature_matrix df).
  destruct (model (feature_matrix df)) as [scores|] eqn:Em.
  - destruct (List.length scores =? nrows df) eqn:En; cbn [fst].
    + split; [|intros _; eexists; reflexivity].
      intros _. repeat (split; [assumption || reflexivity|]).
      exists model, scores. apply Nat.eqb_eq in En. now repeat split.
    + split; [intros [dfs H]; discriminate H|].
      intros (_ & _ & _ & m & s & H1 & H2 & H3).
      injection H1 as <-. rewrite Em in H2. injection H2 as <-.
      apply Nat.eqb_neq in En. contradiction.
  - cbn [fst]. split; [intros [dfs H]; discriminate H|].
    intros (_ & _ & _ & m & s & H1 & H2 & _).
    injection H1 as <-. rewrite Em in H2. discriminate H2.
Qed.

Lemma run_succeeds_iff_witness :
  NoDup (columns ex_frame)
  /\ raised (snd (run (ex_host (3 # 4) []) (Some ex_frame)
                      (Some "/app/sell_model.json"))) = false.
Proof.
  assert (H0 : NoDup (columns ex_frame)).
  { repeat constructor; cbn; intuition discriminate. }
  split; [exact H0|].
  exact (proj2 (proj2 (run_succeeds_iff (ex_host (3 # 4) []) ex_frame
                                        "/app/sell_model.json" H0))).
Defined.

(** * Further properties of the pairing step *)

Lemma inb_app c l1 l2 : inb c (l1 ++ l2) = inb c l1 || inb c l2.
Proof. unfold inb. apply existsb_app. Qed.

Lemma inb_cons c k l : inb c (k :: l) = String.eqb c k || inb c l.
Proof. reflexivity. Qed.

Lemma inb_fold_add_key ks acc c :
  inb c (fold_left add_key ks acc) = inb c acc || inb c ks.
Proof.
  revert acc. induction ks as [|k ks IH]; intros acc; cbn [fold_left].
  - cbn. now rewrite orb_false_r.
  - rewrite IH, inb_cons. unfold add_key.
    destruct (inb k acc) eqn:Ek.
    + destruct (String.eqb_spec c k) as [->|Hne]; [|reflexivity].
      rewrite Ek. reflexivity.
    + rewrite inb_app, inb_cons. cbn [inb existsb].
      now rewrite orb_false_r, orb_assoc.
Qed.

Lemma lookup_keyed {V : Type} (g : string -> V) keys c :
  lookup c (map (fun k => (k, g k)) keys)
  = if inb c keys then Some (g c) else None.
Proof.
  induction keys as [|k keys IH]; [reflexivity|].
  cbn [map lookup inb existsb].
  destruct (String.eqb_spec c k) as [->|Hne]; [reflexivity | exact IH].
Qed.

Lemma lookup_pd_DataFrame_single d c :
  lookup c (cols (pd_DataFrame [d]))
  = if inb c (map fst d) then Some [get c d] else None.
Proof.
  unfold pd_DataFrame. cbn [cols fold_left].
  rewrite (lookup_keyed (fun c => map (get c) [d])).
  rewrite inb_fold_add_key. reflexivity.
Qed.

Lemma lookup_app_assoc {V : Type} (c : string) (x y : list (string * V)) :
  lookup c (x ++ y)
  = match lookup c x with Some v => Some v | None => lookup c y end.
Proof.
  induction x as [|[k v] x IH]; [reflexivity|].
  cbn [app lookup]. destruct (String.eqb c k); [reflexivity | exact IH].
Qed.

Lemma lookup_add_prefix p df c :
  lookup (p ++ c)%string (cols (add_prefix p df)) = lookup c (cols df).
Proof.
  unfold add_prefix. cbn [cols].
  induction (cols df) as [|[k v] l IH]; [reflexivity|].
  cbn [map lookup fst snd].
  destruct (String.eqb_spec c k) as [->|Hne].
  - now rewrite String.eqb_refl.
  - destruct (String.eqb_spec (p ++ c) (p ++ k)) as [E|_]; [|exact IH].
    exfalso. apply Hne. clear -E.
    induction p as [|a p IHp]; [exact E|].
    cbn [String.append] in E. injection E as E. auto.
Qed.

Lemma lookup_concat_axis1 a b c :
  lookup c (cols (concat_axis1 a b))
  = option_map (pad (Nat.max (nrows a) (nrows b)))
               (match lookup c (cols a) with
                | Some v => Some v
                | None => lookup c (cols b)
                end).
Proof.
  unfold concat_axis1. cbn [cols].
  rewrite (lookup_map_values (pad (Nat.max (nrows a) (nrows b)))).
  now rewrite lookup_app_assoc.
Qed.

Lemma fold_pick_in {A : Type} (p : A -> A -> bool) rest d :
  In (fold_left (fun best d' => if p best d' then d' else best) rest d)
     (d :: rest).
Proof.
  revert d. induction rest as [|x rest IH]; intros d; [now left|].
  cbn [fold_left]. destruct (IH (if p d x then x else d)) as [E|H].
  - rewrite <- E. destruct (p d x); [right; now left | now left].
  - right. now right.
Qed.

Lemma find_latest_cases hist sym :
  find_latest hist sym = []
  \/ exists s, In s hist
               /\ get "symbol" (snapshot_doc s) = VStr sym
               /\ find_latest hist sym = [snapshot_doc s].
Proof.
  unfold find_latest.
  destruct (filter _ (map snapshot_doc hist)) as [|d rest] eqn:E;
    [now left|]. right.
  assert (I := fold_pick_in
                 (fun best d' => bson_ltb (get "timestamp" best)
                                          (get "timestamp" d')) rest d).
  cbv beta in I. rewrite <- E in I. apply filter_In in I.
  destruct I as [I Hs].
  apply in_map_iff in I. destruct I as (s & Es & Hin).
  exists s. split; [exact Hin|]. rewrite Es.
  split; [now apply value_eqb_str | reflexivity].
Qed.

Lemma fold_pick_latest rest d z :
  get "timestamp" d = VDate z ->
  (forall x, In x rest -> exists zx, get "timestamp" x = VDate zx) ->
  exists zr,
    get "timestamp"
        (fold_left (fun best d' =>
                      if bson_ltb (get "timestamp" best) (get "timestamp" d')
                      then d' else best) rest d) = VDate zr
    /\ (z <= zr)%Z
    /\ (forall x zx, In x rest -> get "timestamp" x = VDate zx ->
                     (zx <= zr)%Z).
Proof.
  revert d z. induction rest as [|y rest IH]; intros d z Hd Hall.
  - exists z. split; [exact Hd|]. split; [lia | contradiction].
  - cbn [fold_left]. destruct (Hall y (or_introl eq_refl)) as [zy Hy].
    rewrite Hd, Hy. cbn [bson_ltb].
    assert (Hrest : forall x, In x rest ->
                              exists zx, get "timestamp" x = VDate zx)
      by (intros x Hx; apply Hall; now right).
    destruct (Z.ltb_spec z zy) as [Hlt|Hge].
    + destruct (IH y zy Hy Hrest) as (zr & Hr & Hle & Hmax).
      exists zr. split; [exact Hr|]. split; [lia|].
      intros x zx [<-|Hx] Hzx.
      * rewrite Hy in Hzx. injection Hzx as <-. exact Hle.
      * now apply (Hmax x).
    + destruct (IH d z Hd Hrest) as (zr & Hr & Hle & Hmax).
      exists zr. split; [exact Hr|]. split; [exact Hle|].
      intros x zx [<-|Hx] Hzx.
      * rewrite Hy in Hzx. injection Hzx as <-. lia.
      * now apply (Hmax x).
Qed.

(** X4: when the snapshots of a symbol carry dates as timestamps, the
    latest row the pairing step fetches is a snapshot of that symbol in
    the historical collection whose timestamp is not before that of any
    other snapshot of the symbol. *)
Theorem latest_row_is_most_recent hist sym d :
  (forall s, In s hist -> get "symbol" (snapshot_doc s) = VStr sym ->
             exists z, get "timestamp" (snapshot_doc s) = VDate z) ->
  find_latest hist sym = [d] ->
  (exists s, In s hist /\ d = snapshot_doc s)
  /\ get "symbol" d = VStr sym
  /\ exists z,
       get "timestamp" d = VDate z
       /\ forall s z', In s hist ->
                       get "symbol" (snapshot_doc s) = VStr sym ->
                       get "timestamp" (snapshot_doc s) = VDate z' ->
                       (z' <= z)%Z.
Proof.
  intros Hdate H. unfold find_latest in H.
  assert (F : forall x,
             In x (filter (fun d => value_eqb (get "symbol" d) (VStr sym))
                          (map snapshot_doc hist))
             <-> exists s, In s hist /\ x = snapshot_doc s
                           /\ get "symbol" x = VStr sym).
  { intros x. rewrite filter_In, in_map_iff, value_eqb_str. split.
    - intros [(s & <- & Hin) Hs]. exists s. auto.
    - intros (s & Hin & -> & Hs). split; [exists s; auto | exact Hs]. }
  destruct (filter _ (map snapshot_doc hist)) as [|d0 rest];
    [discriminate H|].
  injection H as H.
  assert (I := fold_pick_in
                 (fun best d' => bson_ltb (get "timestamp" best)
                                          (get "timestamp" d')) rest d0).
  cbv beta in I. rewrite H in I. apply F in I.
  destruct I as (s & Hin & Hd & Hs).
  split; [exists s; split; assumption|]. split; [exact Hs|].
  assert (D : forall x, In x (d0 :: rest) ->
                        exists zx, get "timestamp" x = VDate zx).
  { intros x Hx. apply F in Hx. destruct Hx as (sx & Hsx & -> & Hsym).
    now apply Hdate. }
  destruct (D d0 (or_introl eq_refl)) as [z0 Hz0].
  destruct (fold_pick_latest rest d0 z0 Hz0
              (fun x Hx => D x (or_intror Hx))) as (zr & Hr & Hle & Hmax).
  rewrite H in Hr. exists zr. split; [exact Hr|].
  intros s' z' Hin' Hs' Hz'.
  assert (Hx : In (snapshot_doc s') (d0 :: rest)).
  { apply F. exists s'. auto. }
  destruct Hx as [E|Hx].
  - rewrite <- E in Hz'. rewrite Hz0 in Hz'. injection Hz' as <-. exact Hle.
  - now apply (Hmax (snapshot_doc s')).
Qed.

Lemma latest_row_is_most_recent_witness :
  find_latest [ex_S1; ex_S2] "BTCUSDT" = [snapshot_doc ex_S2]
  /\ get "symbol" (snapshot_doc ex_S2) = VStr "BTCUSDT".
Proof.
  assert (H : find_latest [ex_S1; ex_S2] "BTCUSDT" = [snapshot_doc ex_S2])
    by reflexivity.
  split; [exact H|].
  refine (proj1 (proj2 (latest_row_is_most_recent
                          [ex_S1; ex_S2] "BTCUSDT" _ _ H))).
  intros s [<-|[<-|[]]] _; eexists; reflexivity.
Defined.

Lemma lookup_getitem_present df names c :
  In c names ->
  lookup c (cols (getitem df (filter (fun col => inb col (columns df)) names)))
  = lookup c (cols df).
Proof.
  intros Hc. rewrite lookup_getitem.
  destruct (inb c (filter _ names)) eqn:E; [reflexivity|].
  apply inb_false in E. rewrite filter_In in E.
  destruct (lookup c (cols df)) eqn:L; [|reflexivity].
  exfalso. apply E. split; [exact Hc|]. rewrite inb_columns, L. reflexivity.
Qed.

Lemma lookup_getitem_absent df names c :
  ~ In c names ->
  lookup c (cols (getitem df (filter (fun col => inb col (columns df)) names)))
  = None.
Proof.
  intros Hc. rewrite lookup_getitem.
  destruct (inb c (filter _ names)) eqn:E; [|reflexivity].
  apply inb_In in E. apply filter_In in E. tauto.
Qed.

Lemma empty_pd_snapshot s : empty (pd_DataFrame [snapshot_doc s]) = false.
Proof.
  apply empty_false. split; [discriminate|].
  intros E.
  assert (L := lookup_pd_DataFrame_single (snapshot_doc s) "_id").
  rewrite E in L. discriminate L.
Qed.

Lemma indicator_names c :
  In c orchestrator.BOUGHT_COLUMNS ->
  c <> "_id"
  /\ ~ In c orchestrator.SELL_COLUMNS
  /\ ~ In ("sell_" ++ c)%string orchestrator.BOUGHT_COLUMNS
  /\ In ("sell_" ++ c)%string orchestrator.SELL_COLUMNS.
Proof.
  intros Hc.
  assert (H : forallb (fun c => negb (String.eqb c "_id")
                                && negb (inb c orchestrator.SELL_COLUMNS)
                                && negb (inb ("sell_" ++ c)%string
                                             orchestrator.BOUGHT_COLUMNS))
                      orchestrator.BOUGHT_COLUMNS = true)
    by (vm_compute; reflexivity).
  rewrite forallb_forall in H. specialize (H c Hc).
  apply andb_true_iff in H. destruct H as [H H3].
  apply andb_true_iff in H. destruct H as [H1 H2].
  apply negb_true_iff in H1, H2, H3.
  split; [now apply String.eqb_neq|].
  split; [now apply inb_false|]. split; [now apply inb_false|].
  unfold orchestrator.SELL_COLUMNS.
  apply (in_map (fun col => ("sell_" ++ col)%string)). exact Hc.
Qed.

Lemma lookup_snapshot_cell s c :
  c <> "_id" ->
  (if inb c (map fst (snapshot_doc s))
   then Some [get c (snapshot_doc s)] else None)
  = option_map (fun v => [v]) (lookup c (snap_fields s)).
Proof.
  intros Hc. unfold snapshot_doc, get. cbn [map fst lookup].
  rewrite inb_cons.
  destruct (String.eqb_spec c "_id"); [contradiction|]. cbn [orb].
  rewrite inb_keys. destruct (lookup c (snap_fields s)); reflexivity.
Qed.

Lemma pairing_resolved h t b s1 s2 :
  truthy (buyid t) = true ->
  bson_ObjectId h (buyid t) = Some b ->
  find_by_id (historical h) b = [snapshot_doc s1] ->
  find_latest (historical h) (symbol t) = [snapshot_doc s2] ->
  pairing h t
  = ([ Log INFO (ProcessingTrade (symbol t) (buyid t));
       Find HistoricalCol [("_id", VOid b)];
       Find HistoricalCol [("symbol", VStr (symbol t))] ],
     Some (b, snap_id s2,
           concat_axis1
             (getitem (pd_DataFrame [snapshot_doc s1])
                      (filter (fun col =>
                                 inb col (columns
                                            (pd_DataFrame [snapshot_doc s1])))
                              orchestrator.BOUGHT_COLUMNS))
             (getitem (add_prefix "sell_" (pd_DataFrame [snapshot_doc s2]))
                      (filter (fun col =>
                                 inb col
                                     (columns
                                        (add_prefix "sell_"
                                           (pd_DataFrame [snapshot_doc s2]))))
                              orchestrator.SELL_COLUMNS)))).
Proof.
  intros Ht Hb H1 H2. unfold pairing. cbv zeta.
  rewrite Ht, Hb, H1, H2, !empty_pd_snapshot. cbn [negb].
  unfold column. rewrite lookup_pd_DataFrame_single.
  reflexivity.
Qed.

(** X3: for a trade whose [buyid] resolves to one snapshot and whose
    symbol has a latest snapshot, the pairing step builds a one-row frame
    in which every indicator column holds the value of that field in the
    bought snapshot and every [sell_] indicator column the value of that
    field in the latest snapshot, a field absent from a snapshot giving
    no column; the [sellid] is the latest snapshot's [_id]. *)
Theorem paired_frame_holds_both_snapshots h t b s1 s2 :
  truthy (buyid t) = true ->
  bson_ObjectId h (buyid t) = Some b ->
  find_by_id (historical h) b = [snapshot_doc s1] ->
  find_latest (historical h) (symbol t) = [snapshot_doc s2] ->
  exists evs df,
    pairing h t = (evs, Some (b, snap_id s2, df))
    /\ nrows df = 1
    /\ (forall c, In c orchestrator.BOUGHT_COLUMNS ->
          lookup c (cols df)
          = option_map (fun v => [v]) (lookup c (snap_fields s1)))
    /\ (forall c, In c orchestrator.BOUGHT_COLUMNS ->
          lookup ("sell_" ++ c)%string (cols df)
          = option_map (fun v => [v]) (lookup c (snap_fields s2))).
Proof.
  intros Ht Hb H1 H2.
  rewrite (pairing_resolved h t b s1 s2 Ht Hb H1 H2).
  eexists. eexists. split; [reflexivity|]. split; [reflexivity|].
  split.
  - intros c Hc. destruct (indicator_names c Hc) as (Hid & Hs & _ & _).
    rewrite lookup_concat_axis1.
    rewrite (lookup_getitem_present _ orchestrator.BOUGHT_COLUMNS c Hc).
    rewrite (lookup_getitem_absent _ orchestrator.SELL_COLUMNS c Hs).
    rewrite lookup_pd_DataFrame_single, (lookup_snapshot_cell s1 c Hid).
    destruct (lookup c (snap_fields s1)); reflexivity.
  - intros c Hc. destruct (indicator_names c Hc) as (Hid & _ & Hb' & Hs).
    rewrite lookup_concat_axis1.
    rewrite (lookup_getitem_absent _ orchestrator.BOUGHT_COLUMNS _ Hb').
    rewrite (lookup_getitem_present _ orchestrator.SELL_COLUMNS _ Hs).
    rewrite lookup_add_prefix.
    rewrite lookup_pd_DataFrame_single, (lookup_snapshot_cell s2 c Hid).
    destruct (lookup c (snap_fields s2)); reflexivity.
Qed.

Lemma paired_frame_holds_both_snapshots_witness :
  (truthy (buyid ex_T1) = true
   /\ find_by_id (historical (ex_host (82 # 100) [ex_T1]))
                 "5f0000000000000000000001" = [snapshot_doc ex_S1]
   /\ find_latest (historical (ex_host (82 # 100) [ex_T1])) (symbol ex_T1)
      = [snapshot_doc ex_S2])
  /\ exists evs df,
       pairing (ex_host (82 # 100) [ex_T1]) ex_T1
       = (evs, Some ("5f0000000000000000000001", snap_id ex_S2, df))
       /\ nrows df = 1.
Proof.
  split; [repeat split; reflexivity|].
  destruct (paired_frame_holds_both_snapshots
              (ex_host (82 # 100) [ex_T1]) ex_T1 "5f0000000000000000000001"
              ex_S1 ex_S2 eq_refl eq_refl eq_refl eq_refl)
    as (evs & df & H1 & H2 & _).
  exists evs, df. split; assumption.
Defined.

(** * Further properties of the persistence step *)

Lemma update_one_no_match sym u oid store :
  (forall d, In d store -> has_key sym d = false) ->
  update_one (signal_filter sym) u oid store
  = store ++ [("_id", VOid oid) :: apply_set u (signal_filter sym)].
Proof.
  induction store as [|d store IH]; intros H; [reflexivity|].
  rewrite update_one_cons, (H d (or_introl eq_refl)).
  cbn [app]. f_equal. apply IH. intros x Hx. apply H. now right.
Qed.

(** X5: when the single row of a trade qualifies, the write succeeds and
    no stored document has the key (symbol, "SELL"), the trade appends
    one document to the collection and leaves the documents before it as
    they were; the new document has seven fields: the [_id] the server
    generates for it, and [symbol], [trade_type], [sell_score], [buyid],
    [sellid] and [created_at] with the values of the write. *)
Theorem new_signal_is_appended h c mf t st b sid dfs q :
  scored h mf t = Some (b, sid, dfs) ->
  column "confidence_score" dfs = [VNum q] ->
  (MIN_SELL_SCORE <= q)%Q ->
  update_raises h (calls st) = false ->
  (forall d, In d (coll st) ->
             get "symbol" d <> VStr (symbol t)
             \/ get "trade_type" d <> VStr "SELL") ->
  exists d,
    coll (fst (process_trade h c mf t st)) = coll st ++ [d]
    /\ List.length d = 7
    /\ get "_id" d = VOid (generated_id h (calls st))
    /\ get "symbol" d = VStr (symbol t)
    /\ get "trade_type" d = VStr "SELL"
    /\ get "sell_score" d = VNum q
    /\ get "buyid" d = VOid b
    /\ get "sellid" d = sid
    /\ get "created_at" d = VDate (utcnow h (calls st)).
Proof.
  intros Es Hc Hq Hok Hno.
  rewrite (process_trade_single h c mf t st b sid dfs q Es Hc Hq Hok).
  cbn [coll]. rewrite update_one_no_match.
  - eexists. split; [reflexivity|]. repeat split; reflexivity.
  - intros d Hd. destruct (has_key (symbol t) d) eqn:E; [|reflexivity].
    apply has_key_iff in E. destruct (Hno d Hd); tauto.
Qed.

Lemma new_signal_is_appended_witness :
  (scored (ex_host (3 # 4) [ex_T1]) "/app/sell_model.json" ex_T1
   = Some ("5f0000000000000000000001", VOid "5f0000000000000000000002",
           mkDF 1 [ ("confidence_score", [VNum (3 # 4)]);
                    ("open", [VNum 1]); ("sell_close", [VNum 4]) ])
   /\ (MIN_SELL_SCORE <= 3 # 4)%Q)
  /\ exists d,
       coll (fst (process_trade (ex_host (3 # 4) [ex_T1]) (Some "suggested")
                                "/app/sell_model.json" ex_T1 (mkSt [] 0)))
       = [d]
       /\ get "_id" d = VOid "650000000000000000000000"
       /\ get "sell_score" d = VNum (3 # 4).
Proof.
  assert (H1 : scored (ex_host (3 # 4) [ex_T1]) "/app/sell_model.json" ex_T1
               = Some ("5f0000000000000000000001",
                       VOid "5f0000000000000000000002",
                       mkDF 1 [ ("confidence_score", [VNum (3 # 4)]);
                                ("open", [VNum 1]);
                                ("sell_close", [VNum 4]) ]))
    by (vm_compute; reflexivity).
  assert (H2 : (MIN_SELL_SCORE <= 3 # 4)%Q)
    by (apply Qle_bool_iff; reflexivity).
  split; [split; assumption|].
  destruct (new_signal_is_appended
              (ex_host (3 # 4) [ex_T1]) (Some "suggested")
              "/app/sell_model.json" ex_T1 (mkSt [] 0) _ _ _ (3 # 4)
              H1 eq_refl H2 eq_refl)
    as (d & E & _ & I & _ & _ & S & _).
  - intros d [].
  - exists d. split; [exact E|]. split; [exact I | exact S].
Defined.

(** X7: when the single row of a trade qualifies and the write raises,
    the exception is caught: the collection is as it was, the trade's
    trace ends with the refused call and an error record that carries the
    trade's symbol, and the call counter moves on by one. *)
Theorem refused_write_is_caught h c mf t st b sid dfs q :
  scored h mf t = Some (b, sid, dfs) ->
  column "confidence_score" dfs = [VNum q] ->
  (MIN_SELL_SCORE <= q)%Q ->
  update_raises h (calls st) = true ->
  fst (process_trade h c mf t st) = mkSt (coll st) (S (calls st))
  /\ exists evs0,
       updates evs0 = []
       /\ snd (process_trade h c mf t st)
          = evs0 ++ [ UpdateOne (signal_filter (symbol t))
                                (signal_update (symbol t) b sid (VNum q)
                                               (utcnow h (calls st)));
                      Log ERROR (ErrorSaving (symbol t)) ].
Proof.
  intros Es Hc Hq Hraise.
  destruct (scored_shape h mf t b sid dfs Es) as (H1 & H3 & H2 & H4 & H5).
  destruct (process_trade_scored h c mf t st b sid dfs Es) as (evs0 & U & ->).
  cbn [fst snd].
  rewrite (persist_scored h c (symbol t) b sid dfs st _ H1 H2 H3 H4 H5).
  rewrite Hc. apply at_least_MIN_SELL_SCORE in Hq.
  cbn [forallb isnull andb filter]. rewrite Hq.
  rewrite save_loop_signal_cons. cbv zeta. rewrite Hraise.
  split; [reflexivity|]. exists evs0. split; [exact U | reflexivity].
Qed.

Lemma refused_write_is_caught_witness :
  (scored (ex_failing_host (9 # 10) [ex_T1]) "/app/sell_model.json" ex_T1
   = Some ("5f0000000000000000000001", VOid "5f0000000000000000000002",
           mkDF 1 [ ("confidence_score", [VNum (9 # 10)]);
                    ("open", [VNum 1]); ("sell_close", [VNum 4]) ])
   /\ (MIN_SELL_SCORE <= 9 # 10)%Q)
  /\ fst (process_trade (ex_failing_host (9 # 10) [ex_T1]) (Some "suggested")
                        "/app/sell_model.json" ex_T1
                        (mkSt [ex_old_signal] 0))
     = mkSt [ex_old_signal] 1.
Proof.
  assert (H1 : scored (ex_failing_host (9 # 10) [ex_T1])
                      "/app/sell_model.json" ex_T1
               = Some ("5f0000000000000000000001",
                       VOid "5f0000000000000000000002",
                       mkDF 1 [ ("confidence_score", [VNum (9 # 10)]);
                                ("open", [VNum 1]);
                                ("sell_close", [VNum 4]) ]))
    by (vm_compute; reflexivity).
  assert (H2 : (MIN_SELL_SCORE <= 9 # 10)%Q)
    by (apply Qle_bool_iff; reflexivity).
  split; [split; assumption|].
  exact (proj1 (refused_write_is_caught
                  (ex_failing_host (9 # 10) [ex_T1]) (Some "suggested")
                  "/app/sell_model.json" ex_T1 (mkSt [ex_old_signal] 0)
                  _ _ _ (9 # 10) H1 eq_refl H2 eq_refl)).
Defined.

(** * Further properties of the run *)

Lemma run_unloaded h df f :
  load_model h f = None ->
  exists m evs, run h (Some df) (Some f) = (RError m, evs).
Proof.
  intros Hl. unfold run.
  destruct (empty df); [eexists; eexists; reflexivity|].
  destruct (String.eqb f "" || negb (file_exists h f));
    [eexists; eexists; reflexivity|].
  rewrite Hl. eexists. eexists. reflexivity.
Qed.

Lemma unloaded_never_scores h mf t :
  load_model h mf = None -> scored h mf t = None.
Proof.
  intros Hl. unfold scored.
  destruct (pairing h t) as [evs [[[b sid] df]|]]; [|reflexivity].
  destruct (run_unloaded h df mf Hl) as (m & evs' & ->). reflexivity.
Qed.

Lemma signal_upserts_none allowed a b :
  (forall s, ~ allowed s) -> signal_upserts allowed a b -> b = a.
Proof.
  intros Hno H. induction H; [reflexivity|]. exfalso. eapply Hno; eauto.
Qed.

Lemma Forall_impossible {A : Type} (P : A -> Prop) (l : list A) :
  (forall x, ~ P x) -> Forall P l -> l = [].
Proof.
  intros Hno H. destruct H as [|x l Hx _]; [reflexivity|].
  exfalso. exact (Hno x Hx).
Qed.

(** X8: when the model file cannot be loaded, no trade of the run is
    scored: the run issues no [update_one] and leaves the collection as
    it was. *)
Theorem unloadable_model_writes_nothing h suggested :
  load_model h (model_file_of h) = None ->
  fst (orchestrator_stage2_sell h suggested) = suggested
  /\ updates (snd (orchestrator_stage2_sell h suggested)) = [].
Proof.
  intros Hl. destruct (orchestrator_store h suggested) as [S F].
  assert (Q : forall t, qualifies h (model_file_of h) t = false).
  { intros t. unfold qualifies.
    now rewrite (unloaded_never_scores h _ t Hl). }
  split.
  - eapply signal_upserts_none; [|exact S].
    intros s (t & _ & _ & Hq). rewrite Q in Hq. discriminate Hq.
  - eapply Forall_impossible; [|exact F].
    intros e (t & u & _ & Hq & _). rewrite Q in Hq. discriminate Hq.
Qed.

Lemma unloadable_model_writes_nothing_witness :
  load_model (mkHost "/app" (fun _ => true) ex_getenv true [ex_T1]
                     [ex_S1; ex_S2] (fun _ => None) ex_ObjectId
                     (fun _ => 0%Z) (fun _ => false) ex_generated_id)
             "/app/sell_model.json" = None
  /\ fst (orchestrator_stage2_sell
            (mkHost "/app" (fun _ => true) ex_getenv true [ex_T1]
                    [ex_S1; ex_S2] (fun _ => None) ex_ObjectId
                    (fun _ => 0%Z) (fun _ => false) ex_generated_id)
            [ex_old_signal]) = [ex_old_signal].
Proof.
  split; [reflexivity|].
  apply (unloadable_model_writes_nothing
           (mkHost "/app" (fun _ => true) ex_getenv true [ex_T1]
                   [ex_S1; ex_S2] (fun _ => None) ex_ObjectId
                   (fun _ => 0%Z) (fun _ => false) ex_generated_id)
           [ex_old_signal]).
  reflexivity.
Defined.

Lemma pairing_skip_log h t :
  snd (pairing h t) = None ->
  exists evs m,
    fst (pairing h t) = evs ++ [Log WARNING m]
    /\ (logged_symbol m = Some (symbol t) \/ m = NoBoughtRow (buyid t)).
Proof.
  unfold pairing. cbv zeta.
  destruct (negb (truthy (buyid t))).
  { intros _. exists [], (TradeMissingBuyid (symbol t)).
    split; [reflexivity | now left]. }
  destruct (bson_ObjectId h (buyid t)) as [o|].
  2:{ intros _. eexists [_], (InvalidBuyidFormat (symbol t) (buyid t)).
      split; [reflexivity | now left]. }
  destruct (empty (pd_DataFrame (find_by_id _ _))).
  { intros _. eexists [_; _], (NoBoughtRow (buyid t)).
    split; [reflexivity | now right]. }
  destruct (empty (pd_DataFrame (find_latest _ _))).
  { intros _. eexists [_; _; _], (NoLatestRow (symbol t)).
    split; [reflexivity | now left]. }
  intros H. discriminate H.
Qed.

(** X9: the trace of every trade ends with a log record, and that record
    carries the trade's symbol, except the warning for a [buyid] that
    resolves to no snapshot, which carries the [buyid]. *)
Theorem trade_trace_ends_with_its_log h c mf t st :
  exists evs l m,
    snd (process_trade h c mf t st) = evs ++ [Log l m]
    /\ (logged_symbol m = Some (symbol t) \/ m = NoBoughtRow (buyid t)).
Proof.
  destruct (scored h mf t) as [[[b sid] dfs]|] eqn:Es.
  - destruct (scored_shape h mf t b sid dfs Es) as (H1 & H3 & H2 & H4 & H5).
    destruct (process_trade_scored h c mf t st b sid dfs Es) as (evs0 & _ & ->).
    cbn [snd].
    rewrite (persist_scored h c (symbol t) b sid dfs st _ H1 H2 H3 H4 H5).
    destruct (forallb isnull _).
    { exists evs0, WARNING, (NoConfidenceScore (symbol t)).
      split; [reflexivity | now left]. }
    destruct (filter ge_threshold _) as [|q0 qs].
    { exists evs0, INFO, (NoPredictionsAboveThreshold (symbol t)).
      split; [reflexivity | now left]. }
    cbv beta iota zeta.
    destruct (save_loop h _ st) as [[st' evs] ok]. cbn [snd].
    destruct ok.
    + eexists (evs0 ++ evs), INFO, _. rewrite app_assoc.
      split; [reflexivity | now left].
    + eexists (evs0 ++ evs), ERROR, _. rewrite app_assoc.
      split; [reflexivity | now left].
  - unfold scored in Es. unfold process_trade.
    destruct (pairing h t) as [evs [[[b sid] df]|]] eqn:Ep.
    + assert (Nr := fun e => run_on_paired_frame h t _ _ _ _ mf e Ep).
      destruct (run h (Some df) (Some mf)) as [[m|dfs|e] evs'];
        cbn [fst] in Es, Nr; [|discriminate Es|now destruct (Nr e)].
      cbn [snd]. eexists (evs ++ evs'), ERROR, _. rewrite app_assoc.
      split; [reflexivity | now left].
    + cbn [snd].
      assert (P := pairing_skip_log h t). rewrite Ep in P.
      destruct (P eq_refl) as (evs1 & m & E & Hm). cbn [fst] in E.
      exists evs1, WARNING, m. split; assumption.
Qed.

Lemma pairing_quiet (p : Event -> bool) h t :
  (forall l m, p (Log l m) = false) ->
  (forall q, p (Find HistoricalCol q) = false) ->
  filter p (fst (pairing h t)) = [].
Proof.
  intros Hl Hf. unfold pairing. cbv zeta.
  destruct (negb (truthy (buyid t)));
    [cbn [fst filter]; now rewrite Hl|].
  destruct (bson_ObjectId h (buyid t));
    [|cbn [fst filter]; now rewrite !Hl].
  destruct (empty (pd_DataFrame (find_by_id _ _)));
    [cbn [fst filter]; now rewrite !Hl, Hf|].
  destruct (empty (pd_DataFrame (find_latest _ _)));
    cbn [fst filter]; now rewrite ?Hl, ?Hf.
Qed.

Lemma run_quiet (p : Event -> bool) h data mf :
  (forall l m, p (Log l m) = false) ->
  (forall d, p (Predict d) = false) ->
  (forall e, p (Raise e) = false) ->
  filter p (snd (run h data mf)) = [].
Proof.
  intros Hlog Hp Hr.
  destruct data as [df|]; [|cbn [run snd filter]; now rewrite Hlog].
  destruct (empty df) eqn:He.
  { unfold run. rewrite He. cbn [snd filter]. now rewrite Hlog. }
  destruct mf as [f|].
  2:{ unfold run. rewrite He. cbn [snd filter]. now rewrite Hlog. }
  destruct (String.eqb_spec f "") as [->|Hf].
  { unfold run. rewrite He. cbn. now rewrite Hlog. }
  destruct (file_exists h f) eqn:Hx.
  2:{ unfold run. rewrite He, Hx, orb_true_r.
      cbn [snd filter]. now rewrite Hlog. }
  destruct (load_model h f) as [model|] eqn:Hl.
  2:{ unfold run. rewrite He, Hx, Hl.
      destruct (String.eqb_spec f ""); [contradiction|].
      cbn [orb negb snd filter]. now rewrite Hlog. }
  rewrite (run_loaded h df f model He Hf Hx Hl).
  destruct (add_buy_columns df);
    [|cbn [snd filter]; now rewrite Hlog, Hr].
  assert (B : filter p (events_before_predict f df) = []).
  { unfold events_before_predict.
    destruct (missing_features df); cbn [app filter];
      now rewrite ?Hlog, ?Hp. }
  destruct (model _) as [scores|].
  - destruct (List.length scores =? nrows df); cbn [snd];
      rewrite filter_app, B; cbn [filter app]; now rewrite Hlog.
  - cbn [snd]. rewrite filter_app, B. cbn [filter app]. now rewrite Hlog.
Qed.

Lemma scored_unfold h mf t evs b sid df dfs evs' :
  pairing h t = (evs, Some (b, sid, df)) ->
  run h (Some df) (Some mf) = (RSuccess dfs, evs') ->
  scored h mf t = Some (b, sid, dfs).
Proof. intros Ep Er. unfold scored. rewrite Ep, Er. reflexivity. Qed.

Lemma process_trade_quiet (p : Event -> bool) h c mf t st :
  (forall l m, p (Log l m) = false) ->
  (forall d, p (Predict d) = false) ->
  (forall q, p (Find HistoricalCol q) = false) ->
  (forall f u, p (UpdateOne f u) = false) ->
  (forall e, p (Raise e) = false) ->
  filter p (snd (process_trade h c mf t st)) = [].
Proof.
  intros Hlog Hp Hf Hu Hr. unfold process_trade.
  assert (P := pairing_quiet p h t Hlog Hf).
  destruct (pairing h t) as [evs [[[b sid] df]|]] eqn:Ep; cbn [fst] in P;
    [|exact P].
  assert (R := run_quiet p h (Some df) (Some mf) Hlog Hp Hr).
  destruct (run h (Some df) (Some mf)) as [[m|dfs|e] evs'] eqn:Er;
    cbn [snd] in R.
  { cbn [snd]. rewrite !filter_app, P, R. cbn [filter app].
    now rewrite Hlog. }
  2:{ cbn [snd]. now rewrite !filter_app, P, R. }
  assert (Es := scored_unfold h mf t _ _ _ _ _ _ Ep Er).
  destruct (scored_shape h mf t b sid dfs Es) as (H1 & H3 & H2 & H4 & H5).
  rewrite (persist_scored h c (symbol t) b sid dfs st _ H1 H2 H3 H4 H5).
  destruct (forallb isnull _).
  { cbn [snd]. rewrite !filter_app, P, R. cbn [filter app]. now rewrite Hlog. }
  destruct (filter ge_threshold _) as [|q0 qs].
  { cbn [snd]. rewrite !filter_app, P, R. cbn [filter app]. now rewrite Hlog. }
  cbv beta iota zeta.
  destruct (save_loop_upserts h (symbol t) b sid (q0 :: qs) st) as [_ F].
  destruct (save_loop h _ st) as [[st' evs1] ok]. cbn [fst snd] in *.
  rewrite !filter_app, P, R. cbn [app].
  assert (E : filter p evs1 = []).
  { clear -F Hu. induction F as [|e l [u ->] _ IH]; [reflexivity|].
    cbn [filter]. now rewrite Hu. }
  rewrite E. cbn [app filter]. destruct ok; now rewrite Hlog.
Qed.

Lemma process_trades_quiet (p : Event -> bool) h c mf trades st :
  (forall l m, p (Log l m) = false) ->
  (forall d, p (Predict d) = false) ->
  (forall q, p (Find HistoricalCol q) = false) ->
  (forall f u, p (UpdateOne f u) = false) ->
  (forall e, p (Raise e) = false) ->
  filter p (snd (process_trades h c mf trades st)) = [].
Proof.
  intros Hlog Hp Hf Hu Hr. revert st.
  induction trades as [|t rest IH]; intros st; [reflexivity|].
  rewrite process_trades_cons. cbn [snd].
  now rewrite filter_app, process_trade_quiet, IH.
Qed.

(** X10: a run that passes startup reads the active trades once, as its
    first storage call, and never again; with no active trade it logs
    that and ends, leaving the collection as it was. *)
Theorem active_trades_are_read_once h suggested :
  file_exists h (path_join (base_dir h) ".env") = true ->
  unset (getenv h "MONGO_CONN_STR") = false ->
  unset (getenv h "MONGO_DB_NAME") = false ->
  unset (getenv h "SELL_MODEL_FILE") = false ->
  file_exists h (model_file_of h) = true ->
  connect_ok h = true ->
  (exists rest,
      snd (orchestrator_stage2_sell h suggested)
      = Find ActiveTradesCol [] :: rest
      /\ filter is_read_of_trades rest = [])
  /\ (active_trades h = [] ->
      orchestrator_stage2_sell h suggested
      = (suggested, [Find ActiveTradesCol []; Log INFO NoActiveTrades])).
Proof.
  intros E1 E2 E3 E4 E5 E6.
  unfold orchestrator_stage2_sell. cbv zeta. fold (model_file_of h).
  rewrite E1, E2, E3, E4, E5, E6. cbn [negb orb].
  destruct (active_trades h) as [|t0 l0].
  { split; [|reflexivity]. eexists. split; reflexivity. }
  split; [|intros H; discriminate H].
  assert (Q := process_trades_quiet is_read_of_trades h
                 (getenv h "SUGGESTED_TRADES_COLLECTION") (model_file_of h)
                 (t0 :: l0) (mkSt suggested 0)
                 (fun _ _ => eq_refl) (fun _ => eq_refl)
                 (fun _ => eq_refl) (fun _ _ => eq_refl)
                 (fun _ => eq_refl)).
  destruct (process_trades h _ (model_file_of h) (t0 :: l0) _) as [st evs].
  cbn [snd] in *. eexists. split; [reflexivity|].
  rewrite filter_app, Q. now destruct (raised evs).
Qed.

Lemma active_trades_are_read_once_witness :
  (file_exists (ex_host (82 # 100) []) "/app/.env" = true
   /\ connect_ok (ex_host (82 # 100) []) = true)
  /\ orchestrator_stage2_sell (ex_host (82 # 100) []) [ex_old_signal]
     = ([ex_old_signal], [Find ActiveTradesCol []; Log INFO NoActiveTrades]).
Proof.
  split; [split; reflexivity|].
  apply (proj2 (active_trades_are_read_once
                  (ex_host (82 # 100) []) [ex_old_signal]
                  eq_refl eq_refl eq_refl eq_refl eq_refl eq_refl)).
  reflexivity.
Defined.

Lemma value_eqb_oid v o : value_eqb v (VOid o) = true <-> v = VOid o.
Proof.
  destruct v; simpl; try (split; discriminate).
  rewrite String.eqb_eq. split; congruence.
Qed.

Lemma find_by_id_in hist o d :
  In d (find_by_id hist o) ->
  exists s, In s hist /\ snap_id s = VOid o /\ d = snapshot_doc s.
Proof.
  unfold find_by_id. intros H. apply in_map_iff in H.
  destruct H as (s & <- & H). apply filter_In in H. destruct H as [Hin Hid].
  exists s. split; [exact Hin|]. split; [now apply value_eqb_oid | reflexivity].
Qed.

(** Where the identifiers of a paired trade come from. *)
Lemma pairing_ids h t evs b sid df :
  pairing h t = (evs, Some (b, sid, df)) ->
  bson_ObjectId h (buyid t) = Some b
  /\ (exists s1, In s1 (historical h) /\ snap_id s1 = VOid b)
  /\ (exists s2, In s2 (historical h)
                 /\ get "symbol" (snapshot_doc s2) = VStr (symbol t)
                 /\ sid = snap_id s2).
Proof.
  intros H. apply (f_equal snd) in H. cbn [snd] in H.
  unfold pairing in H. cbv zeta in H.
  destruct (truthy (buyid t)); cbn [negb] in H; [|discriminate H].
  destruct (bson_ObjectId h (buyid t)) as [o|]; [|discriminate H].
  destruct (find_by_id (historical h) o) as [|d1 l1] eqn:E1.
  { rewrite empty_no_docs in H. discriminate H. }
  destruct (empty (pd_DataFrame (d1 :: l1))); [discriminate H|].
  destruct (find_latest_cases (historical h) (symbol t))
    as [E2|(s2 & Hin2 & Hs2 & E2)]; rewrite E2 in H.
  { rewrite empty_no_docs in H. discriminate H. }
  rewrite empty_pd_snapshot in H. cbn [snd] in H.
  unfold column in H. rewrite lookup_pd_DataFrame_single in H.
  cbn [inb existsb map fst snapshot_doc String.eqb Ascii.eqb Bool.eqb
       orb nth get lookup] in H.
  remember (concat_axis1 _ _) as X eqn:EX in H.
  injection H as Ho Hs Hd. subst o sid.
  split; [reflexivity|]. split.
  - destruct (find_by_id_in (historical h) b d1) as (s1 & Hin & Hid & _).
    { rewrite E1. now left. }
    exists s1. split; assumption.
  - exists s2. repeat split; assumption.
Qed.

Lemma scored_ids h mf t b sid dfs :
  scored h mf t = Some (b, sid, dfs) ->
  bson_ObjectId h (buyid t) = Some b
  /\ (exists s1, In s1 (historical h) /\ snap_id s1 = VOid b)
  /\ (exists s2, In s2 (historical h)
                 /\ get "symbol" (snapshot_doc s2) = VStr (symbol t)
                 /\ sid = snap_id s2).
Proof.
  unfold scored. intros H.
  destruct (pairing h t) as [evs [[[b0 sid0] df]|]] eqn:Ep; [|discriminate H].
  destruct (fst (run h (Some df) (Some mf)));
    [discriminate H| |discriminate H].
  injection H as -> -> _. exact (pairing_ids h t evs b sid df Ep).
Qed.

Lemma save_loop_writes h sym b sid vs st :
  Forall (fun e => exists v k,
              In v vs
              /\ e = UpdateOne (signal_filter sym)
                               (signal_update sym b sid v (utcnow h k)))
         (snd (fst (save_loop h (map (signal_record sym b sid) vs) st))).
Proof.
  revert st. induction vs as [|v vs IH]; intros st; [constructor|].
  rewrite save_loop_signal_cons. cbv zeta.
  assert (Hd : exists v0 k,
             In v0 (v :: vs)
             /\ UpdateOne (signal_filter sym)
                          (signal_update sym b sid v (utcnow h (calls st)))
                = UpdateOne (signal_filter sym)
                            (signal_update sym b sid v0 (utcnow h k))).
  { exists v, (calls st). split; [now left | reflexivity]. }
  destruct (update_raises h (calls st)).
  - cbn [fst snd]. constructor; [exact Hd | constructor].
  - specialize (IH (mkSt (update_one (signal_filter sym)
                            (signal_update sym b sid v (utcnow h (calls st)))
                            (generated_id h (calls st))
                            (coll st)) (S (calls st)))).
    destruct (save_loop h (map (signal_record sym b sid) vs) _)
      as [[st' evs] ok].
    cbn [fst snd] in *. constructor; [exact Hd|].
    eapply Forall_impl; [|exact IH].
    intros e (v0 & k & Hin & ->). exists v0, k.
    split; [now right | reflexivity].
Qed.

Lemma process_trade_writes h c mf t st :
  Forall (fun e => exists b sid dfs v k,
              scored h mf t = Some (b, sid, dfs)
              /\ In v (column "confidence_score" dfs)
              /\ ge_threshold v = true
              /\ e = UpdateOne (signal_filter (symbol t))
                               (signal_update (symbol t) b sid v
                                              (utcnow h k)))
         (updates (snd (process_trade h c mf t st))).
Proof.
  destruct (scored h mf t) as [[[b sid] dfs]|] eqn:Es.
  2:{ destruct (process_trade_unscored h c mf t st Es) as [_ ->].
      constructor. }
  destruct (scored_shape h mf t b sid dfs Es) as (H1 & H3 & H2 & H4 & H5).
  destruct (process_trade_scored h c mf t st b sid dfs Es) as (evs0 & U & ->).
  cbn [snd]. rewrite updates_app, U. cbn [app].
  rewrite (persist_scored h c (symbol t) b sid dfs st _ H1 H2 H3 H4 H5).
  destruct (forallb isnull _); [constructor|].
  destruct (filter ge_threshold _) as [|q0 qs] eqn:Eq; [constructor|].
  cbv beta iota zeta.
  assert (W := save_loop_writes h (symbol t) b sid (q0 :: qs) st).
  destruct (save_loop h _ st) as [[st' evs] ok]. cbn [fst snd] in *.
  rewrite updates_app.
  replace (updates [if ok then _ else _]) with (@nil Event)
    by (destruct ok; reflexivity).
  rewrite app_nil_r. unfold updates. apply Forall_forall.
  intros e He. apply filter_In in He. destruct He as [He _].
  rewrite Forall_forall in W. destruct (W e He) as (v & k & Hv & ->).
  rewrite <- Eq in Hv. apply filter_In in Hv. destruct Hv as [Hv Hge].
  exists b, sid, dfs, v, k. repeat split; assumption.
Qed.

Lemma process_trades_writes h c mf trades st :
  Forall (fun e => exists t b sid dfs v k,
              In t trades
              /\ scored h mf t = Some (b, sid, dfs)
              /\ In v (column "confidence_score" dfs)
              /\ ge_threshold v = true
              /\ e = UpdateOne (signal_filter (symbol t))
                               (signal_update (symbol t) b sid v
                                              (utcnow h k)))
         (updates (snd (process_trades h c mf trades st))).
Proof.
  revert st. induction trades as [|t rest IH]; intros st; [constructor|].
  rewrite process_trades_cons. cbn [snd].
  rewrite updates_app. apply Forall_app. split.
  - eapply Forall_impl; [|apply process_trade_writes].
    intros e (b & sid & dfs & v & k & H). exists t, b, sid, dfs, v, k.
    split; [now left | exact H].
  - eapply Forall_impl; [|apply IH].
    intros e (t' & b & sid & dfs & v & k & Hin & H).
    exists t', b, sid, dfs, v, k. split; [now right | exact H].
Qed.

Lemma ge_threshold_numeric v :
  ge_threshold v = true ->
  exists q, v = VNum q /\ (float32 MIN_SELL_SCORE <= q)%Q.
Proof.
  destruct v as [|q|x|o|z]; intros H;
    [discriminate H | | discriminate H | discriminate H | discriminate H].
  exists q. split; [reflexivity | now apply ge_threshold_iff].
Qed.

(** X12: every [update_one] a run issues is the upsert of a signal of an
    active trade: it filters on that trade's symbol and "SELL" and sets
    the symbol, "SELL", a numeric score that is at least the threshold
    as line 146 compares it ([MIN_SELL_SCORE] narrowed to binary32), the
    ObjectId of the trade's [buyid], which is the [_id] of a stored
    snapshot, the [_id] of a stored snapshot of the trade's symbol, and a
    creation time. *)
Theorem every_write_is_a_qualifying_signal h suggested f u :
  In (UpdateOne f u) (snd (orchestrator_stage2_sell h suggested)) ->
  exists t b s1 s2 q now,
    In t (active_trades h)
    /\ bson_ObjectId h (buyid t) = Some b
    /\ In s1 (historical h) /\ snap_id s1 = VOid b
    /\ In s2 (historical h)
    /\ get "symbol" (snapshot_doc s2) = VStr (symbol t)
    /\ (float32 MIN_SELL_SCORE <= q)%Q
    /\ f = [ ("symbol", VStr (symbol t)); ("trade_type", VStr "SELL") ]
    /\ u = [ ("symbol", VStr (symbol t)); ("trade_type", VStr "SELL");
             ("sell_score", VNum q); ("buyid", VOid b);
             ("sellid", snap_id s2); ("created_at", VDate now) ].
Proof.
  intros Hin.
  assert (Hu : In (UpdateOne f u)
                  (updates (snd (orchestrator_stage2_sell h suggested)))).
  { unfold updates. apply filter_In. split; [exact Hin | reflexivity]. }
  clear Hin. revert Hu.
  unfold orchestrator_stage2_sell. cbv zeta. fold (model_file_of h).
  destruct (negb (file_exists h (path_join (base_dir h) ".env")));
    [intros []|].
  destruct (_ || _); [intros []|].
  destruct (negb (file_exists h (model_file_of h))); [intros []|].
  destruct (negb (connect_ok h)); [intros []|].
  destruct (active_trades h) as [|t0 l0] eqn:Ea; [intros []|].
  assert (W := process_trades_writes h
                 (getenv h "SUGGESTED_TRADES_COLLECTION") (model_file_of h)
                 (t0 :: l0) (mkSt suggested 0)).
  assert (R := process_trades_returns h
                 (getenv h "SUGGESTED_TRADES_COLLECTION") (model_file_of h)
                 (t0 :: l0) (mkSt suggested 0)).
  destruct (process_trades h _ (model_file_of h) (t0 :: l0) _) as [st evs].
  cbn [fst snd] in *. rewrite R.
  change (Find ActiveTradesCol [] :: evs ++ [Log INFO Completed])
    with ([Find ActiveTradesCol []] ++ evs ++ [Log INFO Completed]).
  rewrite !updates_app. cbn [updates filter is_update app].
  rewrite app_nil_r. intros Hu.
  rewrite Forall_forall in W.
  destruct (W _ Hu) as (t & b & sid & dfs & v & k & Ht & Es & Hv & Hge & E).
  destruct (scored_ids h _ t b sid dfs Es)
    as (Hb & (s1 & Hs1 & Hid1) & (s2 & Hs2 & Hsym & ->)).
  destruct (ge_threshold_numeric v Hge) as (q & -> & Hq).
  injection E as -> ->.
  exists t, b, s1, s2, q, (utcnow h k).
  repeat (split; [assumption || reflexivity|]). reflexivity.
Qed.

Lemma every_write_is_a_qualifying_signal_witness :
  In (UpdateOne (signal_filter "BTCUSDT")
                (signal_update "BTCUSDT" "5f0000000000000000000001"
                               (VOid "5f0000000000000000000002")
                               (VNum (3 # 4)) 1000))
     (snd (orchestrator_stage2_sell (ex_host (3 # 4) [ex_T2; ex_T1]) []))
  /\ exists t, In t [ex_T2; ex_T1] /\ symbol t = "BTCUSDT".
Proof.
  assert (H : In (UpdateOne (signal_filter "BTCUSDT")
                    (signal_update "BTCUSDT" "5f0000000000000000000001"
                                   (VOid "5f0000000000000000000002")
                                   (VNum (3 # 4)) 1000))
                 (snd (orchestrator_stage2_sell
                         (ex_host (3 # 4) [ex_T2; ex_T1]) []))).
  { vm_compute. repeat (first [left; reflexivity | right]). }
  split; [exact H|].
  destruct (every_write_is_a_qualifying_signal _ _ _ _ H)
    as (t & b & s1 & s2 & q & now & Ht & _ & _ & _ & _ & _ & _ & Hf & _).
  exists t. split; [exact Ht|].
  unfold signal_filter in Hf. injection Hf as Hf. symmetry. exact Hf.
Defined.

(** * What the scoring function hands back *)

(** C8 (amended): for every successfully scored batch with distinct
    labels, the result has the rows of the input, the [confidence_score]
    column holding the scores the classifier returned for the feature
    matrix, and, of the identifying columns [symbol], [timestamp],
    [open], [high], [low], [volume] and [sell_close], exactly those the
    input frame has, with the input's values.  The frames the pairing
    step builds have distinct labels and carry neither [symbol] nor
    [timestamp]; every [update_one] of a trade filters on, and sets, the
    symbol of the trade itself. *)
Theorem run_returns_present_columns h df mf dfs :
  NoDup (columns df) ->
  fst (run h (Some df) mf) = RSuccess dfs ->
  (exists f model scores,
      mf = Some f /\ load_model h f = Some model
      /\ model (feature_matrix df) = Some scores
      /\ List.length scores = nrows df
      /\ lookup "confidence_score" (cols dfs)
         = Some (map score_value scores))
  /\ columns dfs
     = filter (fun c => String.eqb c "confidence_score"
                        || inb c (columns df))
              returned_names
  /\ nrows dfs = nrows df
  /\ (forall c, In c (columns dfs) -> c <> "confidence_score" ->
                lookup c (cols dfs) = lookup c (cols df))
  /\ (In "symbol" (columns dfs) <-> In "symbol" (columns df))
  /\ (In "timestamp" (columns dfs) <-> In "timestamp" (columns df))
  /\ (forall h' t evs b sid dfp,
        pairing h' t = (evs, Some (b, sid, dfp)) ->
        NoDup (columns dfp)
        /\ ~ In "symbol" (columns dfp) /\ ~ In "timestamp" (columns dfp))
  /\ (forall h' c' mf' t st f' u,
        In (UpdateOne f' u) (snd (process_trade h' c' mf' t st)) ->
        get "symbol" f' = VStr (symbol t)
        /\ get "symbol" u = VStr (symbol t)).
Proof.
  intros _ H. apply run_success_some in H. destruct H as (f & evs & -> & H).
  apply run_success_inv in H.
  destruct H as (model & scores & _ & Hl & Hm & Hlen & -> & _).
  assert (C := columns_returned df scores).
  assert (L := lookup_scored_frame df scores).
  assert (N : nrows (scored_frame df scores) = nrows df).
  { unfold scored_frame. rewrite nrows_setitem.
    apply nrows_with_buy_columns. }
  destruct (returned_frame_props df _ _ C L) as (P1 & P2 & P3 & P4).
  split.
  { exists f, model, scores. split; [reflexivity|]. split; [exact Hl|].
    split; [exact Hm|]. split; [exact Hlen | exact P1]. }
  split; [exact C|]. split; [rewrite nrows_getitem; exact N|].
  split; [exact P2|]. split; [exact P3|]. split; [exact P4|]. split.
  - intros h' t evs' b sid dfp Ep.
    split; [exact (pairing_distinct h' t _ _ _ _ Ep)|].
    apply pairing_some in Ep. destruct Ep as (_ & _ & _ & _ & Hc).
    split; intros Hin; apply Hc in Hin; apply inb_In in Hin;
      vm_compute in Hin; discriminate Hin.
  - intros h' c' mf' t st f' u Hin.
    assert (Hu : In (UpdateOne f' u)
                    (updates (snd (process_trade h' c' mf' t st)))).
    { unfold updates. apply filter_In. split; [exact Hin | reflexivity]. }
    assert (W := process_trade_writes h' c' mf' t st).
    rewrite Forall_forall in W.
    destruct (W _ Hu) as (b & sid & dfs' & v & k & _ & _ & _ & E).
    injection E as -> ->. split; reflexivity.
Qed.

Lemma run_returns_present_columns_witness :
  (NoDup (columns ex_frame)
   /\ fst (run (ex_host (3 # 4) []) (Some ex_frame)
               (Some "/app/sell_model.json"))
      = RSuccess (mkDF 1 [ ("symbol", [VStr "BTCUSDT"]);
                           ("confidence_score", [VNum (3 # 4)]);
                           ("open", [VNum 1]); ("sell_close", [VNum 4]) ]))
  /\ (In "symbol" ["symbol"; "confidence_score"; "open"; "sell_close"]
      <-> In "symbol" (columns ex_frame)).
Proof.
  assert (H0 : NoDup (columns ex_frame)).
  { repeat constructor; cbn; intuition discriminate. }
  assert (H : fst (run (ex_host (3 # 4) []) (Some ex_frame)
                       (Some "/app/sell_model.json"))
              = RSuccess (mkDF 1 [ ("symbol", [VStr "BTCUSDT"]);
                                   ("confidence_score", [VNum (3 # 4)]);
                                   ("open", [VNum 1]);
                                   ("sell_close", [VNum 4]) ]))
    by (vm_compute; reflexivity).
  split; [split; assumption|].
  exact (proj1 (proj2 (proj2 (proj2 (proj2
           (run_returns_present_columns _ _ _ _ H0 H)))))).
Defined.

Lemma same_key_refl d : same_key d d = true.
Proof. unfold same_key. now rewrite !value_eqb_refl. Qed.

Lemma same_key_trans a b c :
  same_key a b = true -> same_key b c = true -> same_key a c = true.
Proof.
  unfold same_key. rewrite !andb_true_iff. intros [H1 H2] [H3 H4].
  rewrite (value_eqb_cong _ _ _ H1), (value_eqb_cong _ _ _ H2). auto.
Qed.

Lemma update_one_length sym u oid store :
  List.length store
  <= List.length (update_one (signal_filter sym) u oid store).
Proof.
  induction store as [|d store IH]; [cbn; lia|].
  rewrite update_one_cons. destruct (has_key sym d); cbn [List.length]; lia.
Qed.

Lemma update_one_nth sym u oid store i d :
  nth_error store i = Some d ->
  nth_error (update_one (signal_filter sym) u oid store) i = Some d
  \/ (has_key sym d = true
      /\ nth_error (update_one (signal_filter sym) u oid store) i
         = Some (apply_set u d)).
Proof.
  revert i. induction store as [|x store IH]; intros [|i] H;
    cbn [nth_error] in H; try discriminate H; rewrite update_one_cons.
  - injection H as ->. destruct (has_key sym d) eqn:E;
      [right; split; reflexivity | left; reflexivity].
  - destruct (has_key sym x); cbn [nth_error]; [now left | now apply IH].
Qed.

Lemma signal_upserts_keeps allowed a b :
  signal_upserts allowed a b ->
  List.length a <= List.length b
  /\ forall i d,
       nth_error a i = Some d ->
       exists d',
         nth_error b i = Some d'
         /\ same_key d d' = true
         /\ (forall k, inb k signal_fields = false -> get k d' = get k d)
         /\ (d' = d
             \/ (get "trade_type" d = VStr "SELL"
                 /\ exists s, allowed s /\ get "symbol" d = VStr s)).
Proof.
  intros H. induction H as [store|store store' sym b sid v now oid H IH Ha].
  - split; [lia|]. intros i d Hd. exists d.
    split; [exact Hd|]. split; [apply same_key_refl|].
    split; [reflexivity | now left].
  - destruct IH as [L K]. split.
    + eapply Nat.le_trans; [exact L | apply update_one_length].
    + intros i d Hd. destruct (K i d Hd) as (d1 & N1 & S1 & G1 & C1).
      destruct (update_one_nth sym (signal_update sym b sid v now) oid
                               store' i d1 N1) as [N|[Hk N]].
      * exists d1. repeat split; assumption.
      * exists (apply_set (signal_update sym b sid v now) d1).
        split; [exact N|].
        assert (S2 : same_key d1 (apply_set (signal_update sym b sid v now)
                                            d1) = true).
        { rewrite (same_key_of_has_key sym d1 _ Hk). apply has_key_updated. }
        split; [exact (same_key_trans _ _ _ S1 S2)|]. split.
        { intros k Hkf. rewrite get_apply_signal_update.
          unfold signal_fields in Hkf. rewrite Hkf. now apply G1. }
        right. destruct C1 as [->|C1]; [|exact C1].
        apply has_key_iff in Hk. destruct Hk as [Hs Ht].
        split; [exact Ht|]. exists sym. split; assumption.
Qed.

(** X6: a run deletes and moves nothing: the collection does not shrink,
    and every stored document is found after the run at the same place
    with the same (symbol, trade_type) key and the same value in every
    field other than the six a signal write sets; a document whose trade
    type is not "SELL", or whose symbol is the symbol of no active trade,
    is found unchanged. *)
Theorem run_keeps_documents h suggested i d :
  nth_error suggested i = Some d ->
  List.length suggested
  <= List.length (fst (orchestrator_stage2_sell h suggested))
  /\ exists d',
       nth_error (fst (orchestrator_stage2_sell h suggested)) i = Some d'
       /\ same_key d d' = true
       /\ (forall k, inb k signal_fields = false -> get k d' = get k d)
       /\ (get "trade_type" d <> VStr "SELL" -> d' = d)
       /\ ((forall t, In t (active_trades h) ->
                      get "symbol" d <> VStr (symbol t)) -> d' = d).
Proof.
  intros Hd.
  destruct (signal_upserts_keeps _ _ _ (proj1 (orchestrator_store h suggested)))
    as [L K].
  split; [exact L|].
  destruct (K i d Hd) as (d' & N & S & G & C).
  exists d'. split; [exact N|]. split; [exact S|]. split; [exact G|]. split.
  - intros Ht. destruct C as [C|[C _]]; [exact C | contradiction].
  - intros Hs. destruct C as [C|[_ (s & (t & Hin & Hsym & _) & E)]];
      [exact C|].
    exfalso. apply (Hs t Hin). rewrite Hsym. exact E.
Qed.

Lemma run_keeps_documents_witness :
  nth_error [ex_old_signal] 0 = Some ex_old_signal
  /\ List.length [ex_old_signal]
     <= List.length (fst (orchestrator_stage2_sell
                            (ex_host (9 # 10) [ex_T1]) [ex_old_signal])).
Proof.
  split; [reflexivity|].
  exact (proj1 (run_keeps_documents (ex_host (9 # 10) [ex_T1])
                                    [ex_old_signal] 0 ex_old_signal eq_refl)).
Defined.

(** * Running twice *)

Lemma without_field_assign_same k v (d : Doc) :
  without_field k (assign k v d) = without_field k d.
Proof.
  unfold without_field. induction d as [|[k0 v0] d IH]; cbn [assign filter fst].
  - now rewrite String.eqb_refl.
  - destruct (String.eqb_spec k k0) as [->|Hne]; cbn [filter fst].
    + now rewrite String.eqb_refl.
    + destruct (String.eqb_spec k k0); [contradiction|].
      cbn [negb]. now rewrite IH.
Qed.

Lemma without_field_assign_other k k' v (d : Doc) :
  k <> k' ->
  without_field k (assign k' v d) = assign k' v (without_field k d).
Proof.
  intros Hne. unfold without_field.
  induction d as [|[k0 v0] d IH]; cbn [assign filter fst].
  - destruct (String.eqb_spec k k'); [contradiction | reflexivity].
  - destruct (String.eqb_spec k' k0) as [->|Hne0]; cbn [filter fst].
    + destruct (String.eqb_spec k k0); [contradiction|].
      cbn [negb assign]. now rewrite String.eqb_refl.
    + destruct (String.eqb_spec k k0) as [->|Hk]; cbn [negb].
      * exact IH.
      * cbn [assign]. destruct (String.eqb_spec k' k0); [contradiction|].
        now rewrite IH.
Qed.

Lemma get_without_field k k' (d : Doc) :
  k <> k' -> get k (without_field k' d) = get k d.
Proof.
  intros Hne. unfold get, without_field.
  induction d as [|[k0 v0] d IH]; [reflexivity|].
  cbn [filter fst lookup].
  destruct (String.eqb_spec k' k0) as [->|Hk]; cbn [negb lookup].
  - destruct (String.eqb_spec k k0); [contradiction | exact IH].
  - destruct (String.eqb k k0); [reflexivity | exact IH].
Qed.

Lemma has_key_without_created_at sym d :
  has_key sym (without_field "created_at" d) = has_key sym d.
Proof.
  unfold has_key. now rewrite !get_without_field by discriminate.
Qed.

Lemma without_created_at_update sym b sid v now d :
  without_field "created_at" (apply_set (signal_update sym b sid v now) d)
  = apply_set (signal_record sym b sid v) (without_field "created_at" d).
Proof.
  unfold apply_set, signal_update, signal_record.
  cbn [app fold_left fst snd].
  rewrite without_field_assign_same.
  now rewrite !without_field_assign_other by discriminate.
Qed.

Lemma without_created_at_update_one sym b sid v now oid store :
  without_created_at
    (update_one (signal_filter sym) (signal_update sym b sid v now) oid store)
  = update_one (signal_filter sym) (signal_record sym b sid v) oid
               (without_created_at store).
Proof.
  unfold without_created_at.
  induction store as [|d store IH].
  - reflexivity.
  - cbn [map]. rewrite !update_one_cons, has_key_without_created_at.
    destruct (has_key sym d); cbn [map].
    + now rewrite without_created_at_update.
    + now rewrite IH.
Qed.

Lemma without_created_at_writes h sym b sid vs n m store :
  without_created_at
    (apply_updates h m (signal_writes h sym b sid vs n) store)
  = apply_records (generated_id h) m
                  (map (fun v => (sym, signal_record sym b sid v)) vs)
                  (without_created_at store).
Proof.
  revert n m store.
  induction vs as [|v vs IH]; intros n m store; [reflexivity|].
  cbn [signal_writes map apply_updates apply_records fst snd].
  now rewrite IH, without_created_at_update_one.
Qed.

Lemma apply_records_app ids n a b store :
  apply_records ids n (a ++ b) store
  = apply_records ids (n + List.length a) b (apply_records ids n a store).
Proof.
  revert n store. induction a as [|r a IH]; intros n store.
  - cbn [app apply_records List.length]. now rewrite Nat.add_0_r.
  - cbn [app apply_records List.length]. rewrite IH.
    now rewrite Nat.add_succ_r.
Qed.

(** The number of [update_one] calls a trade makes when none raises. *)
Lemma process_trade_calls h c mf t st :
  (forall k, update_raises h k = false) ->
  calls (fst (process_trade h c mf t st))
  = calls st + List.length (trade_records h mf t).
Proof.
  intros Hok. unfold trade_records.
  destruct (scored h mf t) as [[[b sid] dfs]|] eqn:Es.
  - destruct (scored_shape h mf t b sid dfs Es) as (H1 & H3 & H2 & H4 & H5).
    destruct (process_trade_scored h c mf t st b sid dfs Es)
      as (evs0 & _ & ->).
    cbn [fst].
    rewrite (persist_scored h c (symbol t) b sid dfs st _ H1 H2 H3 H4 H5).
    rewrite length_map.
    assert (N : forallb isnull (column "confidence_score" dfs) = true ->
                filter ge_threshold (column "confidence_score" dfs) = []).
    { intros Hn. rewrite forallb_forall in Hn.
      destruct (filter ge_threshold _) as [|q qs] eqn:Eq; [reflexivity|].
      assert (Hq : In q (filter ge_threshold (column "confidence_score" dfs)))
        by (rewrite Eq; now left).
      apply filter_In in Hq. destruct Hq as [Hin Hge].
      specialize (Hn q Hin).
      destruct q; try discriminate Hn; discriminate Hge. }
    destruct (forallb isnull _).
    { rewrite N by reflexivity. cbn [fst List.length]. lia. }
    destruct (filter ge_threshold _) as [|q qs] eqn:Eq.
    { cbn [fst List.length]. lia. }
    cbv beta iota zeta. rewrite save_loop_ok by exact Hok.
    cbn [fst calls]. lia.
  - destruct (process_trade_unscored h c mf t st Es) as [-> _].
    cbn [List.length]. lia.
Qed.

Lemma process_trade_erased h c mf t st :
  (forall k, update_raises h k = false) ->
  without_created_at (coll (fst (process_trade h c mf t st)))
  = apply_records (generated_id h) (calls st) (trade_records h mf t)
                  (without_created_at (coll st)).
Proof.
  intros Hok. unfold trade_records.
  destruct (scored h mf t) as [[[b sid] dfs]|] eqn:Es.
  - destruct (process_trade_ok h c mf t st b sid dfs Es Hok) as [W ->].
    rewrite W. apply without_created_at_writes.
  - destruct (process_trade_unscored h c mf t st Es) as [-> _]. reflexivity.
Qed.

Lemma process_trades_erased h c mf trades st :
  (forall k, update_raises h k = false) ->
  without_created_at (coll (fst (process_trades h c mf trades st)))
  = apply_records (generated_id h) (calls st) (run_records h mf trades)
                  (without_created_at (coll st)).
Proof.
  intros Hok. revert st. induction trades as [|t rest IH]; intros st;
    [reflexivity|].
  rewrite process_trades_cons. cbn [fst].
  unfold run_records in *. cbn [flat_map].
  rewrite apply_records_app, IH, process_trade_erased by exact Hok.
  now rewrite process_trade_calls by exact Hok.
Qed.

Lemma orchestrator_erased h suggested :
  (forall k, update_raises h k = false) ->
  without_created_at (fst (orchestrator_stage2_sell h suggested))
  = apply_records (generated_id h) 0 (orchestrator_records h)
                  (without_created_at suggested).
Proof.
  intros Hok. unfold orchestrator_records, startup_ok.
  unfold orchestrator_stage2_sell. cbv zeta. fold (model_file_of h).
  destruct (file_exists h (path_join (base_dir h) ".env")); cbn [negb andb];
    [|reflexivity].
  destruct (_ || _); cbn [negb andb]; [reflexivity|].
  destruct (file_exists h (model_file_of h)); cbn [negb andb]; [|reflexivity].
  destruct (connect_ok h); cbn [negb]; [|reflexivity].
  destruct (active_trades h) as [|t0 l0]; [reflexivity|].
  assert (P := process_trades_erased h
                 (getenv h "SUGGESTED_TRADES_COLLECTION") (model_file_of h)
                 (t0 :: l0) (mkSt suggested 0) Hok).
  destruct (process_trades h _ (model_file_of h) (t0 :: l0) _) as [st evs].
  exact P.
Qed.

Lemma pairing_with_clock h clock t :
  pairing (with_clock h clock) t = pairing h t.
Proof. reflexivity. Qed.

Lemma run_with_clock h clock data mf :
  run (with_clock h clock) data mf = run h data mf.
Proof. reflexivity. Qed.

Lemma scored_with_clock h clock mf t :
  scored (with_clock h clock) mf t = scored h mf t.
Proof.
  unfold scored. rewrite pairing_with_clock.
  destruct (pairing h t) as [evs [[[b sid] df]|]]; [|reflexivity].
  now rewrite run_with_clock.
Qed.

Lemma orchestrator_records_with_clock h clock :
  orchestrator_records (with_clock h clock) = orchestrator_records h.
Proof.
  unfold orchestrator_records.
  change (startup_ok (with_clock h clock)) with (startup_ok h).
  change (model_file_of (with_clock h clock)) with (model_file_of h).
  change (active_trades (with_clock h clock)) with (active_trades h).
  destruct (startup_ok h); [|reflexivity].
  unfold run_records. induction (active_trades h) as [|t l IH]; [reflexivity|].
  cbn [flat_map]. rewrite IH. f_equal.
Qed.

Lemma assign_noop {V : Type} (k : string) (v : V) d :
  lookup k d = Some v -> assign k v d = d.
Proof.
  induction d as [|[k0 v0] d IH]; cbn [lookup assign]; [discriminate|].
  destruct (String.eqb_spec k k0) as [->|Hne].
  - intros H. injection H as ->. reflexivity.
  - intros H. now rewrite IH.
Qed.

Lemma apply_set_noop (u y : Doc) :
  (forall k v, In (k, v) u -> lookup k y = Some v) -> apply_set u y = y.
Proof.
  unfold apply_set. induction u as [|[k v] u IH]; intros H; [reflexivity|].
  cbn [fold_left fst snd].
  rewrite assign_noop by (apply H; now left).
  apply IH. intros k' v' Hin. apply H. now right.
Qed.

Lemma lookup_apply_signal_record sym b sid v d k x :
  In (k, x) (signal_record sym b sid v) ->
  lookup k (apply_set (signal_record sym b sid v) d) = Some x.
Proof.
  unfold apply_set, signal_record. cbn [fold_left fst snd In].
  intros H. rewrite !lookup_assign.
  repeat (destruct H as [H|H];
          [injection H as <- <-; reflexivity|]).
  contradiction.
Qed.

Lemma apply_signal_record_idem sym b sid v d :
  apply_set (signal_record sym b sid v)
            (apply_set (signal_record sym b sid v) d)
  = apply_set (signal_record sym b sid v) d.
Proof.
  apply apply_set_noop. intros k x. apply lookup_apply_signal_record.
Qed.

Lemma has_key_signal_record sym b sid v d :
  has_key sym (apply_set (signal_record sym b sid v) d) = true.
Proof.
  apply has_key_iff. unfold get.
  rewrite (lookup_apply_signal_record sym b sid v d "symbol" (VStr sym))
    by (now left).
  rewrite (lookup_apply_signal_record sym b sid v d "trade_type"
                                      (VStr "SELL"))
    by (right; now left).
  split; reflexivity.
Qed.

Lemma has_key_other sym sym' d :
  sym <> sym' -> has_key sym d = true -> has_key sym' d = false.
Proof.
  intros Hne H. destruct (has_key sym' d) eqn:E; [|reflexivity].
  apply has_key_iff in H, E. destruct H as [H _], E as [E _].
  rewrite H in E. injection E as E. contradiction.
Qed.

Lemma apply_set_under_id sym b sid v oid d :
  apply_set (signal_record sym b sid v) (("_id", VOid oid) :: d)
  = ("_id", VOid oid) :: apply_set (signal_record sym b sid v) d.
Proof. reflexivity. Qed.

Lemma update_one_absorbs sym u oid oid' store :
  (forall d, has_key sym (apply_set u d) = true) ->
  (forall d, apply_set u (apply_set u d) = apply_set u d) ->
  (forall o d, apply_set u (("_id", VOid o) :: d)
               = ("_id", VOid o) :: apply_set u d) ->
  update_one (signal_filter sym) u oid'
             (update_one (signal_filter sym) u oid store)
  = update_one (signal_filter sym) u oid store.
Proof.
  intros K I J. induction store as [|x store IH].
  - change (update_one (signal_filter sym) u oid [])
      with [("_id", VOid oid) :: apply_set u (signal_filter sym)].
    rewrite update_one_cons, has_key_with_id, K, J, I. reflexivity.
  - rewrite (update_one_cons sym u oid x store).
    destruct (has_key sym x) eqn:E; rewrite update_one_cons.
    + now rewrite K, I.
    + now rewrite E, IH.
Qed.

Lemma update_one_commutes sym sym' u u' oid oid' store :
  sym <> sym' ->
  (forall d, has_key sym (apply_set u d) = true) ->
  (forall d, has_key sym' (apply_set u' d) = true) ->
  existsb (has_key sym) store = true ->
  update_one (signal_filter sym) u oid
             (update_one (signal_filter sym') u' oid' store)
  = update_one (signal_filter sym') u' oid'
               (update_one (signal_filter sym) u oid store).
Proof.
  intros Hne K K'. induction store as [|x store IH]; [discriminate|].
  cbn [existsb]. intros Hex.
  rewrite (update_one_cons sym' u' oid' x store),
    (update_one_cons sym u oid x store).
  destruct (has_key sym x) eqn:E.
  - rewrite (has_key_other sym sym' x Hne E).
    rewrite !update_one_cons, E.
    now rewrite (has_key_other sym sym' _ Hne (K x)).
  - cbn [orb] in Hex. destruct (has_key sym' x) eqn:E'.
    + rewrite !update_one_cons, E'.
      assert (Hne' : sym' <> sym) by congruence.
      now rewrite (has_key_other sym' sym _ Hne' (K' x)).
    + rewrite !update_one_cons, E, E'. now rewrite IH.
Qed.

Lemma fixed_has_match sym u oid store :
  update_one (signal_filter sym) u oid store = store ->
  existsb (has_key sym) store = true.
Proof.
  intros H. destruct (existsb (has_key sym) store) eqn:E; [reflexivity|].
  exfalso. rewrite update_one_no_match in H.
  - apply (f_equal (@List.length Doc)) in H. rewrite length_app in H.
    cbn [List.length] in H. lia.
  - intros d Hd. destruct (has_key sym d) eqn:Ed; [|reflexivity].
    assert (X : existsb (has_key sym) store = true)
      by (apply existsb_exists; exists d; split; assumption).
    congruence.
Qed.

Lemma fixed_through_records ids n r0 oid rs store :
  (forall d, has_key (fst r0) (apply_set (snd r0) d) = true) ->
  (forall r, In r rs ->
     fst r <> fst r0
     /\ forall d, has_key (fst r) (apply_set (snd r) d) = true) ->
  update_one (signal_filter (fst r0)) (snd r0) oid store = store ->
  update_one (signal_filter (fst r0)) (snd r0) oid
             (apply_records ids n rs store)
  = apply_records ids n rs store.
Proof.
  intros K0. revert n store.
  induction rs as [|r rs IH]; intros n store H Hfix; [exact Hfix|].
  cbn [apply_records]. apply IH.
  - intros r' Hr'. apply H. now right.
  - destruct (H r (or_introl eq_refl)) as [Hne K].
    rewrite update_one_commutes;
      [now rewrite Hfix | congruence | exact K0 | exact K
       | exact (fixed_has_match _ _ _ _ Hfix)].
Qed.

Lemma records_fix_their_result ids n rs store :
  NoDup (map fst rs) ->
  (forall r, In r rs ->
     (forall d, has_key (fst r) (apply_set (snd r) d) = true)
     /\ (forall d, apply_set (snd r) (apply_set (snd r) d)
                   = apply_set (snd r) d)
     /\ (forall o d, apply_set (snd r) (("_id", VOid o) :: d)
                     = ("_id", VOid o) :: apply_set (snd r) d)) ->
  forall r oid, In r rs ->
    update_one (signal_filter (fst r)) (snd r) oid
               (apply_records ids n rs store)
    = apply_records ids n rs store.
Proof.
  revert n store.
  induction rs as [|r0 rs IH]; intros n store Hnd Hp r oid Hr;
    [contradiction|].
  cbn [map] in Hnd. apply NoDup_cons_iff in Hnd. destruct Hnd as [Hnot Hnd].
  cbn [apply_records].
  destruct Hr as [<-|Hr].
  - destruct (Hp r0 (or_introl eq_refl)) as (K & I & J).
    apply fixed_through_records; [exact K | | now apply update_one_absorbs].
    intros r' Hr'. split.
    + intros E. apply Hnot. rewrite <- E. now apply in_map.
    + apply Hp. now right.
  - apply IH; [exact Hnd | | exact Hr].
    intros r' Hr'. apply Hp. now right.
Qed.

Lemma apply_records_fixed ids n rs store :
  (forall r oid, In r rs ->
     update_one (signal_filter (fst r)) (snd r) oid store = store) ->
  apply_records ids n rs store = store.
Proof.
  revert n. induction rs as [|r rs IH]; intros n H; [reflexivity|].
  cbn [apply_records]. rewrite (H r _ (or_introl eq_refl)).
  apply IH. intros r' oid Hr'. apply H. now right.
Qed.

Lemma apply_records_idempotent ids ids' n n' rs store :
  NoDup (map fst rs) ->
  (forall r, In r rs ->
     exists b sid v, snd r = signal_record (fst r) b sid v) ->
  apply_records ids' n' rs (apply_records ids n rs store)
  = apply_records ids n rs store.
Proof.
  intros Hnd Hs. apply apply_records_fixed.
  apply records_fix_their_result; [exact Hnd|].
  intros r Hr. destruct (Hs r Hr) as (b & sid & v & ->).
  split; [|split]; intros;
    [apply has_key_signal_record | apply apply_signal_record_idem
     | apply apply_set_under_id].
Qed.

Lemma nrows_concat_axis1 a b :
  nrows (concat_axis1 a b) = Nat.max (nrows a) (nrows b).
Proof. reflexivity. Qed.

Lemma nrows_add_prefix p df : nrows (add_prefix p df) = nrows df.
Proof. reflexivity. Qed.

Lemma nrows_pd_DataFrame docs : nrows (pd_DataFrame docs) = List.length docs.
Proof. reflexivity. Qed.

Lemma pairing_nrows h t evs b sid df :
  pairing h t = (evs, Some (b, sid, df)) ->
  nrows df = Nat.max (List.length (find_by_id (historical h) b))
                     (List.length (find_latest (historical h) (symbol t))).
Proof.
  intros H. apply (f_equal snd) in H. cbn [snd] in H.
  unfold pairing in H. cbv zeta in H.
  destruct (truthy (buyid t)); cbn [negb] in H; [|discriminate H].
  destruct (bson_ObjectId h (buyid t)) as [o|]; [|discriminate H].
  destruct (empty (pd_DataFrame (find_by_id (historical h) o)));
    [discriminate H|].
  destruct (empty (pd_DataFrame (find_latest (historical h) (symbol t))));
    [discriminate H|].
  cbn [snd] in H.
  remember (concat_axis1 _ _) as X eqn:EX in H.
  remember (nth 0 _ _) as Y eqn:EY in H.
  injection H as Ho Hs Hd. subst o df.
  rewrite EX, nrows_concat_axis1, !nrows_getitem, nrows_add_prefix,
    !nrows_pd_DataFrame.
  reflexivity.
Qed.

Lemma scored_nrows h mf t b sid dfs :
  scored h mf t = Some (b, sid, dfs) ->
  exists evs df,
    pairing h t = (evs, Some (b, sid, df)) /\ nrows dfs = nrows df.
Proof.
  unfold scored. intros H.
  destruct (pairing h t) as [evs [[[b0 sid0] df]|]] eqn:Ep; [|discriminate H].
  destruct (run h (Some df) (Some mf)) as [r evs'] eqn:Er.
  cbn [fst] in H. destruct r as [m|dfs0|e]; [discriminate H| |discriminate H].
  injection H as -> -> ->.
  exists evs, df. split; [reflexivity|].
  apply run_success_inv in Er.
  destruct Er as (model & scores & _ & _ & _ & _ & -> & _).
  rewrite nrows_getitem. unfold scored_frame.
  rewrite nrows_setitem. apply nrows_with_buy_columns.
Qed.

Lemma filter_length {A : Type} (p : A -> bool) (l : list A) :
  List.length (filter p l) <= List.length l.
Proof.
  induction l as [|x l IH]; [cbn; lia|].
  cbn [filter]. destruct (p x); cbn [List.length]; lia.
Qed.

Lemma find_latest_short hist sym : List.length (find_latest hist sym) <= 1.
Proof.
  destruct (find_latest_cases hist sym) as [->|(s & _ & _ & ->)]; cbn; lia.
Qed.

Lemma trade_records_short h mf t :
  (forall o, List.length (find_by_id (historical h) o) <= 1) ->
  List.length (trade_records h mf t) <= 1.
Proof.
  intros Hid. unfold trade_records.
  destruct (scored h mf t) as [[[b sid] dfs]|] eqn:Es; [|cbn; lia].
  rewrite length_map.
  eapply Nat.le_trans; [apply filter_length|].
  destruct (scored_shape h mf t b sid dfs Es) as (_ & -> & _).
  destruct (scored_nrows h mf t b sid dfs Es) as (evs & df & Ep & ->).
  rewrite (pairing_nrows h t evs b sid df Ep).
  specialize (Hid b).
  assert (L := find_latest_short (historical h) (symbol t)). lia.
Qed.

Lemma trade_records_signal h mf t r :
  In r (trade_records h mf t) ->
  fst r = symbol t /\ exists b sid v, snd r = signal_record (fst r) b sid v.
Proof.
  unfold trade_records.
  destruct (scored h mf t) as [[[b sid] dfs]|]; [|contradiction].
  intros H. apply in_map_iff in H. destruct H as (v & <- & _).
  split; [reflexivity|]. exists b, sid, v. reflexivity.
Qed.

Lemma run_records_signal h mf trades r :
  In r (run_records h mf trades) ->
  (exists t, In t trades /\ fst r = symbol t)
  /\ exists b sid v, snd r = signal_record (fst r) b sid v.
Proof.
  unfold run_records. intros H. apply in_flat_map in H.
  destruct H as (t & Ht & Hr).
  destruct (trade_records_signal h mf t r Hr) as [Hs Hsig].
  split; [exists t; split; assumption | exact Hsig].
Qed.

Lemma run_records_nodup h mf trades :
  (forall o, List.length (find_by_id (historical h) o) <= 1) ->
  NoDup (map symbol trades) ->
  NoDup (map fst (run_records h mf trades)).
Proof.
  intros Hid. induction trades as [|t rest IH]; intros Hnd; [constructor|].
  cbn [map] in Hnd. apply NoDup_cons_iff in Hnd. destruct Hnd as [Hnot Hnd].
  unfold run_records in *. cbn [flat_map]. rewrite map_app.
  assert (Hshort := trade_records_short h mf t Hid).
  assert (Hsig := trade_records_signal h mf t).
  destruct (trade_records h mf t) as [|r [|r' l]];
    [apply IH; exact Hnd | | cbn [List.length] in Hshort; lia].
  cbn [map app]. constructor; [|apply IH; exact Hnd].
  intros Hin. apply in_map_iff in Hin. destruct Hin as (r2 & E & Hr2).
  destruct (run_records_signal h mf rest r2 Hr2) as [(t2 & Ht2 & Hs2) _].
  destruct (Hsig r (or_introl eq_refl)) as [Hs _].
  apply Hnot. rewrite <- Hs, <- E, Hs2. now apply in_map.
Qed.

(** X11: on a host whose storage accepts the writes, with at most one
    active trade per symbol and at most one snapshot per [_id], a second
    run at a later time over the same trades, snapshots and model leaves
    the collection of the first run as it is in everything but the
    creation times: the same documents at the same places, and no
    document more. *)
Theorem second_run_changes_only_created_at h clock suggested :
  (forall k, update_raises h k = false) ->
  NoDup (map symbol (active_trades h)) ->
  (forall o, List.length (find_by_id (historical h) o) <= 1) ->
  let first := fst (orchestrator_stage2_sell h suggested) in
  let second := fst (orchestrator_stage2_sell (with_clock h clock) first) in
  without_created_at second = without_created_at first
  /\ List.length second = List.length first.
Proof.
  intros Hok Hnd Hid first second.
  assert (E : without_created_at second = without_created_at first).
  { unfold second.
    rewrite (orchestrator_erased (with_clock h clock) first Hok).
    rewrite orchestrator_records_with_clock. unfold first.
    rewrite (orchestrator_erased h suggested Hok).
    apply apply_records_idempotent.
    - unfold orchestrator_records. destruct (startup_ok h); [|constructor].
      now apply run_records_nodup.
    - intros r Hr. unfold orchestrator_records in Hr.
      destruct (startup_ok h); [|contradiction].
      exact (proj2 (run_records_signal h _ _ r Hr)). }
  split; [exact E|].
  apply (f_equal (@List.length Doc)) in E.
  unfold without_created_at in E. now rewrite !length_map in E.
Qed.

Lemma second_run_changes_only_created_at_witness :
  (NoDup (map symbol (active_trades (ex_host (9 # 10) [ex_T1])))
   /\ forall o,
        List.length (find_by_id (historical (ex_host (9 # 10) [ex_T1])) o)
        <= 1)
  /\ List.length
       (fst (orchestrator_stage2_sell
               (with_clock (ex_host (9 # 10) [ex_T1]) (fun _ => 5000%Z))
               (fst (orchestrator_stage2_sell (ex_host (9 # 10) [ex_T1])
                                              []))))
     = List.length (fst (orchestrator_stage2_sell (ex_host (9 # 10) [ex_T1])
                                                  [])).
Proof.
  assert (H1 : NoDup (map symbol (active_trades (ex_host (9 # 10) [ex_T1])))).
  { repeat constructor. intros []. }
  assert (H2 : forall o,
             List.length (find_by_id (historical (ex_host (9 # 10) [ex_T1])) o)
             <= 1).
  { intros o. unfold find_by_id. rewrite length_map.
    cbn [historical ex_host filter]. unfold ex_S1, ex_S2.
    cbn [snap_id value_eqb].
    destruct (String.eqb "5f0000000000000000000001" o) eqn:E1;
      destruct (String.eqb "5f0000000000000000000002" o) eqn:E2;
      cbn [List.length]; try lia.
    apply String.eqb_eq in E1, E2. subst o. discriminate E2. }
  split; [split; assumption|].
  exact (proj2 (second_run_changes_only_created_at
                  (ex_host (9 # 10) [ex_T1]) (fun _ => 5000%Z) []
                  (fun _ => eq_refl) H1 H2)).
Defined.

(** * Trades that do not qualify, trades that do *)

(** X14: a trade that does not qualify, whether it is skipped by the
    pairing step, fails in the scoring step, or has no score that passes
    the threshold, leaves the state as it was and issues no
    [update_one]; the loop over a list that contains it ends in the same
    state, with the same writes, as the loop over the list without it. *)
Theorem unqualified_trade_is_isolated h c mf t :
  qualifies h mf t = false ->
  (forall st, fst (process_trade h c mf t st) = st
              /\ updates (snd (process_trade h c mf t st)) = [])
  /\ (forall pre post st,
        fst (process_trades h c mf (pre ++ t :: post) st)
        = fst (process_trades h c mf (pre ++ post) st)
        /\ updates (snd (process_trades h c mf (pre ++ t :: post) st))
           = updates (snd (process_trades h c mf (pre ++ post) st))
        /\ snd (process_trades h c mf (pre ++ t :: post) st)
           = snd (process_trades h c mf pre st)
             ++ snd (process_trade h c mf t
                                   (fst (process_trades h c mf pre st)))
             ++ snd (process_trades h c mf post
                                    (fst (process_trades h c mf pre st)))).
Proof.
  intros Hq.
  assert (K : forall st, fst (process_trade h c mf t st) = st
                         /\ updates (snd (process_trade h c mf t st)) = []).
  { intros st. exact (proj2 (proj2 (process_trade_store h c mf t st)) Hq). }
  split; [exact K|].
  intros pre post st. apply skipped_in_the_loop. exact K.
Qed.

Lemma unqualified_trade_is_isolated_witness :
  qualifies (ex_host (5 # 10) [ex_T1]) "/app/sell_model.json" ex_T1 = false
  /\ fst (process_trade (ex_host (5 # 10) [ex_T1]) (Some "suggested")
                        "/app/sell_model.json" ex_T1
                        (mkSt [ex_old_signal] 0))
     = mkSt [ex_old_signal] 0.
Proof.
  assert (H : qualifies (ex_host (5 # 10) [ex_T1]) "/app/sell_model.json"
                        ex_T1 = false) by (vm_compute; reflexivity).
  split; [exact H|].
  exact (proj1 (proj1 (unqualified_trade_is_isolated
                         (ex_host (5 # 10) [ex_T1]) (Some "suggested")
                         "/app/sell_model.json" ex_T1 H)
                      (mkSt [ex_old_signal] 0))).
Defined.

Lemma update_one_establishes sym u oid store :
  exists i x,
    nth_error (update_one (signal_filter sym) u oid store) i
    = Some (apply_set u x)
    \/ nth_error (update_one (signal_filter sym) u oid store) i
       = Some (("_id", VOid oid) :: apply_set u x).
Proof.
  induction store as [|d store IH].
  - exists 0, (signal_filter sym). right. reflexivity.
  - rewrite update_one_cons. destruct (has_key sym d).
    + exists 0, d. left. reflexivity.
    + destruct IH as (i & x & H). exists (S i), x. exact H.
Qed.

Lemma get_with_id k oid d :
  k <> "_id" -> get k (("_id", VOid oid) :: d) = get k d.
Proof.
  intros H. unfold get. cbn [lookup].
  destruct (String.eqb_spec k "_id"); [contradiction | reflexivity].
Qed.

Lemma holds_signal_after_write sym b sid q now oid store :
  (float32 MIN_SELL_SCORE <= q)%Q ->
  holds_signal sym
    (update_one (signal_filter sym) (signal_update sym b sid (VNum q) now)
                oid store).
Proof.
  intros Hle.
  destruct (update_one_establishes sym (signal_update sym b sid (VNum q) now)
                                   oid store) as (i & x & [N|N]).
  - eexists i, _, q. split; [exact N|].
    split; [apply has_key_updated|].
    split; [|exact Hle]. rewrite get_apply_signal_update. reflexivity.
  - eexists i, _, q. split; [exact N|].
    split; [rewrite has_key_with_id; apply has_key_updated|].
    split; [|exact Hle].
    rewrite get_with_id by discriminate.
    rewrite get_apply_signal_update. reflexivity.
Qed.

Lemma holds_signal_kept sym s b sid q now oid store :
  (float32 MIN_SELL_SCORE <= q)%Q ->
  holds_signal sym store ->
  holds_signal sym
    (update_one (signal_filter s) (signal_update s b sid (VNum q) now)
                oid store).
Proof.
  intros Hle (i & d & q0 & N & K & G & L).
  destruct (update_one_nth s (signal_update s b sid (VNum q) now) oid
                           store i d N) as [N'|[Ks N']].
  - exists i, d, q0. repeat split; assumption.
  - exists i, (apply_set (signal_update s b sid (VNum q) now) d), q.
    split; [exact N'|]. split.
    + rewrite <- (same_key_of_has_key sym d _ K).
      rewrite (same_key_to_has_key s d); [exact Ks | apply has_key_updated].
    + split; [|exact Hle]. rewrite get_apply_signal_update. reflexivity.
Qed.

Lemma save_loop_keeps_signal h sym s b sid vs st :
  (forall v, In v vs -> ge_threshold v = true) ->
  holds_signal sym (coll st) ->
  holds_signal sym
    (coll (fst (fst (save_loop h (map (signal_record s b sid) vs) st)))).
Proof.
  revert st. induction vs as [|v vs IH]; intros st Hge H; [exact H|].
  rewrite save_loop_signal_cons. cbv zeta.
  destruct (update_raises h (calls st)); [exact H|].
  assert (Hv := Hge v (or_introl eq_refl)).
  destruct (ge_threshold_numeric v Hv) as (q & -> & Hle).
  specialize (IH (mkSt (update_one (signal_filter s)
                          (signal_update s b sid (VNum q)
                                         (utcnow h (calls st)))
                          (generated_id h (calls st))
                          (coll st)) (S (calls st)))).
  destruct (save_loop h (map (signal_record s b sid) vs) _)
    as [[st' evs] ok].
  cbn [fst coll] in *. apply IH.
  - intros v' Hv'. apply Hge. now right.
  - now apply holds_signal_kept.
Qed.

(** No trade takes a qualifying signal of another trade away. *)
Lemma process_trade_keeps_signal h c mf t st sym :
  holds_signal sym (coll st) ->
  holds_signal sym (coll (fst (process_trade h c mf t st))).
Proof.
  intros H.
  destruct (scored h mf t) as [[[b sid] dfs]|] eqn:Es.
  2:{ now destruct (process_trade_unscored h c mf t st Es) as [-> _]. }
  destruct (scored_shape h mf t b sid dfs Es) as (H1 & H3 & H2 & H4 & H5).
  destruct (process_trade_scored h c mf t st b sid dfs Es) as (evs0 & _ & ->).
  cbn [fst].
  rewrite (persist_scored h c (symbol t) b sid dfs st _ H1 H2 H3 H4 H5).
  destruct (forallb isnull _); [exact H|].
  destruct (filter ge_threshold _) as [|q0 qs] eqn:Eq; [exact H|].
  cbv beta iota zeta.
  assert (K := save_loop_keeps_signal h sym (symbol t) b sid (q0 :: qs) st).
  destruct (save_loop h _ st) as [[st' evs] ok]. cbn [fst] in *.
  apply K; [|exact H].
  intros v Hv. rewrite <- Eq in Hv. apply filter_In in Hv. tauto.
Qed.

Lemma process_trades_keep_signal h c mf trades st sym :
  holds_signal sym (coll st) ->
  holds_signal sym (coll (fst (process_trades h c mf trades st))).
Proof.
  revert st. induction trades as [|t rest IH]; intros st H; [exact H|].
  rewrite process_trades_cons. cbn [fst].
  apply IH. now apply process_trade_keeps_signal.
Qed.

(** A qualifying trade leaves its signal in the collection. *)
Lemma process_trade_stores_signal h c mf t st :
  (forall k, update_raises h k = false) ->
  qualifies h mf t = true ->
  holds_signal (symbol t) (coll (fst (process_trade h c mf t st))).
Proof.
  intros Hok Hq. unfold qualifies in Hq.
  destruct (scored h mf t) as [[[b sid] dfs]|] eqn:Es; [|discriminate Hq].
  destruct (scored_shape h mf t b sid dfs Es) as (H1 & H3 & H2 & H4 & H5).
  destruct (process_trade_scored h c mf t st b sid dfs Es) as (evs0 & _ & ->).
  cbn [fst].
  rewrite (persist_scored h c (symbol t) b sid dfs st _ H1 H2 H3 H4 H5).
  apply existsb_exists in Hq. destruct Hq as (v & Hv & Hge).
  assert (Hf : In v (filter ge_threshold (column "confidence_score" dfs)))
    by (apply filter_In; split; assumption).
  destruct (forallb isnull _) eqn:En.
  { rewrite forallb_forall in En. specialize (En v Hv).
    destruct v; try discriminate En; discriminate Hge. }
  destruct (filter ge_threshold _) as [|q0 qs] eqn:Eq; [contradiction|].
  cbv beta iota zeta.
  assert (G : forall x, In x (q0 :: qs) -> ge_threshold x = true).
  { intros x Hx. rewrite <- Eq in Hx. apply filter_In in Hx. tauto. }
  destruct (ge_threshold_numeric q0 (G q0 (or_introl eq_refl)))
    as (q & -> & Hle).
  rewrite save_loop_signal_cons. cbv zeta. rewrite Hok.
  assert (K := save_loop_keeps_signal h (symbol t) (symbol t) b sid qs
                 (mkSt (update_one (signal_filter (symbol t))
                          (signal_update (symbol t) b sid (VNum q)
                                         (utcnow h (calls st)))
                          (generated_id h (calls st)) (coll st))
                       (S (calls st)))).
  destruct (save_loop h (map (signal_record (symbol t) b sid) qs) _)
    as [[st' evs] ok].
  cbn [fst coll] in *. apply K.
  - intros x Hx. apply G. now right.
  - now apply holds_signal_after_write.
Qed.

Lemma process_trades_store_signal h c mf trades st t :
  (forall k, update_raises h k = false) ->
  In t trades -> qualifies h mf t = true ->
  holds_signal (symbol t) (coll (fst (process_trades h c mf trades st))).
Proof.
  intros Hok. revert st.
  induction trades as [|t0 rest IH]; intros st Hin Hq; [contradiction|].
  rewrite process_trades_cons. cbn [fst].
  destruct Hin as [->|Hin].
  - apply process_trades_keep_signal.
    now apply process_trade_stores_signal.
  - now apply IH.
Qed.

(** X13: on a host whose storage accepts the writes, after a run that
    passes startup the collection holds, for every active trade that
    qualifies, a document with that trade's symbol, the trade type "SELL"
    and a numeric score that is at least the threshold as line 146
    compares it, [MIN_SELL_SCORE] narrowed to binary32. *)
Theorem qualifying_trade_is_stored h suggested t :
  (forall k, update_raises h k = false) ->
  startup_ok h = true ->
  In t (active_trades h) ->
  qualifies h (model_file_of h) t = true ->
  exists i d q,
    nth_error (fst (orchestrator_stage2_sell h suggested)) i = Some d
    /\ get "symbol" d = VStr (symbol t)
    /\ get "trade_type" d = VStr "SELL"
    /\ get "sell_score" d = VNum q
    /\ (float32 MIN_SELL_SCORE <= q)%Q.
Proof.
  intros Hok Hs Ht Hq.
  assert (G : holds_signal (symbol t)
                           (fst (orchestrator_stage2_sell h suggested))).
  { unfold startup_ok in Hs. rewrite !andb_true_iff in Hs.
    destruct Hs as [[[E1 E2] E3] E4]. apply negb_true_iff in E2.
    unfold orchestrator_stage2_sell. cbv zeta. fold (model_file_of h).
    rewrite E1, E2, E3, E4. cbn [negb].
    destruct (active_trades h) as [|t0 l0] eqn:Ea; [contradiction|].
    assert (P := process_trades_store_signal h
                   (getenv h "SUGGESTED_TRADES_COLLECTION") (model_file_of h)
                   (t0 :: l0) (mkSt suggested 0) t Hok Ht Hq).
    destruct (process_trades h _ (model_file_of h) (t0 :: l0) _) as [st evs].
    exact P. }
  destruct G as (i & d & q & N & K & S & L).
  apply has_key_iff in K. destruct K as [K1 K2].
  exists i, d, q. repeat split; assumption.
Qed.

Lemma qualifying_trade_is_stored_witness :
  (startup_ok (ex_host (3 # 4) [ex_T2; ex_T1]) = true
   /\ qualifies (ex_host (3 # 4) [ex_T2; ex_T1])
                (model_file_of (ex_host (3 # 4) [ex_T2; ex_T1])) ex_T1
      = true)
  /\ exists i d q,
       nth_error (fst (orchestrator_stage2_sell
                         (ex_host (3 # 4) [ex_T2; ex_T1]) [])) i = Some d
       /\ get "symbol" d = VStr "BTCUSDT"
       /\ get "trade_type" d = VStr "SELL"
       /\ get "sell_score" d = VNum q
       /\ (float32 MIN_SELL_SCORE <= q)%Q.
Proof.
  assert (H1 : startup_ok (ex_host (3 # 4) [ex_T2; ex_T1]) = true)
    by reflexivity.
  assert (H2 : qualifies (ex_host (3 # 4) [ex_T2; ex_T1])
                         (model_file_of (ex_host (3 # 4) [ex_T2; ex_T1]))
                         ex_T1 = true) by (vm_compute; reflexivity).
  split; [split; assumption|].
  apply (qualifying_trade_is_stored (ex_host (3 # 4) [ex_T2; ex_T1]) []
                                    ex_T1 (fun _ => eq_refl) H1).
  - right. now left.
  - exact H2.
Defined.
